(** * i.landsat.import: timestamp derivation and band resolution

    A shallow embedding of the core of [i.landsat.import.py] and
    [timestamp.py]: scene identification, spectral-set expansion, band
    ordering, band-name resolution, the metadata timestamp parser and the
    timestamp renderings.

    Conventions of the embedding.
    - Python [str] values are Rocq [string]s (sequences of 8-bit characters,
      the ASCII fragment of Python's text).
    - A Python expression that can raise is a value of [result]; the
      exception classes that occur are the constructors of [exn].
    - Dictionaries are [gmap]s; the set built by [set(...)] is a [gset].
    - Python floats are IEEE binary64 values, [spec_float] at precision 53.
    - The [options] table, a global of the script, and the answer of
      [grass.overwrite()] are a section variable; [tgis] and the other
      parameters are arguments. The flags that [main] keeps in its local
      names are not visible to the other functions of
      [i.landsat.import.py]: a read of one of them is [unbound_name]. In
      [timestamp.py] the flag [skip_microseconds] is a parameter. *)

From Stdlib Require Import ZArith NArith Ascii String SpecFloat.
From stdpp Require Import base option list strings gmap sets sorting.

Local Open Scope string_scope.

(** ** Exceptions and fallible results *)

Inductive exn : Type :=
  | ValueError (msg : string)
  | IndexError
  | KeyError (key : string)
  | TypeError
  | OverflowError
  | UnboundLocalError (name : string)
  | NameError (name : string)
  | OSError (path : string)
  | ShortcutError (module : string)
  | Fatal (msg : string).

Inductive result (A : Type) : Type :=
  | Ok (a : A)
  | Raise (e : exn).
Arguments Ok {A} a.
Arguments Raise {A} e.

#[global] Instance result_ret : MRet result := λ A, Ok.
#[global] Instance result_bind : MBind result := λ A B k r,
  match r with
  | Ok a => k a
  | Raise e => Raise e
  end.

#[global] Instance result_fmap : FMap result := λ A B f r,
  match r with
  | Ok a => Ok (f a)
  | Raise e => Raise e
  end.

Definition is_ok {A} (r : result A) : bool :=
  match r with Ok _ => true | Raise _ => false end.

(** [try: body except: handler] for a handler that replaces every exception. *)
Definition except_all {A} (r : result A) (handler : result A) : result A :=
  match r with
  | Ok a => Ok a
  | Raise _ => handler
  end.

(** The read of a name that the module binds nowhere at its top level.
    [main] of [i.landsat.import.py] assigns the flags, the output file and
    the list of timestamps to names of its own (lines 825-882): they are
    locals of [main]. Another function of the module that reads one of
    them, or a constant that the module does not import, looks the name up
    among the globals of the module, finds none and raises [NameError]. *)
Definition unbound_name {A} (name : string) : result A :=
  Raise (NameError name).

(** ** Python string primitives *)

Module Str.

Definition chr (n : nat) : ascii := ascii_of_nat n.
Definition ord (c : ascii) : N := N_of_ascii c.

(** [c.isdigit()] on the ASCII range. *)
Definition is_digit (c : ascii) : bool :=
  (48 <=? ord c)%N && (ord c <=? 57)%N.

(** Whitespace removed by [str.strip()]: TAB, LF, VT, FF, CR, the four
    separators FS..US and the space. *)
Definition is_space (c : ascii) : bool :=
  ((9 <=? ord c)%N && (ord c <=? 13)%N)
  || ((28 <=? ord c)%N && (ord c <=? 32)%N).

Fixpoint all_chars (p : ascii → bool) (s : string) : bool :=
  match s with
  | EmptyString => true
  | String c s' => p c && all_chars p s'
  end.

(** [s.isdigit()]: non-empty and made of digits. *)
Definition isdigit (s : string) : bool :=
  match s with
  | EmptyString => false
  | _ => all_chars is_digit s
  end.

(** [s.startswith(prefix)]. *)
Fixpoint startswith (prefix s : string) : bool :=
  match prefix, s with
  | EmptyString, _ => true
  | String a prefix', String b s' => Ascii.eqb a b && startswith prefix' s'
  | String _ _, EmptyString => false
  end.

(** [sub in s]. *)
Fixpoint contains (sub s : string) : bool :=
  startswith sub s
  || match s with
     | EmptyString => false
     | String _ s' => contains sub s'
     end.

Fixpoint has_char (c : ascii) (s : string) : bool :=
  match s with
  | EmptyString => false
  | String d s' => Ascii.eqb c d || has_char c s'
  end.

(** [s.split(c)] for a one-character separator: never the empty list. *)
Fixpoint split (c : ascii) (s : string) : list string :=
  match s with
  | EmptyString => [EmptyString]
  | String d s' =>
      if Ascii.eqb c d then EmptyString :: split c s'
      else match split c s' with
           | [] => [String d EmptyString]
           | w :: ws => String d w :: ws
           end
  end.

Fixpoint drop (n : nat) (s : string) : string :=
  match n, s with
  | O, _ => s
  | S n', String _ s' => drop n' s'
  | S _, EmptyString => EmptyString
  end.

(** [s.partition(sep)]: the text before the first occurrence of [sep],
    [sep] itself and the text after it; [s] and two empty strings without
    occurrence. *)
Fixpoint partition (sep s : string) : string * string * string :=
  if startswith sep s then (EmptyString, sep, drop (String.length sep) s)
  else match s with
       | EmptyString => (EmptyString, EmptyString, EmptyString)
       | String c s' =>
           let '(a, m, b) := partition sep s' in (String c a, m, b)
       end.

Fixpoint lstrip (s : string) : string :=
  match s with
  | String c s' => if is_space c then lstrip s' else s
  | EmptyString => EmptyString
  end.

Fixpoint rstrip_by (p : ascii → bool) (s : string) : string :=
  match s with
  | EmptyString => EmptyString
  | String c s' =>
      match rstrip_by p s' with
      | EmptyString => if p c then EmptyString else String c EmptyString
      | t => String c t
      end
  end.

Definition rstrip : string → string := rstrip_by is_space.
Definition strip (s : string) : string := rstrip (lstrip s).

(** [s.rstrip('\n')]. *)
Definition rstrip_newline : string → string :=
  rstrip_by (Ascii.eqb (chr 10)).

(** [s.replace(c, '')] and [s.translate(str.maketrans('', '', c))]. *)
Fixpoint delete_char (c : ascii) (s : string) : string :=
  match s with
  | EmptyString => EmptyString
  | String d s' =>
      if Ascii.eqb c d then delete_char c s' else String d (delete_char c s')
  end.

Fixpoint last_char (s : string) : option ascii :=
  match s with
  | EmptyString => None
  | String c EmptyString => Some c
  | String _ s' => last_char s'
  end.

(** [s.endswith(c)] for a one-character suffix. *)
Definition endswith_char (c : ascii) (s : string) : bool :=
  match last_char s with
  | Some d => Ascii.eqb c d
  | None => false
  end.

Fixpoint repeat_char (c : ascii) (n : nat) : string :=
  match n with
  | O => EmptyString
  | S n' => String c (repeat_char c n')
  end.

(** [s.zfill(width)]: zeros go after a leading sign. *)
Definition zfill (width : nat) (s : string) : string :=
  let fill := repeat_char "0" (width - String.length s) in
  match s with
  | String c s' =>
      if Ascii.eqb c "+" || Ascii.eqb c "-" then String c (fill ++ s')
      else fill ++ s
  | EmptyString => fill
  end.

(** [sep.join(parts)]. *)
Definition join (sep : string) (parts : list string) : string :=
  String.concat sep parts.

(** [s[i:j]] for non-negative bounds. *)
Definition slice (i j : nat) (s : string) : string :=
  String.substring i (j - i) s.

(** [s[-1:]]. *)
Definition last1 (s : string) : string :=
  match last_char s with
  | Some c => String c EmptyString
  | None => EmptyString
  end.

(** [l[i]] on a list. *)
Definition nth {A} (i : nat) (l : list A) : result A :=
  match l !! i with
  | Some a => Ok a
  | None => Raise IndexError
  end.

(** [l[-1]] on a list. *)
Definition last_item {A} (l : list A) : result A :=
  match last l with
  | Some a => Ok a
  | None => Raise IndexError
  end.

End Str.

(** ** Python numbers: [int], [float], [round] and [format] *)

Module Num.

Local Open Scope Z_scope.

Definition digit_val (c : ascii) : Z := Z.of_N (Str.ord c) - 48.

Definition digit_char (d : N) : ascii := ascii_of_N (48 + d).

(** Value of a string of decimal digits, most significant first. *)
Fixpoint digits_val (acc : Z) (s : string) : Z :=
  match s with
  | EmptyString => acc
  | String c s' => digits_val (10 * acc + digit_val c) s'
  end.

(** Decimal digits of [n], least significant produced first. *)
Fixpoint dec_digits (fuel : nat) (n : N) (acc : string) : string :=
  match fuel with
  | O => acc
  | S fuel' =>
      let acc' := String (digit_char (n mod 10)) acc in
      if (n <? 10)%N then acc' else dec_digits fuel' (n / 10) acc'
  end.

(** [str(n)] for a natural number. *)
Definition str_of_N (n : N) : string :=
  dec_digits (S (N.to_nat (N.log2 n))) n EmptyString.

(** The [w] least significant decimal digits of [n], zero padded. *)
Fixpoint fixed_digits (w : nat) (n : N) : string :=
  match w with
  | O => EmptyString
  | S w' => fixed_digits w' (n / 10) ++ String (digit_char (n mod 10)) EmptyString
  end.

(** [str(z)] for an integer. *)
Definition str_of_Z (z : Z) : string :=
  match z with
  | Zneg p => String "-" (str_of_N (Npos p))
  | _ => str_of_N (Z.to_N z)
  end.

(** [format(z, '02d')]: zero padded to width two, the sign first. *)
Definition format_02d (z : Z) : string := Str.zfill 2 (str_of_Z z).

(** Underscores of a numeric literal: each one sits between two digits.
    Returns the literal without them. *)
Fixpoint drop_underscores (prev_digit : bool) (s : string) : option string :=
  match s with
  | EmptyString => Some EmptyString
  | String c s' =>
      if Ascii.eqb c "_" then
        match s' with
        | String d _ =>
            if prev_digit && Str.is_digit d then drop_underscores false s'
            else None
        | EmptyString => None
        end
      else String c <$> drop_underscores (Str.is_digit c) s'
  end.

(** An optional sign, split off. [true] is minus. *)
Definition split_sign (s : string) : bool * string :=
  match s with
  | String c s' =>
      if Ascii.eqb c "-" then (true, s')
      else if Ascii.eqb c "+" then (false, s')
      else (false, s)
  | EmptyString => (false, s)
  end.

(** [int(s)] in base ten: surrounding whitespace, a sign, digits with
    single underscores between them. Digits outside ASCII and the limit on
    the length of the literal are outside the model. *)
Definition int (s : string) : result Z :=
  let bad := Raise (ValueError "invalid literal for int() with base 10") in
  let '(neg, body) := split_sign (Str.strip s) in
  match drop_underscores false body with
  | Some ds =>
      if Str.isdigit ds
      then Ok (if neg then - digits_val 0 ds else digits_val 0 ds)
      else bad
  | None => bad
  end.

(** *** Binary64 *)

Definition float := spec_float.
Definition prec : Z := 53.
Definition emax : Z := 1024.

(** The double nearest to [(-1)^neg * num / den], ties to even. *)
Definition nearest_ratio (neg : bool) (num den : positive) : float :=
  SFdiv prec emax (S754_finite neg num 0) (S754_finite false den 0).

(** The double nearest to [(-1)^neg * m * 10^e10]. *)
Definition nearest_decimal (neg : bool) (m : Z) (e10 : Z) : float :=
  match m with
  | Zpos p =>
      if (0 <=? e10)%Z
      then binary_round prec emax neg (p * Z.to_pos (10 ^ e10)) 0
      else nearest_ratio neg p (Z.to_pos (10 ^ (- e10)))
  | _ => S754_zero neg
  end.

(** Conversion of an [int] operand in mixed arithmetic. *)
Definition float_of_Z (z : Z) : result float :=
  match binary_normalize prec emax z 0 false with
  | S754_infinity _ => Raise OverflowError
  | x => Ok x
  end.

Fixpoint span_digits (s : string) : string * string :=
  match s with
  | String c s' =>
      if Str.is_digit c
      then let '(d, r) := span_digits s' in (String c d, r)
      else (EmptyString, s)
  | EmptyString => (EmptyString, EmptyString)
  end.

Definition lower (c : ascii) : ascii :=
  if ((65 <=? Str.ord c)%N && (Str.ord c <=? 90)%N)
  then ascii_of_N (Str.ord c + 32) else c.

Fixpoint lowercase (s : string) : string :=
  match s with
  | EmptyString => EmptyString
  | String c s' => String (lower c) (lowercase s')
  end.

(** The exponent part of a float literal: empty, or [e], a sign and
    digits. *)
Definition parse_exponent (s : string) : option Z :=
  match s with
  | EmptyString => Some 0%Z
  | String c s' =>
      if Ascii.eqb (lower c) "e" then
        let '(neg, ds) := split_sign s' in
        if Str.isdigit ds
        then Some (if neg then - digits_val 0 ds else digits_val 0 ds)%Z
        else None
      else None
  end.

(** [float(s)]: surrounding whitespace, a sign, then [inf], [infinity],
    [nan] or a decimal literal with optional fraction and exponent,
    correctly rounded. *)
Definition float_of_str (s : string) : result float :=
  let bad := Raise (ValueError "could not convert string to float") in
  match drop_underscores false (Str.strip s) with
  | None => bad
  | Some lit =>
      let '(neg, body) := split_sign lit in
      let word := lowercase body in
      if String.eqb word "inf" || String.eqb word "infinity"
      then Ok (S754_infinity neg)
      else if String.eqb word "nan" then Ok S754_nan
      else
        let '(ip, r1) := span_digits body in
        let '(fp, r2) :=
          match r1 with
          | String c r =>
              if Ascii.eqb c "." then span_digits r else (EmptyString, r1)
          | EmptyString => (EmptyString, EmptyString)
          end in
        match ip ++ fp, parse_exponent r2 with
        | EmptyString, _ => bad
        | _, None => bad
        | ds, Some e =>
            Ok (nearest_decimal neg (digits_val 0 ds)
                  (e - Z.of_nat (String.length fp)))
        end
  end.

(** Integer quotient rounded to nearest, ties to even. *)
Definition div_rne (a b : Z) : Z :=
  let q := (a / b)%Z in
  match (2 * (a mod b) ?= b)%Z with
  | Lt => q
  | Gt => (q + 1)%Z
  | Eq => if Z.even q then q else (q + 1)%Z
  end.

(** [|x| * 10^6] rounded to an integer, for a finite [x = m * 2^e]:
    the number of millionths that decimal conversion to six places
    yields. *)
Definition millionths (m : positive) (e : Z) : Z :=
  if (0 <=? e)%Z then (Zpos m * 2 ^ e * 1000000)%Z
  else div_rne (Zpos m * 1000000) (2 ^ (- e)).

(** [round(x, 6)]: decimal rounding to six places, converted back to the
    nearest double. *)
Definition round6 (x : float) : float :=
  match x with
  | S754_finite s m e =>
      match millionths m e with
      | Zpos n => nearest_ratio s n 1000000
      | _ => S754_zero s
      end
  | _ => x
  end.

(** [format(x, '.6f')]. *)
Definition format_6f (x : float) : string :=
  let render (s : bool) (n : N) :=
    (if s then "-" else EmptyString)
    ++ str_of_N (n / 1000000) ++ "." ++ fixed_digits 6 (n mod 1000000) in
  match x with
  | S754_zero s => render s 0%N
  | S754_finite s m e => render s (Z.to_N (millionths m e))
  | S754_infinity s => if s then "-inf" else "inf"
  | S754_nan => "nan"
  end.

Definition float_add : float → float → float := SFadd prec emax.
Definition float_div : float → float → float := SFdiv prec emax.

(** [x < 10] for a float [x]. *)
Definition float_lt_10 (x : float) : bool :=
  SFltb x (binary_round prec emax false 10 0).

End Num.

(** ** [datetime.strptime] and [datetime.strftime] for the formats in use *)

Module Datetime.

Local Open Scope Z_scope.

(** A directive of the format is a regular expression with ordered
    alternatives; a matcher lists the ways it can consume a prefix of the
    text, in the order a backtracking engine tries them. *)
Definition matcher := string → list (string * string).

Definition one (p : ascii → bool) : matcher := λ s,
  match s with
  | String c s' => if p c then [(String c EmptyString, s')] else []
  | EmptyString => []
  end.

Definition between (lo hi : ascii) : ascii → bool := λ c,
  (Str.ord lo <=? Str.ord c)%N && (Str.ord c <=? Str.ord hi)%N.

Definition seq (a b : matcher) : matcher := λ s,
  '(x, r) ← a s; '(y, r') ← b r; [(x ++ y, r')].

Definition alt (ms : list matcher) : matcher := λ s, m ← ms; m s.

Definition lit (c : ascii) : matcher := one (Ascii.eqb c).
Definition digit : matcher := one Str.is_digit.

(** [%Y]: [\d\d\d\d]. *)
Definition dir_Y : matcher := seq digit (seq digit (seq digit digit)).
(** [%m]: [1[0-2]|0[1-9]|[1-9]]. *)
Definition dir_m : matcher :=
  alt [seq (lit "1") (one (between "0" "2"));
       seq (lit "0") (one (between "1" "9"));
       one (between "1" "9")].
(** [%d]: [3[0-1]|[1-2]\d|0[1-9]|[1-9]| [1-9]]. *)
Definition dir_d : matcher :=
  alt [seq (lit "3") (one (between "0" "1"));
       seq (one (between "1" "2")) digit;
       seq (lit "0") (one (between "1" "9"));
       one (between "1" "9");
       seq (lit " ") (one (between "1" "9"))].
(** [%H]: [2[0-3]|[0-1]\d|\d]. *)
Definition dir_H : matcher :=
  alt [seq (lit "2") (one (between "0" "3"));
       seq (one (between "0" "1")) digit;
       digit].
(** [%M]: [[0-5]\d|\d]. *)
Definition dir_M : matcher :=
  alt [seq (one (between "0" "5")) digit; digit].
(** [%S]: [6[0-1]|[0-5]\d|\d]. *)
Definition dir_S : matcher :=
  alt [seq (lit "6") (one (between "0" "1"));
       seq (one (between "0" "5")) digit;
       digit].
(** [%f]: [[0-9]{1,6}], greedy. *)
Fixpoint upto (n : nat) : matcher :=
  match n with
  | O => λ s, [(EmptyString, s)]
  | S n' => alt [seq digit (upto n'); λ s, [(EmptyString, s)]]
  end.
Definition dir_f : matcher := seq digit (upto 5).

Definition bad_format {A} : result A :=
  Raise (ValueError "time data does not match format").
Definition unconverted {A} : result A :=
  Raise (ValueError "unconverted data remains").

(** The first way the whole pattern matches; the match has to end where
    the text ends. *)
Definition first_match {A} (ways : list (A * string)) : result A :=
  match ways with
  | [] => bad_format
  | (a, EmptyString) :: _ => Ok a
  | (_, String _ _) :: _ => unconverted
  end.

Definition is_leap (y : Z) : bool :=
  (y mod 4 =? 0) && (negb (y mod 100 =? 0) || (y mod 400 =? 0)).

Definition days_in_month (y m : Z) : Z :=
  if m =? 2 then (if is_leap y then 29 else 28)
  else if (m =? 4) || (m =? 6) || (m =? 9) || (m =? 11) then 30
  else 31.

Record date := { year : Z; month : Z; day : Z }.
Record time := { hour : Z; minute : Z; second : Z; microsecond : Z }.

(** [datetime.strptime(s, '%Y-%m-%d')]. *)
Definition strptime_Ymd (s : string) : result date :=
  '(ys, ms, ds) ← first_match
    ('(y, r) ← dir_Y s; '(_, r) ← lit "-" r; '(m, r) ← dir_m r;
     '(_, r) ← lit "-" r; '(d, r) ← dir_d r; [((y, m, d), r)]);
  y ← Num.int ys; m ← Num.int ms; d ← Num.int ds;
  if y <? 1 then Raise (ValueError "year 0 is out of range")
  else if d <=? days_in_month y m
  then Ok {| year := y; month := m; day := d |}
  else Raise (ValueError "day is out of range for month").

(** [datetime.strptime(s, '%H:%M:%S')] and, with [fraction],
    [datetime.strptime(s, '%H:%M:%S.%f')]. *)
Definition strptime_HMS (fraction : bool) (s : string) : result time :=
  '(hs, ms, ss, fs) ← first_match
    ('(h, r) ← dir_H s; '(_, r) ← lit ":" r; '(m, r) ← dir_M r;
     '(_, r) ← lit ":" r; '(sec, r) ← dir_S r;
     if fraction
     then '(_, r) ← lit "." r; '(f, r) ← dir_f r; [((h, m, sec, f), r)]
     else [((h, m, sec, "0"), r)]);
  h ← Num.int hs; m ← Num.int ms; sec ← Num.int ss;
  f ← Num.int (fs ++ Str.repeat_char "0" (6 - String.length fs));
  if sec <=? 59
  then Ok {| hour := h; minute := m; second := sec; microsecond := f |}
  else Raise (ValueError "second must be in 0..59").

Definition two (z : Z) : string := Num.fixed_digits 2 (Z.to_N z).

(** Month abbreviations of [%b] in the C locale. *)
Definition month_abbr (m : Z) : string :=
  nth (Z.to_nat (m - 1))
    ["Jan"; "Feb"; "Mar"; "Apr"; "May"; "Jun";
     "Jul"; "Aug"; "Sep"; "Oct"; "Nov"; "Dec"] EmptyString.

(** [datetime.strftime(d, '%d %b %Y')], for a four-digit year. *)
Definition strftime_dbY (d : date) : string :=
  two (day d) ++ " " ++ month_abbr (month d) ++ " "
  ++ Num.str_of_N (Z.to_N (year d)).

(** [datetime.strftime(t, '%H:%M:%S')] and, with [fraction],
    [datetime.strftime(t, '%H:%M:%S.%f')]. *)
Definition strftime_HMS (fraction : bool) (t : time) : string :=
  two (hour t) ++ ":" ++ two (minute t) ++ ":" ++ two (second t)
  ++ (if fraction
      then "." ++ Num.fixed_digits 6 (Z.to_N (microsecond t))
      else EmptyString).

End Datetime.

(** ** The modules the script imports

    [constants.py], [identifiers.py] and [metadata.py] are read by the two
    source files below; their contents are parameters of the development. *)

(** [constants.py]. *)
Class Constants := {
  DATE_STRINGS : list string;
  TIME_STRINGS : list string;
  ZERO_TIMEZONE : string;
  MONTHS : gmap string string;
  MTL_STRING : string;
  QA_STRING : string;
  IMAGE_QUALITY_STRINGS : list string;
  GRASS_VERBOSITY_LELVEL_3 : string;
}.

(** [identifiers.py]. The two tables of [LANDSAT_IDENTIFIERS] are kept in
    their enumeration order; [re_match template text] is the outcome of
    [re.match(template, text)]: [None] when the call raises. *)
Class Identifiers := {
  scene_template : list (string * string);
  band_template : gmap string string;
  LANDSAT_BANDS : gmap string (list string);
  GEOTIFF_EXTENSION : string;
  re_match : string → string → option bool;
}.

(** What a function of the script sees of one run: the entries of the
    global [options] table that it reads, and the answer of
    [grass.overwrite()]. *)
Record run := {
  opt_timestamp : string;
  opt_prefix : string;
  overwrite : bool;
}.

(** ** Process state: files, handles and the calls made to GRASS *)

Inductive event : Type :=
  | Message (text : string)
  | SetEnv (name value : string)
  | RunCommand (module : string) (args : list (string * string)).

Record world := {
  files : gmap string string;
  listing : gmap string (list string);
  next_fd : nat;
  open_fds : gset nat;
  current_mapset : string;
  rasters : gset (string * string);
  timestamps : list string;
  log : list event;
}.

Definition io (A : Type) : Type := world → result A * world.

#[global] Instance io_ret : MRet io := λ A a w, (Ok a, w).
#[global] Instance io_bind : MBind io := λ A B k m w,
  match m w with
  | (Ok a, w') => k a w'
  | (Raise e, w') => (Raise e, w')
  end.

Definition lift {A} (r : result A) : io A := λ w, (r, w).

Definition set_handles (n : nat) (fds : gset nat) (w : world) : world :=
  {| files := files w; listing := listing w; next_fd := n; open_fds := fds;
     current_mapset := current_mapset w; rasters := rasters w;
     timestamps := timestamps w; log := log w |}.

Definition set_store (mapset : string) (rs : gset (string * string))
    (w : world) : world :=
  {| files := files w; listing := listing w; next_fd := next_fd w;
     open_fds := open_fds w; current_mapset := mapset; rasters := rs;
     timestamps := timestamps w; log := log w |}.

Definition set_output (ts : list string) (l : list event) (w : world)
  : world :=
  {| files := files w; listing := listing w; next_fd := next_fd w;
     open_fds := open_fds w; current_mapset := current_mapset w;
     rasters := rasters w; timestamps := ts; log := l |}.

Definition emit (e : event) : io unit := λ w,
  (Ok tt, set_output (timestamps w) (log w ++ [e]) w).

(** [timestamps.append(message)]. *)
Definition append_timestamp (message : string) : io unit := λ w,
  (Ok tt, set_output (timestamps w ++ [message]) (log w) w).

(** [if b: m]. *)
Definition when (b : bool) (m : io unit) : io unit :=
  if b then m else mret tt.

(** [for x in xs: body(x)]. *)
Fixpoint for_each {A} (xs : list A) (body : A → io unit) : io unit :=
  match xs with
  | [] => mret tt
  | x :: xs => _ ← body x; for_each xs body
  end.

(** [os.listdir(path)]. *)
Definition listdir (path : string) : io (list string) := λ w,
  match listing w !! path with
  | Some names => (Ok names, w)
  | None => (Raise (OSError path), w)
  end.

(** [open(os.devnull, 'w')]: a fresh handle. *)
Definition open_devnull : io nat := λ w,
  (Ok (next_fd w), set_handles (S (next_fd w)) ({[next_fd w]} ∪ open_fds w) w).

(** [grass.find_file(name, element='cell', mapset='.')['file']] as a truth
    value: whether the current mapset holds the raster. *)
Definition find_file (name : string) : io bool := λ w,
  (Ok (bool_decide ((current_mapset w, name) ∈ rasters w)), w).

(** [g.mapset -c]: the mapset becomes the current one. *)
Definition g_mapset (mapset : string) : io unit := λ w,
  (Ok tt,
   set_store mapset (rasters w)
     (set_output (timestamps w)
        (log w ++ [RunCommand "g.mapset" [("flags", "c"); ("mapset", mapset)]])
        w)).

(** [r.in.gdal] and [r.external]: the raster [output] appears in the
    current mapset. *)
Definition import_raster (module output : string)
    (parameters : list (string * string)) : io unit := λ w,
  (Ok tt,
   set_store (current_mapset w) ({[(current_mapset w, output)]} ∪ rasters w)
     (set_output (timestamps w) (log w ++ [RunCommand module parameters]) w)).

(** [open(path)]: a fresh handle on the text of the file, or [OSError]. *)
Definition py_open (path : string) : io (nat * string) := λ w,
  match files w !! path with
  | Some text =>
      (Ok (next_fd w, text),
       set_handles (S (next_fd w)) ({[next_fd w]} ∪ open_fds w) w)
  | None => (Raise (OSError path), w)
  end.

(** [handle.close()]. *)
Definition py_close (fd : nat) (w : world) : world :=
  set_handles (next_fd w) (open_fds w ∖ {[fd]}) w.

(** [handle.readlines()]: the lines of the text, each with its newline. *)
Fixpoint readlines (text : string) : list string :=
  match text with
  | EmptyString => []
  | String c rest =>
      if Ascii.eqb c (Str.chr 10) then String c EmptyString :: readlines rest
      else match readlines rest with
           | [] => [String c EmptyString]
           | l :: ls => String c l :: ls
           end
  end.

(** [metadata.py]: the path of the metadata file of a scene. *)
Class Metadata := {
  get_metafile : string → bool → string;
  copy_mtl_in_cell_misc : string → string → bool → bool → bool → io unit;
}.

(** ** The timestamp of a scene *)

(** What [get_timestamp] returns: the manual override, a [str], or the
    dictionary filled from the metadata file. *)
Inductive timestamp : Type :=
  | Manual (text : string)
  | Parsed (date_time : gmap string string).

Definition quote : ascii := Str.chr 34.
Definition TAB : string := String (Str.chr 9) EmptyString.
Definition NL : string := String (Str.chr 10) EmptyString.

Section timestamp.
Context {constants : Constants} {metadata : Metadata}.

(** [any(x in line for x in keys)]. *)
Definition any_in (keys : list string) (line : string) : bool :=
  existsb (λ x, Str.contains x line) keys.

Definition validate_date_string (date_string : string) : result unit :=
  match Datetime.strptime_Ymd date_string with
  | Ok _ => Ok tt
  | Raise _ =>
      Raise (ValueError "Incorrect data format, should be YYYY-MM-DD")
  end.

Definition validate_time_string (time_string : string) : result unit :=
  match Datetime.strptime_HMS (Str.has_char "." time_string) time_string with
  | Ok _ => Ok tt
  | Raise _ =>
      Raise (ValueError "Incorrect data format, should be HH:MM:SS.ssssss")
  end.

Definition add_leading_zeroes (real_number : string) (n : nat)
  : result string :=
  let bits := Str.split "." real_number in
  integer ← Str.nth 0 bits;
  real ← Str.nth 1 bits;
  Ok (Str.zfill n integer ++ "." ++ real).

(** Lines 542-547 ([timestamp.py] 87-92): the digits after the dot, taken
    as parts of 10,000,000 and rounded to six places, added to the whole
    seconds. *)
Definition summed_seconds (time seconds : string) : result Num.float :=
  fraction ← Str.nth 1 (Str.split "." time);
  microseconds ← Num.float_of_str fraction;
  let microseconds :=
    Num.round6
      (Num.float_div microseconds (Num.nearest_decimal false 10000000 0)) in
  seconds ← Num.int seconds;
  seconds ← Num.float_of_Z seconds;
  Ok (Num.float_add seconds microseconds).

(** Lines 540-549 ([timestamp.py] 85-94): that sum as text, with six
    decimals and leading zeroes. *)
Definition seconds_with_microseconds (time seconds : string)
  : result string :=
  seconds ← summed_seconds time seconds;
  add_leading_zeroes (Num.format_6f seconds) 2.

(** Lines 551-552 ([timestamp.py] 96-97). *)
Definition drop_fraction_below_10 (seconds : string) : result string :=
  x ← Num.float_of_str seconds;
  if Num.float_lt_10 x then Str.nth 0 (Str.split "." seconds)
  else Ok seconds.

(** The seconds field computed from a time value [hh:mm:ss[.f]]: lines
    538-552 ([timestamp.py] 83-97). *)
Definition render_seconds (skip_microseconds : bool) (time : string)
  : result (string * string * string) :=
  whole ← Str.nth 0 (Str.split "." time);
  match Str.split ":" whole with
  | [hours; minutes; seconds] =>
      seconds ← (if negb skip_microseconds
                 then seconds_with_microseconds time seconds
                 else Ok seconds);
      seconds ← drop_fraction_below_10 seconds;
      Ok (hours, minutes, seconds)
  | _ => Raise (ValueError "not enough or too many values to unpack")
  end.

(** The text after the first [=] of a line:
    [line.strip().split('=')[1].strip()]. *)
Definition value_of (line : string) : result string :=
  v ← Str.nth 1 (Str.split "=" (Str.strip line));
  Ok (Str.strip v).

(** The [get Date] block of the loop body. *)
Definition read_date (line : string) (date_time : gmap string string)
  : result (gmap string string) :=
  if any_in DATE_STRINGS line then
    date ← value_of line;
    let date_time := <["date" := date]> date_time in
    _ ← validate_date_string date;
    Ok date_time
  else Ok date_time.

(** The [get Time] block of the loop body. *)
Definition read_time (skip_microseconds : bool) (line : string)
    (date_time : gmap string string) : result (gmap string string) :=
  if any_in TIME_STRINGS line then
    let line :=
      if Str.has_char quote line then Str.delete_char quote line else line in
    let date_time :=
      if Str.endswith_char "Z" line
      then <["timezone" := ZERO_TIMEZONE]> date_time else date_time in
    time ← value_of line;
    let time := Str.delete_char "Z" time in
    '(hours, minutes, seconds) ← render_seconds skip_microseconds time;
    let time := Str.join ":" [hours; minutes; seconds] in
    _ ← validate_time_string time;
    hours ← Num.int hours;
    minutes ← Num.int minutes;
    Ok (<["seconds" := seconds]>
          (<["minutes" := Num.format_02d minutes]>
             (<["hours" := Num.format_02d hours]> date_time)))
  else Ok date_time.

(** One iteration of [for line in metadata.readlines()]. *)
Definition read_line (skip_microseconds : bool) (line : string)
    (date_time : gmap string string) : result (gmap string string) :=
  let line := Str.rstrip_newline line in
  if (String.length line =? 0)%nat then Ok date_time
  else
    date_time ← read_date line date_time;
    read_time skip_microseconds line date_time.

Fixpoint read_lines (skip_microseconds : bool) (lines : list string)
    (date_time : gmap string string) : result (gmap string string) :=
  match lines with
  | [] => Ok date_time
  | line :: lines =>
      date_time ← read_line skip_microseconds line date_time;
      read_lines skip_microseconds lines date_time
  end.

(** The [try: ... finally: metadata.close()] statement. The name
    [metadata] is bound only once [open] has returned; the [finally]
    clause runs on every exit and raises when the name is unbound. *)
Definition read_metafile (skip_microseconds : bool) (metafile : string)
  : io (gmap string string) := λ w,
  match py_open metafile w with
  | (Ok (metadata, text), w) =>
      let outcome := read_lines skip_microseconds (readlines text) ∅ in
      (outcome, py_close metadata w)
  | (Raise _, w) => (Raise (UnboundLocalError "metadata"), w)
  end.

(** [timestamp[key]]: a [str] does not take a [str] index. *)
Definition subscript (timestamp : timestamp) (key : string)
  : result string :=
  match timestamp with
  | Manual _ => Raise TypeError
  | Parsed date_time =>
      match date_time !! key with
      | Some v => Ok v
      | None => Raise (KeyError key)
      end
  end.

(** The time of day re-rendered through [strptime] and [strftime], as
    [print_timestamp], [build_tgis_timestamp] and [simple_timestamp] do. *)
Definition normalise_time (hours minutes seconds : string)
  : result string :=
  let time := Str.join ":" [hours; minutes; seconds] in
  let time := if negb (Str.has_char "." time) then time ++ ".000000"
              else time in
  let fraction := Str.has_char "." time in
  t ← Datetime.strptime_HMS fraction time;
  Ok (Datetime.strftime_HMS fraction t).

(** The text handed to [r.timestamp] (the [isinstance(timestamp, dict)]
    block of [set_timestamp], [build_r_timestamp] in [timestamp.py]):
    built from a dictionary, passed on unchanged otherwise. *)
Definition build_r_timestamp (timestamp : timestamp) : result string :=
  match timestamp with
  | Parsed _ =>
      date ← subscript timestamp "date";
      '(year, month, day) ←
        (if Str.has_char "-" date then
           match Str.split "-" date with
           | [year; month; day] => Ok (year, month, day)
           | _ => Raise (ValueError
                           "not enough or too many values to unpack")
           end
         else Raise (UnboundLocalError "month"));
      month ← match MONTHS !! month with
               | Some name => Ok name
               | None => Raise (KeyError month)
               end;
      let day_month_year := Str.join " " [day; month; year] in
      hours ← subscript timestamp "hours";
      minutes ← subscript timestamp "minutes";
      seconds ← subscript timestamp "seconds";
      let hours_minutes_seconds := Str.join ":" [hours; minutes; seconds] in
      Ok (Str.join " " [day_month_year; hours_minutes_seconds])
  | Manual text => Ok text
  end.

End timestamp.

(** ** [timestamp.py] *)

Module Timestamp.
Section timestamp_py.
Context {constants : Constants} {metadata : Metadata}.

Definition get_timestamp (scene : string) (skip_microseconds : bool)
  : io (gmap string string) :=
  read_metafile skip_microseconds (get_metafile scene false).

Definition build_tgis_timestamp (prefix scene : string)
    (timestamp : timestamp) : io string :=
  date ← lift (subscript timestamp "date");
  date_Ymd ← lift (Datetime.strptime_Ymd date);
  let date_tgis := Datetime.strftime_dbY date_Ymd in
  hours ← lift (subscript timestamp "hours");
  minutes ← lift (subscript timestamp "minutes");
  seconds ← lift (subscript timestamp "seconds");
  timezone ← lift (subscript timestamp "timezone");
  time ← lift (normalise_time hours minutes seconds);
  _ ← emit (SetEnv "GRASS_VERBOSE" GRASS_VERBOSITY_LELVEL_3);
  mret (prefix ++ scene ++ "|" ++ date_tgis ++ " " ++ time ++ " " ++ timezone).

Definition simple_timestamp (timestamp : timestamp) : result string :=
  date ← subscript timestamp "date";
  date_Ymd ← Datetime.strptime_Ymd date;
  hours ← subscript timestamp "hours";
  minutes ← subscript timestamp "minutes";
  seconds ← subscript timestamp "seconds";
  timezone ← subscript timestamp "timezone";
  time ← normalise_time hours minutes seconds;
  Ok (Str.join " " [date; time; timezone]).

Definition set_timestamp (band : string) (timestamp : timestamp)
  : io unit :=
  timestamp ← lift (build_r_timestamp timestamp);
  emit (RunCommand "r.timestamp"
          [("map", band); ("date", timestamp); ("verbose", "True")]).

End timestamp_py.
End Timestamp.

(** ** [os.path] on POSIX paths *)

Module Path.

(** Index of the last occurrence of [c], counted from [i]. *)
Fixpoint rfind_from (c : ascii) (i : nat) (s : string) : option nat :=
  match s with
  | EmptyString => None
  | String d s' =>
      match rfind_from c (S i) s' with
      | Some j => Some j
      | None => if Ascii.eqb c d then Some i else None
      end
  end.

(** [s.rfind(c)], with [-1] for no occurrence. *)
Definition rfind (c : ascii) (s : string) : Z :=
  match rfind_from c 0 s with
  | Some j => Z.of_nat j
  | None => (-1)%Z
  end.

(** [os.path.basename]. *)
Definition basename (p : string) : string :=
  Str.drop (Z.to_nat (rfind "/" p + 1)) p.

(** [os.path.join] of two components. *)
Definition join (a b : string) : string :=
  if Str.startswith "/" b then b
  else if (String.length a =? 0)%nat || Str.endswith_char "/" a then a ++ b
  else a ++ "/" ++ b.

(** The scan of [splitext] over the leading dots of the last component:
    [true] when a character other than a dot precedes the last dot. *)
Fixpoint has_stem (p : string) (from count : nat) : bool :=
  match count with
  | O => false
  | S count' =>
      match String.get from p with
      | Some c =>
          if Ascii.eqb c "." then has_stem p (S from) count' else true
      | None => false
      end
  end.

(** [os.path.splitext]. *)
Definition splitext (p : string) : string * string :=
  let sepIndex := rfind "/" p in
  let dotIndex := rfind "." p in
  if (sepIndex <? dotIndex)%Z
     && has_stem p (Z.to_nat (sepIndex + 1))
          (Z.to_nat (dotIndex - (sepIndex + 1)))
  then (String.substring 0 (Z.to_nat dotIndex) p,
        Str.drop (Z.to_nat dotIndex) p)
  else (p, EmptyString).

End Path.

(** ** [i.landsat.import.py] *)

(** A band identifier: [get_name_band] returns an [int] or a [str]. *)
Inductive band_id : Type :=
  | BandInt (number : Z)
  | BandStr (token : string).

Module Landsat.
Section landsat.
Context {constants : Constants} {identifiers : Identifiers}
  {metadata : Metadata}.
Variable options : run.

(** The loop of [identify_product_collection] over the entries of
    [LANDSAT_IDENTIFIERS['scene_template']]. A loop that ends without a
    match falls off the function, which returns [None]. When [re.match]
    raises, the handler calls [g.fatal]: [g] is the shortcut of pygrass to
    the modules [g.*], GRASS has no module of that name, and the call
    itself raises, with the exception of the shortcut and not the fatal
    error of [grass.fatal]. *)
Fixpoint identify_in (templates : list (string * string)) (scene : string)
  : result (option string) :=
  match templates with
  | [] => Ok None
  | (template_key, template) :: templates =>
      match re_match template scene with
      | Some true => Ok (Some template_key)
      | Some false => identify_in templates scene
      | None => Raise (ShortcutError "g.fatal")
      end
  end.

Definition identify_product_collection (scene : string)
  : result (option string) :=
  identify_in scene_template scene.

(** [LANDSAT_IDENTIFIERS['band_template'][product_collection]]. *)
Definition band_template_of (product_collection : option string)
  : result string :=
  match product_collection with
  | Some key =>
      match band_template !! key with
      | Some template => Ok template
      | None => Raise (KeyError key)
      end
  | None => Raise (KeyError "None")
  end.

(** Lines 846-851 of [main]: the product collection of the scene and its
    band template. *)
Definition main_identify (scene : string) : result string :=
  product_collection ← identify_product_collection (Path.basename scene);
  except_all (band_template_of product_collection)
    (Raise (Fatal
       "The given scene identifier does not match any known Landsat product file name pattern!")).

(** [requested_bands] after the loop of
    [retrieve_selected_sets_of_bands]. *)
Fixpoint extend_with_sets (spectral_sets : list string)
    (requested_bands : list string) : result (list string) :=
  match spectral_sets with
  | [] => Ok requested_bands
  | spectral_set :: spectral_sets =>
      match LANDSAT_BANDS !! spectral_set with
      | Some bands =>
          extend_with_sets spectral_sets (requested_bands ++ bands)
      | None => Raise (KeyError spectral_set)
      end
  end.

(** [list(set(requested_bands))]: the members of the set, in the order the
    set enumerates them. *)
Definition retrieve_selected_sets_of_bands (spectral_sets : list string)
    (scene : string) : result (list string) :=
  requested_bands ← extend_with_sets spectral_sets [];
  Ok (elements (list_to_set requested_bands : gset string)).

(** The text [item.partition('_B')[2].partition('.')[0]]. *)
Definition band_token (item : string) : string :=
  (Str.partition "." (Str.partition "_B" item).2).1.1.

(** The first component of the sort key: the band number, or [None] for
    [float('inf')]. *)
Definition band_number (item : string) : option Z :=
  if Str.isdigit (band_token item)
  then Some (Num.digits_val 0 (band_token item))
  else None.

(** Order of the keys [(band number or inf, item)], as Python compares
    tuples. *)
Definition key_leb (a b : string) : bool :=
  match band_number a, band_number b with
  | Some x, Some y => (x <? y)%Z || ((x =? y)%Z && String.leb a b)
  | Some _, None => true
  | None, Some _ => false
  | None, None => String.leb a b
  end.

Definition key_le (a b : string) : Prop := key_leb a b = true.

#[global] Instance key_le_dec a b : Decision (key_le a b).
Proof. unfold key_le. apply _. Defined.

(** [sorted(bands, key=...)]. The key order is total and antisymmetric on
    the items, so every sorting algorithm returns the same list. *)
Definition sort_list_of_bands (bands : list string) : list string :=
  merge_sort key_le bands.

(** The characters of a string, as [''.join] iterates over them. *)
Fixpoint chars (s : string) : list string :=
  match s with
  | EmptyString => []
  | String c s' => String c EmptyString :: chars s'
  end.

(** [s[0] == c]. *)
Definition first_is (c : ascii) (s : string) : bool :=
  match s with
  | String d _ => Ascii.eqb c d
  | EmptyString => false
  end.

Definition get_name_band (scene filename : string) (single_mapset : bool)
  : result (string * band_id) :=
  let absolute_filename := Path.join scene filename in
  name ← (if any_in IMAGE_QUALITY_STRINGS absolute_filename
          then token ← Str.last_item
                         (Str.split "_" (Path.splitext absolute_filename).1);
               Ok (Str.join EmptyString (chars token))
          else Str.last_item (Str.split "_" (Path.splitext filename).1));
  band ← (if Str.contains MTL_STRING absolute_filename then
            Raise (Fatal "Detected an MTL file with the .TIF extension!")
          else if Str.contains QA_STRING absolute_filename then
            Ok (BandStr name)
          else if (String.length name =? 3)%nat && first_is "B" name
                  && Str.endswith_char "0" name then
            BandInt <$> Num.int (Str.slice 1 3 name)
          else if (String.length name =? 3)%nat
                  && Str.endswith_char "0" name then
            BandInt <$> Num.int (Str.slice 1 2 name)
          else if (String.length name =? 3)%nat
                  && negb (Str.endswith_char "0" name) then
            BandInt <$> Num.int (Str.slice 1 3 name)
          else
            BandInt <$> Num.int (Str.last1 name));
  let name :=
    if single_mapset then Path.basename scene ++ "_" ++ name else name in
  Ok (name, band).

(** The [get Time] block of the loop of [get_timestamp] in
    [i.landsat.import.py] (lines 523-561). It is the block of
    [timestamp.py] but for one name: [skip_microseconds] is a parameter
    there, and here it is read at line 540 as a name of the module. *)
Definition read_time (line : string) (date_time : gmap string string)
  : result (gmap string string) :=
  if any_in TIME_STRINGS line then
    let line :=
      if Str.has_char quote line then Str.delete_char quote line else line in
    let date_time :=
      if Str.endswith_char "Z" line
      then <["timezone" := ZERO_TIMEZONE]> date_time else date_time in
    time ← value_of line;
    let time := Str.delete_char "Z" time in
    whole ← Str.nth 0 (Str.split "." time);
    match Str.split ":" whole with
    | [hours; minutes; seconds] =>
        skip_microseconds ← unbound_name "skip_microseconds";
        seconds ← (if negb skip_microseconds
                   then seconds_with_microseconds time seconds
                   else Ok seconds);
        seconds ← drop_fraction_below_10 seconds;
        let time := Str.join ":" [hours; minutes; seconds] in
        _ ← validate_time_string time;
        hours ← Num.int hours;
        minutes ← Num.int minutes;
        Ok (<["seconds" := seconds]>
              (<["minutes" := Num.format_02d minutes]>
                 (<["hours" := Num.format_02d hours]> date_time)))
    | _ => Raise (ValueError "not enough or too many values to unpack")
    end
  else Ok date_time.

(** One iteration of [for line in metadata.readlines()] (lines 511-561). *)
Definition read_line (line : string) (date_time : gmap string string)
  : result (gmap string string) :=
  let line := Str.rstrip_newline line in
  if (String.length line =? 0)%nat then Ok date_time
  else
    date_time ← read_date line date_time;
    read_time line date_time.

Fixpoint read_lines (lines : list string)
    (date_time : gmap string string) : result (gmap string string) :=
  match lines with
  | [] => Ok date_time
  | line :: lines =>
      date_time ← read_line line date_time;
      read_lines lines date_time
  end.

(** The [try: ... finally: metadata.close()] statement (lines 508-564). *)
Definition read_metafile (metafile : string) : io (gmap string string) :=
  λ w,
  match py_open metafile w with
  | (Ok (metadata, text), w) =>
      let outcome := read_lines (readlines text) ∅ in
      (outcome, py_close metadata w)
  | (Raise _, w) => (Raise (UnboundLocalError "metadata"), w)
  end.

(** [get_timestamp]: the manual timestamp of the options when one is set,
    the contents of the metadata file otherwise. *)
Definition get_timestamp (scene : string) (tgis : bool) : io timestamp :=
  if negb (String.eqb (opt_timestamp options) EmptyString) then
    mret (Manual (opt_timestamp options))
  else
    date_time ← read_metafile (get_metafile scene tgis);
    mret (Parsed date_time).

(** Lines 572-588 of [print_timestamp]: the fields read from the
    timestamp, the date parsed and the time re-rendered. *)
Definition timestamp_fields (timestamp : timestamp)
  : result (string * Datetime.date * string * string) :=
  date ← subscript timestamp "date";
  date_Ymd ← Datetime.strptime_Ymd date;
  hours ← subscript timestamp "hours";
  minutes ← subscript timestamp "minutes";
  seconds ← subscript timestamp "seconds";
  timezone ← subscript timestamp "timezone";
  time ← normalise_time hours minutes seconds;
  Ok (date, date_Ymd, time, timezone).

(** [print_timestamp]. Under [tgis] the first statement reads the constant
    [GRASS_VERBOSITY_LELVEL_3], which the script does not import, and
    further on the names [tgis_output] and [timestamps] of [main]. *)
Definition print_timestamp (scene : string) (timestamp : timestamp)
    (tgis : bool) : io unit :=
  '(date, date_Ymd, time, timezone) ← lift (timestamp_fields timestamp);
  let date_tgis := Datetime.strftime_dbY date_Ymd in
  message ←
    (if tgis then
       verbosity ← lift (unbound_name "GRASS_VERBOSITY_LELVEL_3");
       _ ← emit (SetEnv "GRASS_VERBOSE" verbosity);
       let message :=
         opt_prefix options ++ scene ++ "|" ++ date_tgis ++ " " ++ time in
       tgis_output ← lift (unbound_name "tgis_output");
       _ ← when (negb (String.eqb tgis_output EmptyString))
             (_ ← lift (unbound_name (A := unit) "timestamps");
              append_timestamp message);
       mret message
     else
       mret ("Date" ++ TAB ++ TAB ++ "Time" ++ NL
             ++ TAB ++ date ++ TAB ++ time ++ " " ++ timezone ++ NL ++ NL));
  emit (Message message).

Definition set_timestamp (band : string) (timestamp : timestamp)
  : io unit :=
  date ← lift (build_r_timestamp timestamp);
  emit (RunCommand "r.timestamp"
          [("map", band); ("date", date); ("verbose", "True")]).

Definition find_existing_band (band : string) : io bool := find_file band.

(** The [bands] argument of [import_geotiffs]: the text ['all'] or a
    list of file names. *)
Inductive selection : Type :=
  | All
  | Filenames (names : list string).

(** [str(band)]. *)
Definition str_of_band (band : band_id) : string :=
  match band with
  | BandInt number => Num.str_of_Z number
  | BandStr token => token
  end.

(** [if force_timestamp: ...] (lines 765-767 and 775-777); the name is a
    local of [main]. *)
Definition forced_timestamp (name : string) (timestamp : timestamp)
  : io unit :=
  force_timestamp ← lift (unbound_name "force_timestamp");
  when force_timestamp
    (_ ← set_timestamp name timestamp;
     emit (Message ("   >>> Forced timestamping for " ++ name))).

(** The body of the loop over the file names of a scene (lines 714-809).
    The flags [skip_import], [override_projection], [link_geotiffs] and
    [do_not_timestamp] are read as names of the module, the first of them
    at line 731. *)
Definition import_band (scene mapset memory : string)
    (single_mapset list_bands tgis : bool) (timestamp : timestamp)
    (filename : string) : io unit :=
  if negb (String.eqb (Path.splitext filename).2 GEOTIFF_EXTENSION)
  then mret tt
  else
    '(name, band) ← lift (get_name_band scene filename single_mapset);
    let band_title := "band " ++ str_of_band band in
    let message := str_of_band band ++ TAB ++ filename in
    _ ← when (negb tgis)
          (skip_import ← lift (unbound_name "skip_import");
           when (negb skip_import) (emit (Message message)));
    when (negb (list_bands || tgis))
      (let absolute_filename := Path.join scene filename in
       override_projection ← lift (unbound_name "override_projection");
       let parameters :=
         [("input", absolute_filename); ("output", name);
          ("flags", if override_projection : bool then "o"
                    else EmptyString);
          ("title", band_title); ("quiet", "True")] in
       _ ← open_devnull;
       _ ← g_mapset mapset;
       skip_import ← lift (unbound_name "skip_import");
       present ← find_existing_band name;
       if skip_import && present && negb (overwrite options) then
         _ ← forced_timestamp name timestamp;
         emit (Message (message ++ TAB ++ " [ Exists, skipping ]"))
       else
         present ← find_existing_band name;
         _ ← when (overwrite options && present)
               (_ ← forced_timestamp name timestamp;
                emit (Message (message ++ TAB ++ " [ Exists, overwriting]")));
         skip_import ← lift (unbound_name "skip_import");
         present ← find_existing_band name;
         _ ← when (skip_import && negb present)
               (emit (Message message));
         link_geotiffs ← lift (unbound_name "link_geotiffs");
         _ ← (if link_geotiffs : bool
              then import_raster "r.external" name parameters
              else import_raster "r.in.gdal" name
                     (if (String.length memory =? 0)%nat then parameters
                      else parameters ++ [("memory", memory)]));
         do_not_timestamp ← lift (unbound_name "do_not_timestamp");
         when (negb do_not_timestamp)
           (set_timestamp name timestamp)).

(** [import_geotiffs]. Its last statement hands [copy_mtl], a local of
    [main], to [copy_mtl_in_cell_misc]. *)
Definition import_geotiffs (scene : string) (bands : selection)
    (mapset memory : string) (single_mapset list_bands tgis : bool)
  : io unit :=
  timestamp ← get_timestamp scene tgis;
  _ ← print_timestamp (Path.basename scene) timestamp tgis;
  let mapset := if negb single_mapset then Path.basename scene
                else mapset in
  let message :=
    if negb (list_bands || tgis)
    then "Target Mapset" ++ NL ++ "@" ++ mapset ++ NL ++ NL
    else EmptyString in
  _ ← when (negb tgis)
        (emit (Message (message ++ "Band" ++ TAB ++ "Filename" ++ NL)));
  filenames ← match bands with
               | All => names ← listdir scene;
                        mret (sort_list_of_bands names)
               | Filenames names => mret (sort_list_of_bands names)
               end;
  _ ← for_each filenames
        (import_band scene mapset memory single_mapset list_bands tgis
           timestamp);
  when (negb list_bands && negb tgis)
    (copy_mtl ← lift (unbound_name "copy_mtl");
     copy_mtl_in_cell_misc scene mapset tgis single_mapset copy_mtl).

End landsat.
End Landsat.

(** ** The tables of the imported modules, from their description *)

(** Modelled from the spec: [constants.py] is not among the sources. The
    date and time keys are those of the metadata lines the specification
    quotes, the zero timezone is [+0000], the month table spells the month
    out, and the markers are the tokens of the metadata and
    quality-assessment file names. *)
Definition spec_constants : Constants := {|
  DATE_STRINGS := ["DATE_ACQUIRED"];
  TIME_STRINGS := ["SCENE_CENTER_TIME"];
  ZERO_TIMEZONE := "+0000";
  MONTHS := list_to_map
    [("01", "January"); ("02", "February"); ("03", "March");
     ("04", "April"); ("05", "May"); ("06", "June"); ("07", "July");
     ("08", "August"); ("09", "September"); ("10", "October");
     ("11", "November"); ("12", "December")];
  MTL_STRING := "MTL";
  QA_STRING := "QA";
  IMAGE_QUALITY_STRINGS := ["QA"; "VCID"];
  GRASS_VERBOSITY_LELVEL_3 := "3";
|}.

(** Modelled from the spec: [identifiers.py] is not among the sources. Two
    scene-name templates without metacharacters, for which [re.match] is the
    prefix test, and the spectral sets that the option header of the script
    describes: [oli] is bands 1 to 9, [tirs] bands 10 and 11, [bqa] the
    quality layer, [visible] bands 2 to 4. *)
Definition spec_identifiers : Identifiers := {|
  scene_template := [("collection_1", "LC08_"); ("pre_collection", "LC8")];
  band_template :=
    list_to_map [("collection_1", "LC08_.*_B{band_pattern}\.TIF");
                 ("pre_collection", "LC8.*_B{band_pattern}\.TIF")];
  LANDSAT_BANDS := list_to_map
    [("oli", ["1"; "2"; "3"; "4"; "5"; "6"; "7"; "8"; "9"]);
     ("tirs", ["10"; "11"]);
     ("bqa", ["QA"]);
     ("visible", ["2"; "3"; "4"])];
  GEOTIFF_EXTENSION := ".TIF";
  re_match := λ template text, Some (Str.startswith template text);
|}.

(** Modelled from the spec: [metadata.py] is not among the sources. The
    metadata file of a scene is the file [<scene>/<name>_MTL.txt]; copying
    it into the data base is not modelled. *)
Definition spec_metadata : Metadata := {|
  get_metafile := λ scene _,
    Path.join scene (Path.basename scene ++ "_MTL.txt");
  copy_mtl_in_cell_misc := λ _ _ _ _ _, mret tt;
|}.

(** A run with the manual timestamp [manual], no prefix, and
    [overwriting] for the answer of [grass.overwrite()]. *)
Definition run_with (manual : string) (overwriting : bool) : run := {|
  opt_timestamp := manual;
  opt_prefix := EmptyString;
  overwrite := overwriting;
|}.

(** The two metadata lines of the worked example. *)
Definition date_line : string := "    DATE_ACQUIRED = 2015-06-12".
Definition time_line : string :=
  "    SCENE_CENTER_TIME = " ++ String quote "09:15:23.1234560Z"
  ++ String quote EmptyString.

Definition sample_scene : string := "LC08_L1TP_160043".

Definition sample_metadata : string :=
  "GROUP = PRODUCT_METADATA" ++ NL ++ date_line ++ NL ++ time_line ++ NL
  ++ "END_GROUP = PRODUCT_METADATA" ++ NL.

(** A process state whose only file is the metadata file of the sample
    scene, holding [text]. *)
Definition sample_world (text : string) : world := {|
  files := {[ "LC08_L1TP_160043/LC08_L1TP_160043_MTL.txt" := text ]};
  listing := {[ sample_scene :=
                  ["LC08_L1TP_160043_B10.TIF"; "LC08_L1TP_160043_MTL.txt";
                   "LC08_L1TP_160043_B2.TIF"; "LC08_L1TP_160043_BQA.TIF"] ]};
  next_fd := 3;
  open_fds := ∅;
  current_mapset := "PERMANENT";
  rasters := ∅;
  timestamps := [];
  log := [];
|}.

(** * Vocabulary of the properties *)

Section vocabulary.
Context {constants : Constants} {identifiers : Identifiers}.

(** A scene-name template that does not match the name. *)
Definition rejects (scene : string) (entry : string * string) : Prop :=
  re_match entry.2 scene = Some false.

(** [band] belongs to one of the selected spectral sets. *)
Definition in_selected_set (spectral_sets : list string) (band : string)
  : Prop :=
  ∃ spectral_set members,
    spectral_set ∈ spectral_sets
    ∧ LANDSAT_BANDS !! spectral_set = Some members
    ∧ band ∈ members.

(** Neither a date key nor a time key occurs in the line. *)
Definition unmarked (line : string) : Prop :=
  any_in DATE_STRINGS (Str.rstrip_newline line) = false
  ∧ any_in TIME_STRINGS (Str.rstrip_newline line) = false.

(** The band identifier that the description gives for the last token of a
    file name: [B] and one digit from 1 to 9, [B10] or [B11]. *)
Definition described_band (token : string) : option Z :=
  if String.eqb token "B10" then Some 10%Z
  else if String.eqb token "B11" then Some 11%Z
  else match token with
       | String b (String d EmptyString) =>
           if Ascii.eqb b "B" && Datetime.between "1" "9" d
           then Some (Num.digit_val d) else None
       | _ => None
       end.

(** The name of the raster map for a token. *)
Definition map_name (single_mapset : bool) (scene token : string) : string :=
  if single_mapset then Path.basename scene ++ "_" ++ token else token.

(** The parts of a text [whole.fraction]: no dot and at least two
    characters before the dot, six digits after it. *)
Definition six_decimals (whole fraction : string) : Prop :=
  Str.has_char "." whole = false
  ∧ (2 ≤ String.length whole)%nat
  ∧ String.length fraction = 6%nat
  ∧ Str.all_chars Str.is_digit fraction = true.

(** [a] may stand before [b] in a sorted list of bands: by band number,
    names without a number after those with one, by the text on a tie. *)
Definition band_order (a b : string) : Prop :=
  match Landsat.band_number a, Landsat.band_number b with
  | Some x, Some y => (x < y)%Z ∨ (x = y ∧ String.leb a b = true)
  | Some _, None => True
  | None, Some _ => False
  | None, None => String.leb a b = true
  end.

End vocabulary.

(** A metadata file with neither field. *)
Definition bare_metadata : string :=
  "GROUP = PRODUCT_METADATA" ++ NL ++ "END_GROUP = PRODUCT_METADATA" ++ NL.

(** A metadata file whose time line has no timezone. *)
Definition time_line_without_zone : string :=
  "    SCENE_CENTER_TIME = 09:15:23.1234560".

Definition metadata_without_zone : string :=
  date_line ++ NL ++ time_line_without_zone ++ NL.

(** A metadata file whose date does not parse. *)
Definition malformed_metadata : string :=
  "    DATE_ACQUIRED = 2015/06/12" ++ NL ++ time_line ++ NL.

(** The dictionary that the two lines of the worked example yield. *)
Definition sample_date_time : gmap string string :=
  <["seconds" := "23.123456"]>
    (<["minutes" := "15"]>
       (<["hours" := "09"]>
          (<["timezone" := "+0000"]> (<["date" := "2015-06-12"]> ∅)))).

(** The files of a scene as a directory listing sorted by name gives
    them, and in the order of their bands. *)
Definition lexical_listing : list string :=
  ["LC08_L1TP_160043_B1.TIF"; "LC08_L1TP_160043_B10.TIF";
   "LC08_L1TP_160043_B11.TIF"; "LC08_L1TP_160043_B2.TIF";
   "LC08_L1TP_160043_B3.TIF"; "LC08_L1TP_160043_B4.TIF";
   "LC08_L1TP_160043_B5.TIF"; "LC08_L1TP_160043_B6.TIF";
   "LC08_L1TP_160043_B7.TIF"; "LC08_L1TP_160043_B8.TIF";
   "LC08_L1TP_160043_B9.TIF"; "LC08_L1TP_160043_BQA.TIF";
   "LC08_L1TP_160043_MTL.txt"].

Definition numeric_listing : list string :=
  ["LC08_L1TP_160043_B1.TIF"; "LC08_L1TP_160043_B2.TIF";
   "LC08_L1TP_160043_B3.TIF"; "LC08_L1TP_160043_B4.TIF";
   "LC08_L1TP_160043_B5.TIF"; "LC08_L1TP_160043_B6.TIF";
   "LC08_L1TP_160043_B7.TIF"; "LC08_L1TP_160043_B8.TIF";
   "LC08_L1TP_160043_B9.TIF"; "LC08_L1TP_160043_B10.TIF";
   "LC08_L1TP_160043_B11.TIF"; "LC08_L1TP_160043_BQA.TIF";
   "LC08_L1TP_160043_MTL.txt"].

(** * Vocabulary of the further properties *)

Section lines.
Context {constants : Constants}.

(** A line that holds a date key or a time key. *)
Definition marked (line : string) : bool :=
  any_in DATE_STRINGS (Str.rstrip_newline line)
  || any_in TIME_STRINGS (Str.rstrip_newline line).

End lines.

(** ** Texts that the date and time formats take *)

(** What a matcher consumes: [x] in front of the rest, with [P x]. *)
Definition consumes (m : Datetime.matcher) (P : string → Prop) : Prop :=
  ∀ s x r, (x, r) ∈ m s → s = x ++ r ∧ P x.

(** The first way a matcher consumes a prefix of the text. *)
Definition leads (m : Datetime.matcher) (x r : string) : Prop :=
  ∃ rest, m (x ++ r) = (x, r) :: rest.

(** A text of digits, between [lo] and [hi] of them. *)
Definition digit_run (lo hi : nat) (x : string) : Prop :=
  Str.all_chars Str.is_digit x = true
  ∧ (lo ≤ String.length x ≤ hi)%nat.

(** A text of one or two digits whose value is at most [top]. *)
Definition small_number (top : Z) (x : string) : Prop :=
  Str.isdigit x = true ∧ (String.length x ≤ 2)%nat
  ∧ (0 ≤ Num.digits_val 0 x ≤ top)%Z.

(** Exactly two digits, reading at most [top]. *)
Definition clock_text (top : Z) (x : string) : Prop :=
  digit_run 2 2 x ∧ (Num.digits_val 0 x ≤ top)%Z.

(** A month: one or two digits, from 1 to 12. *)
Definition month_text (x : string) : Prop :=
  small_number 12 x ∧ (1 ≤ Num.digits_val 0 x)%Z.

(** A day of the month: one or two digits, from 1 to 31, or a space and a
    digit other than zero. *)
Definition day_text (x : string) : Prop :=
  (small_number 31 x ∧ (1 ≤ Num.digits_val 0 x)%Z)
  ∨ ∃ c, x = String " " (String c EmptyString)
         ∧ Datetime.between "1" "9" c = true.

(** A text that [int] reads as a number from [lo] to [hi], without a
    hyphen in it. *)
Definition reads_as (lo hi : Z) (x : string) : Prop :=
  ∃ n, Num.int x = Ok n ∧ (lo ≤ n ≤ hi)%Z ∧ Str.has_char "-" x = false.

(** A date of the calendar as [%Y-%m-%d] takes it: a year of four digits
    that is not zero, a month, and a day that the month has. *)
Definition date_text (s : string) : Prop :=
  ∃ ys ms ds year month day,
    s = ys ++ "-" ++ ms ++ "-" ++ ds
    ∧ digit_run 4 4 ys ∧ month_text ms ∧ day_text ds
    ∧ Num.int ys = Ok year ∧ Num.int ms = Ok month ∧ Num.int ds = Ok day
    ∧ (1 ≤ year)%Z ∧ (day ≤ Datetime.days_in_month year month)%Z.

(** A time of day as [%H:%M:%S] and [%H:%M:%S.%f] take it: hours, minutes
    and seconds of one or two digits, at most 23, 59 and 59, and after a
    dot one to six digits. *)
Definition time_text (s : string) : Prop :=
  ∃ hs ms ss,
    small_number 23 hs ∧ small_number 59 ms ∧ small_number 59 ss
    ∧ (s = hs ++ ":" ++ ms ++ ":" ++ ss
       ∨ ∃ fs, digit_run 1 6 fs
               ∧ s = hs ++ ":" ++ ms ++ ":" ++ ss ++ "." ++ fs).

(** Seconds as the time formats take them: one or two digits, at most 59,
    and possibly a dot and one to six digits. *)
Definition seconds_text (x : string) : Prop :=
  ∃ whole,
    small_number 59 whole
    ∧ (x = whole ∨ ∃ fraction, x = whole ++ "." ++ fraction
                                ∧ digit_run 1 6 fraction).

(** The text after the seconds: nothing, or a dot and more. *)
Definition after_seconds (r : string) : Prop :=
  r = EmptyString ∨ ∃ r', r = String "." r'.

(** A date that [strptime] reads, with the ranges of its parts. *)
Definition calendar_date (x : string) : Prop :=
  ∃ date,
    Datetime.strptime_Ymd x = Ok date
    ∧ (1 ≤ Datetime.year date ≤ 9999)%Z
    ∧ (1 ≤ Datetime.month date ≤ 12)%Z
    ∧ (1 ≤ Datetime.day date
       ≤ Datetime.days_in_month (Datetime.year date) (Datetime.month date))%Z.

Section fields.
Context {constants : Constants}.

(** What holds of every dictionary that the metadata parser fills. *)
Definition parsed_fields (d : gmap string string) : Prop :=
  (∀ key, is_Some (d !! key) →
     key ∈ ["date"; "timezone"; "hours"; "minutes"; "seconds"])
  ∧ (∀ x, d !! "date" = Some x → calendar_date x)
  ∧ (∀ x, d !! "timezone" = Some x →
       x = ZERO_TIMEZONE ∧ is_Some (d !! "seconds"))
  ∧ (is_Some (d !! "hours") ↔ is_Some (d !! "seconds"))
  ∧ (is_Some (d !! "minutes") ↔ is_Some (d !! "seconds"))
  ∧ (∀ x, d !! "hours" = Some x → clock_text 23 x)
  ∧ (∀ x, d !! "minutes" = Some x → clock_text 59 x)
  ∧ (∀ x, d !! "seconds" = Some x → seconds_text x).

End fields.

(** The report that [print_timestamp] shows without [tgis]: a heading
    line, then the date, the time and the timezone. *)
Definition report_of (date time timezone : string) : string :=
  "Date" ++ TAB ++ TAB ++ "Time" ++ NL
  ++ TAB ++ date ++ TAB ++ time ++ " " ++ timezone ++ NL ++ NL.

(** ** The calls of GRASS modules in a run *)

(** The modules called, with their parameters, in the order of the calls. *)
Definition commands (l : list event)
  : list (string * list (string * string)) :=
  omap (λ e, match e with
             | RunCommand module args => Some (module, args)
             | _ => None
             end) l.

(** From [w] to [w'] no module of GRASS has been called and nothing has
    changed in the files, the directories and the data base: the log has
    grown by messages and settings of the environment only. *)
Definition quiet (w w' : world) : Prop :=
  files w' = files w ∧ listing w' = listing w
  ∧ rasters w' = rasters w ∧ current_mapset w' = current_mapset w
  ∧ ∃ new, log w' = (log w ++ new)%list ∧ commands new = [].

Section selection.
Context {identifiers : Identifiers}.

(** A file with the extension of a GeoTIFF. *)
Definition is_geotiff (filename : string) : bool :=
  String.eqb (Path.splitext filename).2 GEOTIFF_EXTENSION.

End selection.

(** ** What an action does to the process state *)

(** Whatever its outcome, the action takes a state to one related to it
    by [R]. *)
Definition keeps {A} (R : world → world → Prop) (m : io A) : Prop :=
  ∀ w, R w (m w).2.

(** * Properties *)

(** ** Scene identification *)

Section identification.
Context {identifiers : Identifiers}.

Lemma identify_in_rejected templates scene :
  Forall (rejects scene) templates →
  Landsat.identify_in templates scene = Ok None.
Proof.
  induction 1 as [|[key template] templates Hrej _ IH]; simpl; [done|].
  unfold rejects in Hrej. simpl in Hrej. by rewrite Hrej.
Qed.

Lemma identify_in_first before key template after scene :
  Forall (rejects scene) before →
  re_match template scene = Some true →
  Landsat.identify_in (before ++ (key, template) :: after)%list scene
  = Ok (Some key).
Proof.
  intros Hbefore Hmatch.
  induction Hbefore as [|[k t] before Hrej _ IH]; simpl.
  - by rewrite Hmatch.
  - unfold rejects in Hrej. simpl in Hrej. by rewrite Hrej.
Qed.

(** C4. A scene whose base name matches none of the scene-name templates
    makes the identification step of [main] stop the run with the fatal
    error of [grass.fatal]; [identify_product_collection] itself returns
    [None] there and the lookup of the band template raises. A name that
    some template matches gets the key of the first such template. *)
Theorem identify_product_collection_first_or_fatal (scene : string) :
  (Forall (rejects (Path.basename scene)) scene_template →
   Landsat.identify_product_collection (Path.basename scene) = Ok None
   ∧ Landsat.main_identify scene
     = Raise (Fatal
         "The given scene identifier does not match any known Landsat product file name pattern!"))
  ∧ (∀ before key template after,
       scene_template = (before ++ (key, template) :: after)%list →
       Forall (rejects (Path.basename scene)) before →
       re_match template (Path.basename scene) = Some true →
       Landsat.identify_product_collection (Path.basename scene)
       = Ok (Some key)).
Proof.
  split.
  - intros Hnone.
    assert (Landsat.identify_product_collection (Path.basename scene)
            = Ok None) as Hid
      by (by apply identify_in_rejected).
    split; [done|].
    unfold Landsat.main_identify. by rewrite Hid.
  - intros before key template after Htable Hbefore Hmatch.
    unfold Landsat.identify_product_collection. rewrite Htable.
    by apply identify_in_first.
Qed.

End identification.

Lemma identify_product_collection_first_or_fatal_witness :
  Landsat.main_identify (identifiers := spec_identifiers) "/pool/LE07_L1TP"
  = Raise (Fatal
      "The given scene identifier does not match any known Landsat product file name pattern!")
  ∧ Landsat.identify_product_collection (identifiers := spec_identifiers)
      (Path.basename "/pool/LC81600432015163LGN00")
    = Ok (Some "pre_collection").
Proof.
  split.
  - apply (identify_product_collection_first_or_fatal
             (identifiers := spec_identifiers) "/pool/LE07_L1TP").
    repeat constructor.
  - apply (identify_product_collection_first_or_fatal
             (identifiers := spec_identifiers) "/pool/LC81600432015163LGN00")
      with (before := [("collection_1", "LC08_")]) (template := "LC8")
           (after := []).
    + reflexivity.
    + repeat constructor.
    + reflexivity.
Defined.

(** ** Spectral sets *)

Section spectral_sets.
Context {identifiers : Identifiers}.

Lemma extend_with_sets_members spectral_sets :
  ∀ requested : list string,
  (∀ spectral_set, spectral_set ∈ spectral_sets →
     is_Some (LANDSAT_BANDS !! spectral_set)) →
  ∃ bands,
    Landsat.extend_with_sets spectral_sets requested = Ok bands
    ∧ ∀ band, band ∈ bands ↔
        band ∈ requested ∨ in_selected_set spectral_sets band.
Proof.
  induction spectral_sets as [|s sets IH]; intros requested Hknown; simpl.
  - exists requested. split; [done|]. intros band. split; [by left|].
    intros [?|(s & ? & Hin & _)]; [done|]. by apply elem_of_nil in Hin.
  - destruct (Hknown s) as [members Hs]; [by left|]. rewrite Hs.
    destruct (IH (requested ++ members)%list) as (bands & Hrun & Hmem).
    { intros s' Hs'. apply Hknown. by right. }
    exists bands. split; [done|]. intros band. rewrite Hmem, elem_of_app.
    split.
    + intros [[?|Hb]|(s' & m' & Hin & Hlook & Hb)].
      * by left.
      * right. exists s, members. split; [by left|done].
      * right. exists s', m'. split; [by right|done].
    + intros [?|(s' & m' & Hin & Hlook & Hb)]; [by left; left|].
      apply elem_of_cons in Hin as [->|Hin].
      * left; right. congruence.
      * right. by exists s', m'.
Qed.

(** C7. Expanding a selection of spectral sets, each of them a key of the
    table, returns the union of their members: the returned list has no
    duplicates and holds a band index exactly when one of the selected
    sets holds it. *)
Theorem retrieve_selected_sets_of_bands_union
    (spectral_sets : list string) (scene : string) :
  (∀ spectral_set, spectral_set ∈ spectral_sets →
     is_Some (LANDSAT_BANDS !! spectral_set)) →
  ∃ bands,
    Landsat.retrieve_selected_sets_of_bands spectral_sets scene = Ok bands
    ∧ NoDup bands
    ∧ ∀ band, band ∈ bands ↔ in_selected_set spectral_sets band.
Proof.
  intros Hknown.
  destruct (extend_with_sets_members spectral_sets [] Hknown)
    as (requested & Hrun & Hmem).
  exists (elements (list_to_set requested : gset string)).
  unfold Landsat.retrieve_selected_sets_of_bands. rewrite Hrun. simpl.
  split; [done|]. split; [apply NoDup_elements|].
  intros band. rewrite elem_of_elements, elem_of_list_to_set, Hmem.
  split; [|by right]. intros [Hnil|?]; [|done]. by apply elem_of_nil in Hnil.
Qed.

End spectral_sets.

Lemma retrieve_selected_sets_of_bands_union_witness :
  ∃ bands,
    Landsat.retrieve_selected_sets_of_bands (identifiers := spec_identifiers)
      ["oli"; "visible"; "tirs"] sample_scene = Ok bands
    ∧ NoDup bands
    ∧ ∀ band, band ∈ bands ↔
        in_selected_set (identifiers := spec_identifiers)
          ["oli"; "visible"; "tirs"] band.
Proof.
  apply (retrieve_selected_sets_of_bands_union
           (identifiers := spec_identifiers)).
  intros spectral_set Hin.
  repeat (apply elem_of_cons in Hin as [->|Hin]; [by eexists|]).
  by apply elem_of_nil in Hin.
Defined.

(** ** The metadata file handle *)

Section handle.
Context {constants : Constants} {metadata : Metadata}.

Lemma read_metafile_handles (skip_microseconds : bool) (metafile : string)
    (w : world) :
  open_fds (read_metafile skip_microseconds metafile w).2 ⊆ open_fds w
  ∧ ∀ fd text w1, py_open metafile w = (Ok (fd, text), w1) →
      fd ∈ open_fds w1
      ∧ fd ∉ open_fds (read_metafile skip_microseconds metafile w).2.
Proof.
  unfold read_metafile, py_open.
  destruct (files w !! metafile) as [text|]; simpl.
  - split.
    + intros fd [[->%elem_of_singleton|Hfd]%elem_of_union Hnew]
        %elem_of_difference; [|done].
      by destruct Hnew; apply elem_of_singleton.
    + intros fd text' w1 Hopen. inversion Hopen; subst; simpl. split.
      * apply elem_of_union_l. by apply elem_of_singleton.
      * intros [_ Hnew]%elem_of_difference.
        by apply Hnew, elem_of_singleton.
  - split; [done|]. by intros fd text' w1.
Qed.

Lemma landsat_read_metafile_handles (metafile : string) (w : world) :
  open_fds (Landsat.read_metafile metafile w).2 ⊆ open_fds w
  ∧ ∀ fd text w1, py_open metafile w = (Ok (fd, text), w1) →
      fd ∈ open_fds w1
      ∧ fd ∉ open_fds (Landsat.read_metafile metafile w).2.
Proof.
  unfold Landsat.read_metafile, py_open.
  destruct (files w !! metafile) as [text|]; simpl.
  - split.
    + intros fd [[->%elem_of_singleton|Hfd]%elem_of_union Hnew]
        %elem_of_difference; [|done].
      by destruct Hnew; apply elem_of_singleton.
    + intros fd text' w1 Hopen. inversion Hopen; subst; simpl. split.
      * apply elem_of_union_l. by apply elem_of_singleton.
      * intros [_ Hnew]%elem_of_difference.
        by apply Hnew, elem_of_singleton.
  - split; [done|]. by intros fd text' w1.
Qed.

Lemma get_timestamp_manual (options : run) (scene : string) (tgis : bool)
    (w : world) :
  opt_timestamp options ≠ EmptyString →
  Landsat.get_timestamp options scene tgis w
  = (Ok (Manual (opt_timestamp options)), w).
Proof.
  intros Hset. unfold Landsat.get_timestamp.
  by destruct (String.eqb_spec (opt_timestamp options) EmptyString).
Qed.

Lemma get_timestamp_parsed (options : run) (scene : string) (tgis : bool)
    (w : world) :
  opt_timestamp options = EmptyString →
  Landsat.get_timestamp options scene tgis w
  = let run := Landsat.read_metafile (get_metafile scene tgis) w in
    (Parsed <$> run.1, run.2).
Proof.
  intros Hunset. unfold Landsat.get_timestamp. rewrite Hunset. simpl.
  unfold mbind, io_bind, mret, io_ret.
  by destruct (Landsat.read_metafile _ w) as [[?|?] ?].
Qed.

(** C9. When [get_timestamp] is left, by return or by an exception, no
    file handle is open that was not open when it was entered; the handle
    that [open] returned for the metadata file, held while the lines are
    read, is closed at that point. Both versions of the function. *)
Theorem get_timestamp_releases_handle (options : run) (scene : string)
    (tgis skip : bool) (w : world) :
  open_fds (Landsat.get_timestamp options scene tgis w).2 ⊆ open_fds w
  ∧ open_fds (Timestamp.get_timestamp scene skip w).2 ⊆ open_fds w
  ∧ (∀ fd text w1,
       py_open (get_metafile scene false) w = (Ok (fd, text), w1) →
       fd ∈ open_fds w1
       ∧ fd ∉ open_fds (Timestamp.get_timestamp scene skip w).2)
  ∧ (∀ fd text w1,
       opt_timestamp options = EmptyString →
       py_open (get_metafile scene tgis) w = (Ok (fd, text), w1) →
       fd ∈ open_fds w1
       ∧ fd ∉ open_fds (Landsat.get_timestamp options scene tgis w).2).
Proof.
  split; [|split; [|split]].
  - destruct (decide (opt_timestamp options = EmptyString)) as [Hunset|Hset].
    + rewrite get_timestamp_parsed by done.
      apply landsat_read_metafile_handles.
    + by rewrite get_timestamp_manual.
  - apply read_metafile_handles.
  - intros fd text w1 Hopen. by eapply read_metafile_handles.
  - intros fd text w1 Hunset Hopen.
    rewrite get_timestamp_parsed by done.
    by eapply landsat_read_metafile_handles.
Qed.

End handle.

(** ** A metadata file without date and time *)

Section no_fields.
Context {constants : Constants} {identifiers : Identifiers}
  {metadata : Metadata}.

Lemma read_lines_unmarked (skip : bool) (lines : list string)
    (date_time : gmap string string) :
  Forall unmarked lines → read_lines skip lines date_time = Ok date_time.
Proof.
  induction 1 as [|line lines [Hdate Htime] _ IH]; simpl; [done|].
  unfold read_line, read_date, read_time.
  destruct (_ =? 0)%nat; simpl; [done|]. by rewrite Hdate, Htime.
Qed.

Lemma landsat_read_lines_unmarked (lines : list string)
    (date_time : gmap string string) :
  Forall unmarked lines → Landsat.read_lines lines date_time = Ok date_time.
Proof.
  induction 1 as [|line lines [Hdate Htime] _ IH]; simpl; [done|].
  unfold Landsat.read_line, read_date, Landsat.read_time.
  destruct (_ =? 0)%nat; simpl; [done|]. by rewrite Hdate, Htime.
Qed.

(** C3, as the code has it. For a metadata file none of whose lines holds
    a date key or a time key, [get_timestamp] does not fail: it returns the
    empty dictionary. The run stops in the caller: [print_timestamp] raises
    [KeyError] on the missing date, so [import_geotiffs] ends with that
    exception before any message, import or timestamp call. *)
Theorem get_timestamp_without_fields_is_empty (options : run)
    (scene mapset memory text : string) (bands : Landsat.selection)
    (single_mapset list_bands tgis : bool) (w : world) :
  opt_timestamp options = EmptyString →
  files w !! get_metafile scene tgis = Some text →
  Forall unmarked (readlines text) →
  ∃ w',
    Landsat.get_timestamp options scene tgis w = (Ok (Parsed ∅), w')
    ∧ Landsat.import_geotiffs options scene bands mapset memory
        single_mapset list_bands tgis w
      = (Raise (KeyError "date"), w')
    ∧ log w' = log w ∧ rasters w' = rasters w
    ∧ timestamps w' = timestamps w.
Proof.
  intros Hunset Hfile Hlines.
  assert (Landsat.read_metafile (get_metafile scene tgis) w
          = (Ok ∅, py_close (next_fd w)
                     (set_handles (S (next_fd w))
                        ({[next_fd w]} ∪ open_fds w) w))) as Hread.
  { unfold Landsat.read_metafile, py_open. rewrite Hfile.
    by rewrite landsat_read_lines_unmarked. }
  eexists. split; [|split].
  - rewrite get_timestamp_parsed by done. by rewrite Hread.
  - unfold Landsat.import_geotiffs.
    unfold mbind at 1. unfold io_bind at 1.
    rewrite get_timestamp_parsed by done. rewrite Hread. simpl.
    by unfold Landsat.print_timestamp.
  - done.
Qed.

End no_fields.

Lemma get_timestamp_without_fields_is_empty_witness :
  ∃ w',
    Landsat.get_timestamp (constants := spec_constants)
      (metadata := spec_metadata) (run_with EmptyString false)
      sample_scene false (sample_world bare_metadata)
    = (Ok (Parsed ∅), w')
    ∧ Landsat.import_geotiffs (constants := spec_constants)
        (identifiers := spec_identifiers) (metadata := spec_metadata)
        (run_with EmptyString false) sample_scene Landsat.All
        "PERMANENT" "300" false false false (sample_world bare_metadata)
      = (Raise (KeyError "date"), w')
    ∧ log w' = log (sample_world bare_metadata)
    ∧ rasters w' = rasters (sample_world bare_metadata)
    ∧ timestamps w' = timestamps (sample_world bare_metadata).
Proof.
  apply (get_timestamp_without_fields_is_empty
           (constants := spec_constants) (identifiers := spec_identifiers)
           (metadata := spec_metadata))
    with (text := bare_metadata).
  - reflexivity.
  - reflexivity.
  - repeat constructor.
Defined.

(** C3, as stated, fails on the file [bare_metadata]: no line of it holds
    a date or time key, and the parser returns normally, with the empty
    dictionary. *)
Lemma get_timestamp_without_fields_returns :
  Forall (unmarked (constants := spec_constants)) (readlines bare_metadata)
  ∧ (Landsat.get_timestamp (constants := spec_constants)
       (metadata := spec_metadata) (run_with EmptyString false)
       sample_scene false (sample_world bare_metadata)).1
    = Ok (Parsed ∅)
  ∧ (Timestamp.get_timestamp (constants := spec_constants)
       (metadata := spec_metadata) sample_scene false
       (sample_world bare_metadata)).1
    = Ok ∅.
Proof. split; [repeat constructor|split; reflexivity]. Qed.

(** ** The worked example *)

(** C2 on the code. On the metadata file of the worked example
    [get_timestamp] of [i.landsat.import.py] does not return: the time
    line unpacks into its three fields, and the next statement reads
    [skip_microseconds], a local of [main]. The call ends with
    [NameError], and [import_geotiffs] with it: nothing is reported,
    imported or stamped. The copy of the parser in [timestamp.py], which
    takes the flag as a parameter, yields the date [2015-06-12], the
    timezone [+0000] and the seconds [23.123456]. From that dictionary
    [set_timestamp] hands [12 June 2015 09:15:23.123456] to
    [r.timestamp], and [print_timestamp] reports the date as parsed. *)
Theorem worked_example_stops_at_unbound_flag :
  (Landsat.get_timestamp (constants := spec_constants)
     (metadata := spec_metadata) (run_with EmptyString false)
     sample_scene false (sample_world sample_metadata)).1
  = Raise (NameError "skip_microseconds")
  ∧ (Landsat.import_geotiffs (constants := spec_constants)
       (identifiers := spec_identifiers) (metadata := spec_metadata)
       (run_with EmptyString false) sample_scene Landsat.All
       "PERMANENT" "300" false false false
       (sample_world sample_metadata)).1
    = Raise (NameError "skip_microseconds")
  ∧ log (Landsat.import_geotiffs (constants := spec_constants)
           (identifiers := spec_identifiers) (metadata := spec_metadata)
           (run_with EmptyString false) sample_scene Landsat.All
           "PERMANENT" "300" false false false
           (sample_world sample_metadata)).2
    = []
  ∧ (Timestamp.get_timestamp (constants := spec_constants)
       (metadata := spec_metadata) sample_scene false
       (sample_world sample_metadata)).1
    = Ok sample_date_time
  ∧ sample_date_time !! "date" = Some "2015-06-12"
  ∧ sample_date_time !! "timezone" = Some "+0000"
  ∧ sample_date_time !! "seconds" = Some "23.123456"
  ∧ log (Landsat.set_timestamp (constants := spec_constants) "B2"
           (Parsed sample_date_time) (sample_world sample_metadata)).2
    = [RunCommand "r.timestamp"
         [("map", "B2"); ("date", "12 June 2015 09:15:23.123456");
          ("verbose", "True")]]
  ∧ log (Landsat.print_timestamp (run_with EmptyString false) sample_scene
           (Parsed sample_date_time) false
           (sample_world sample_metadata)).2
    = [Message (report_of "2015-06-12" "09:15:23.123456" "+0000")].
Proof. repeat split; vm_compute; reflexivity. Qed.

(** ** A time line without timezone *)

Section timezone.
Context {constants : Constants} {metadata : Metadata}.

(** The timezone is written under the test [line.endswith('Z')] only. *)
Lemma read_time_timezone (skip : bool) (line : string)
    (date_time date_time' : gmap string string) :
  Str.endswith_char "Z"
    (if Str.has_char quote line then Str.delete_char quote line else line)
  = false →
  read_time skip line date_time = Ok date_time' →
  date_time' !! "timezone" = date_time !! "timezone".
Proof.
  intros HZ. unfold read_time. destruct (any_in TIME_STRINGS line).
  - rewrite HZ. cbn zeta.
    destruct (value_of _) as [time|]; simpl; [|done].
    destruct (render_seconds _ _) as [[[hours minutes] seconds]|]; simpl;
      [|done].
    destruct (validate_time_string _); simpl; [|done].
    destruct (Num.int hours); simpl; [|done].
    destruct (Num.int minutes); simpl; [|done].
    intros [= <-]. by rewrite !lookup_insert_ne.
  - by intros [= <-].
Qed.

End timezone.

(** C6 on the time line [SCENE_CENTER_TIME = 09:15:23.1234560]:
    [get_timestamp] of [timestamp.py] returns a dictionary with date and
    time and without timezone, and [simple_timestamp],
    [build_tgis_timestamp] and [print_timestamp] end with [KeyError] on
    it. In [i.landsat.import.py] the timezone is written under the same
    test only; there the call does not get as far as returning, it ends
    at the read of [skip_microseconds]. *)
Theorem timezone_absent_without_Z :
  ∃ date_time w',
    Timestamp.get_timestamp (constants := spec_constants)
      (metadata := spec_metadata) sample_scene false
      (sample_world metadata_without_zone)
    = (Ok date_time, w')
    ∧ date_time !! "date" = Some "2015-06-12"
    ∧ date_time !! "seconds" = Some "23.123456"
    ∧ date_time !! "timezone" = None
    ∧ Timestamp.simple_timestamp (Parsed date_time)
      = Raise (KeyError "timezone")
    ∧ (Timestamp.build_tgis_timestamp (constants := spec_constants)
         EmptyString sample_scene (Parsed date_time) w').1
      = Raise (KeyError "timezone")
    ∧ (Landsat.print_timestamp (run_with EmptyString false) sample_scene
         (Parsed date_time) false w').1
      = Raise (KeyError "timezone")
    ∧ (Landsat.get_timestamp (constants := spec_constants)
         (metadata := spec_metadata) (run_with EmptyString false)
         sample_scene false (sample_world metadata_without_zone)).1
      = Raise (NameError "skip_microseconds").
Proof.
  eexists _, _. split; [vm_compute; reflexivity|]. repeat split.
Qed.

(** ** The manual timestamp *)

Section manual.
Context {constants : Constants} {identifiers : Identifiers}
  {metadata : Metadata}.

Lemma set_timestamp_manual (band text : string) (w : world) :
  Landsat.set_timestamp band (Manual text) w
  = (Ok tt,
     set_output (timestamps w)
       (log w ++ [RunCommand "r.timestamp"
                    [("map", band); ("date", text); ("verbose", "True")]])
       w).
Proof. reflexivity. Qed.

(** C8 on the code. With a manual timestamp in the options,
    [get_timestamp] returns that text and leaves the process state as it
    was: no file is opened. [set_timestamp] would hand the text to
    [r.timestamp] unchanged. [import_geotiffs] does not get that far: it
    passes the text to [print_timestamp], which indexes it as a dictionary
    and raises [TypeError], and the run ends with nothing imported and no
    timestamp set. *)
Theorem manual_timestamp_stops_at_report (options : run)
    (scene mapset memory : string) (bands : Landsat.selection)
    (single_mapset list_bands tgis : bool) (w : world) :
  opt_timestamp options ≠ EmptyString →
  Landsat.get_timestamp options scene tgis w
  = (Ok (Manual (opt_timestamp options)), w)
  ∧ Landsat.import_geotiffs options scene bands mapset memory
      single_mapset list_bands tgis w
    = (Raise TypeError, w)
  ∧ ∀ band,
      (Landsat.set_timestamp band (Manual (opt_timestamp options)) w).1
      = Ok tt
      ∧ log (Landsat.set_timestamp band (Manual (opt_timestamp options)) w).2
        = (log w ++ [RunCommand "r.timestamp"
                       [("map", band); ("date", opt_timestamp options);
                        ("verbose", "True")]])%list.
Proof.
  intros Hset. split; [by apply get_timestamp_manual|]. split; [|done].
  unfold Landsat.import_geotiffs.
  unfold mbind at 1. unfold io_bind at 1.
  by rewrite get_timestamp_manual.
Qed.

End manual.

Lemma manual_timestamp_stops_at_report_witness :
  Landsat.import_geotiffs (constants := spec_constants)
    (identifiers := spec_identifiers) (metadata := spec_metadata)
    (run_with "2015-06-12 09:15:23.123456 +0000" false) sample_scene
    Landsat.All "PERMANENT" "300" false false false
    (sample_world sample_metadata)
  = (Raise TypeError, sample_world sample_metadata).
Proof.
  apply (manual_timestamp_stops_at_report (constants := spec_constants)
           (identifiers := spec_identifiers) (metadata := spec_metadata)
           (run_with "2015-06-12 09:15:23.123456 +0000" false)).
  discriminate.
Defined.

Lemma get_timestamp_releases_handle_witness :
  (Timestamp.get_timestamp (constants := spec_constants)
     (metadata := spec_metadata) sample_scene false
     (sample_world malformed_metadata)).1
  = Raise (ValueError "Incorrect data format, should be YYYY-MM-DD")
  ∧ 3 ∉ open_fds
          (Timestamp.get_timestamp (constants := spec_constants)
             (metadata := spec_metadata) sample_scene false
             (sample_world malformed_metadata)).2.
Proof.
  split; [reflexivity|].
  destruct (get_timestamp_releases_handle (constants := spec_constants)
              (metadata := spec_metadata) (run_with EmptyString false)
              sample_scene false false (sample_world malformed_metadata))
    as (_ & _ & Hclosed & _).
  edestruct (Hclosed 3 malformed_metadata) as [_ Hnot]; [reflexivity|].
  exact Hnot.
Defined.

(** ** Band names *)

Section band_names.
Context {constants : Constants}.

Lemma int_one_digit (d : ascii) :
  Str.is_digit d = true →
  Num.int (String d EmptyString) = Ok (Num.digit_val d).
Proof.
  destruct d as [[] [] [] [] [] [] [] []]; try discriminate; reflexivity.
Qed.

Lemma split_last_item (c : ascii) (s : string) :
  ∃ token, Str.last_item (Str.split c s) = Ok token.
Proof.
  unfold Str.last_item.
  assert (Str.split c s ≠ []) as Hne.
  { destruct s as [|d s]; simpl; [done|].
    destruct (Ascii.eqb c d); [done|]. by destruct (Str.split c s). }
  destruct (last (Str.split c s)) as [token|] eqn:Hlast; [by exists token|].
  by apply last_None in Hlast.
Qed.

Lemma join_chars (s : string) : Str.join EmptyString (Landsat.chars s) = s.
Proof.
  induction s as [|c s IH]; [done|].
  unfold Str.join in *. simpl. destruct (Landsat.chars s) eqn:Hs.
  - destruct s; [done|discriminate].
  - simpl in *. by rewrite IH.
Qed.

(** C10, as the code has it. The markers are looked for in the path of the
    file, the scene directory included. When that path holds neither the
    metadata marker, nor the quality-assessment marker, nor another
    image-quality marker, a file name whose last token is [B] and a digit
    [d] from 1 to 9 resolves to the band [d], and the tokens [B10] and
    [B11] to 10 and 11. When the path holds the quality-assessment marker
    and not the metadata marker, the band is the last token itself, a
    text. *)
Theorem get_name_band_by_token (scene filename : string)
    (single_mapset : bool) :
  Str.contains MTL_STRING (Path.join scene filename) = false →
  (Str.contains QA_STRING (Path.join scene filename) = false →
   any_in IMAGE_QUALITY_STRINGS (Path.join scene filename) = false →
   ∀ token number,
     Str.last_item (Str.split "_" (Path.splitext filename).1) = Ok token →
     described_band token = Some number →
     Landsat.get_name_band scene filename single_mapset
     = Ok (map_name single_mapset scene token, BandInt number))
  ∧ (Str.contains QA_STRING (Path.join scene filename) = true →
     ∃ token,
       Str.last_item
         (Str.split "_"
            (Path.splitext
               (if any_in IMAGE_QUALITY_STRINGS (Path.join scene filename)
                then Path.join scene filename else filename)).1)
       = Ok token
       ∧ Landsat.get_name_band scene filename single_mapset
         = Ok (map_name single_mapset scene token, BandStr token)).
Proof.
  intros Hmtl. split.
  - intros Hqa Hquality token number Htoken Hband.
    unfold Landsat.get_name_band. rewrite Hquality, Htoken. simpl.
    rewrite Hmtl, Hqa. unfold described_band in Hband.
    destruct (String.eqb_spec token "B10") as [->|_];
      [by injection Hband as <-|].
    destruct (String.eqb_spec token "B11") as [->|_];
      [by injection Hband as <-|].
    destruct token as [|b [|d [|? ?]]]; try done.
    destruct (Ascii.eqb_spec b "B") as [->|_]; [|done].
    destruct (Datetime.between "1" "9" d) eqn:Hd; [|done].
    injection Hband as <-. simpl.
    unfold Str.last1. simpl. rewrite int_one_digit; [done|].
    unfold Datetime.between in Hd. unfold Str.is_digit.
    apply andb_true_iff in Hd as [Hlo Hhi].
    apply N.leb_le in Hlo, Hhi. change (Str.ord "1") with 49%N in Hlo.
    change (Str.ord "9") with 57%N in Hhi.
    apply andb_true_iff. split; apply N.leb_le; lia.
  - intros Hqa. unfold Landsat.get_name_band.
    destruct (any_in IMAGE_QUALITY_STRINGS (Path.join scene filename)).
    + destruct (split_last_item "_"
                  (Path.splitext (Path.join scene filename)).1)
        as [token Htoken].
      exists token. split; [done|]. rewrite Htoken. simpl.
      by rewrite join_chars, Hmtl, Hqa.
    + destruct (split_last_item "_" (Path.splitext filename).1)
        as [token Htoken].
      exists token. split; [done|]. rewrite Htoken. simpl.
      by rewrite Hmtl, Hqa.
Qed.

End band_names.

Lemma get_name_band_by_token_witness :
  Landsat.get_name_band (constants := spec_constants) sample_scene
    "LC08_L1TP_160043_B5.TIF" false = Ok ("B5", BandInt 5)
  ∧ Landsat.get_name_band (constants := spec_constants) sample_scene
      "LC08_L1TP_160043_B10.TIF" false = Ok ("B10", BandInt 10)
  ∧ Landsat.get_name_band (constants := spec_constants) sample_scene
      "LC08_L1TP_160043_B11.TIF" true
    = Ok ("LC08_L1TP_160043_B11", BandInt 11)
  ∧ ∃ token,
      Landsat.get_name_band (constants := spec_constants) sample_scene
        "LC08_L1TP_160043_BQA.TIF" false = Ok (token, BandStr token).
Proof.
  split; [|split; [|split]].
  - destruct (get_name_band_by_token (constants := spec_constants)
                sample_scene "LC08_L1TP_160043_B5.TIF" false)
      as [Hnumber _]; [reflexivity|].
    apply (Hnumber eq_refl eq_refl "B5" 5%Z); reflexivity.
  - destruct (get_name_band_by_token (constants := spec_constants)
                sample_scene "LC08_L1TP_160043_B10.TIF" false)
      as [Hnumber _]; [reflexivity|].
    apply (Hnumber eq_refl eq_refl "B10" 10%Z); reflexivity.
  - destruct (get_name_band_by_token (constants := spec_constants)
                sample_scene "LC08_L1TP_160043_B11.TIF" true)
      as [Hnumber _]; [reflexivity|].
    apply (Hnumber eq_refl eq_refl "B11" 11%Z); reflexivity.
  - destruct (get_name_band_by_token (constants := spec_constants)
                sample_scene "LC08_L1TP_160043_BQA.TIF" false)
      as [_ Hqa]; [reflexivity|].
    destruct Hqa as (token & _ & Hband); [reflexivity|].
    by exists token.
Defined.

(** C10, as stated, fails when a marker occurs in the directory part of the
    path: the last token of the file name is [B5], and the band is the text
    [B5] under a directory named [QA]; under a directory named [MTL] the
    call is fatal. *)
Lemma get_name_band_marker_in_directory :
  Str.last_item
    (Str.split "_" (Path.splitext "LC08_L1TP_160043_B5.TIF").1) = Ok "B5"
  ∧ Landsat.get_name_band (constants := spec_constants)
      "/data/QA/LC08_L1TP_160043" "LC08_L1TP_160043_B5.TIF" false
    = Ok ("B5", BandStr "B5")
  ∧ Landsat.get_name_band (constants := spec_constants)
      "/data/MTL/LC08_L1TP_160043" "LC08_L1TP_160043_B5.TIF" false
    = Raise (Fatal "Detected an MTL file with the .TIF extension!").
Proof. repeat split. Qed.


(** ** Text lemmas *)

Section strings.

Lemma app_cons (c : ascii) (a b : string) : String c a ++ b = String c (a ++ b).
Proof. reflexivity. Qed.

Lemma app_nil (b : string) : EmptyString ++ b = b.
Proof. reflexivity. Qed.

Lemma length_app (a b : string) :
  String.length (a ++ b) = (String.length a + String.length b)%nat.
Proof. induction a as [|c a IH]; [done|]. rewrite app_cons. simpl. by rewrite IH. Qed.

Lemma has_char_app (c : ascii) (a b : string) :
  Str.has_char c (a ++ b) = Str.has_char c a || Str.has_char c b.
Proof.
  induction a as [|d a IH]; [done|]. rewrite app_cons. cbn [Str.has_char].
  by rewrite IH, orb_assoc.
Qed.

Lemma all_chars_app (p : ascii → bool) (a b : string) :
  Str.all_chars p (a ++ b) = Str.all_chars p a && Str.all_chars p b.
Proof.
  induction a as [|d a IH]; [done|]. rewrite app_cons. cbn [Str.all_chars].
  by rewrite IH, andb_assoc.
Qed.

Lemma split_whole (c : ascii) (a : string) :
  Str.has_char c a = false → Str.split c a = [a].
Proof.
  induction a as [|d a IH]; [done|]. cbn [Str.has_char Str.split].
  intros [Hd Ha]%orb_false_iff. by rewrite Hd, IH.
Qed.

Lemma split_at (c : ascii) (a b : string) :
  Str.has_char c a = false →
  Str.split c (a ++ String c b) = a :: Str.split c b.
Proof.
  induction a as [|d a IH].
  - intros _. rewrite app_nil. cbn [Str.split]. by rewrite Ascii.eqb_refl.
  - cbn [Str.has_char]. intros [Hd Ha]%orb_false_iff.
    rewrite app_cons. cbn [Str.split]. by rewrite Hd, IH.
Qed.

Lemma digits_without_dot (s : string) :
  Str.all_chars Str.is_digit s = true → Str.has_char "." s = false.
Proof.
  induction s as [|c s IH]; [done|]. cbn [Str.all_chars Str.has_char].
  intros [Hc Hs]%andb_true_iff. rewrite IH by done.
  destruct c as [[] [] [] [] [] [] [] []]; try discriminate; done.
Qed.

Lemma digit_char_is_digit (n : N) :
  Str.is_digit (Num.digit_char (n mod 10)) = true.
Proof.
  assert (n mod 10 < 10)%N as Hlt by (by apply N.mod_lt).
  unfold Str.is_digit, Num.digit_char, Str.ord.
  generalize dependent (n mod 10)%N. intros m Hm.
  rewrite N_ascii_embedding by lia.
  apply andb_true_iff. split; apply N.leb_le; lia.
Qed.

Lemma dec_digits_are_digits (fuel : nat) (n : N) (acc : string) :
  Str.all_chars Str.is_digit acc = true →
  Str.all_chars Str.is_digit (Num.dec_digits fuel n acc) = true.
Proof.
  revert n acc. induction fuel as [|fuel IH]; intros n acc Hacc; [done|].
  cbn [Num.dec_digits].
  assert (Str.all_chars Str.is_digit
            (String (Num.digit_char (n mod 10)) acc) = true) as Hstep.
  { cbn [Str.all_chars]. by rewrite digit_char_is_digit. }
  destruct (n <? 10)%N; [done|]. by apply IH.
Qed.

Lemma str_of_N_digits (n : N) :
  Str.all_chars Str.is_digit (Num.str_of_N n) = true.
Proof. by apply dec_digits_are_digits. Qed.

Lemma dec_digits_length (fuel : nat) (n : N) (acc : string) :
  (String.length acc < String.length (Num.dec_digits (S fuel) n acc))%nat.
Proof.
  revert n acc. induction fuel as [|fuel IH]; intros n acc.
  - cbn [Num.dec_digits]. destruct (n <? 10)%N; simpl; lia.
  - change (Num.dec_digits (S (S fuel)) n acc) with
      (let acc' := String (Num.digit_char (n mod 10)) acc in
       if (n <? 10)%N then acc' else Num.dec_digits (S fuel) (n / 10) acc').
    cbn zeta. destruct (n <? 10)%N; [simpl; lia|].
    etrans; [|apply IH]. simpl. lia.
Qed.

Lemma str_of_N_nonempty (n : N) : (1 ≤ String.length (Num.str_of_N n))%nat.
Proof.
  unfold Num.str_of_N.
  pose proof (dec_digits_length (N.to_nat (N.log2 n)) n EmptyString) as H.
  change (String.length EmptyString) with 0%nat in H. lia.
Qed.

Lemma fixed_digits_digits (w : nat) (n : N) :
  Str.all_chars Str.is_digit (Num.fixed_digits w n) = true.
Proof.
  revert n. induction w as [|w IH]; intros n; [done|].
  cbn [Num.fixed_digits]. rewrite all_chars_app, IH. cbn [Str.all_chars].
  by rewrite digit_char_is_digit.
Qed.

Lemma fixed_digits_length (w : nat) (n : N) :
  String.length (Num.fixed_digits w n) = w.
Proof.
  revert n. induction w as [|w IH]; intros n; [done|].
  cbn [Num.fixed_digits]. rewrite length_app, IH. simpl. lia.
Qed.

Lemma repeat_char_length (c : ascii) (n : nat) :
  String.length (Str.repeat_char c n) = n.
Proof. induction n as [|n IH]; [done|]. simpl. by rewrite IH. Qed.

Lemma repeat_zero_without_dot (n : nat) :
  Str.has_char "." (Str.repeat_char "0" n) = false.
Proof. induction n as [|n IH]; [done|]. cbn [Str.repeat_char Str.has_char]. by rewrite IH. Qed.

Lemma zfill_length (width : nat) (s : string) :
  (width ≤ String.length (Str.zfill width s))%nat.
Proof.
  unfold Str.zfill. destruct s as [|c s].
  - rewrite repeat_char_length. simpl. lia.
  - destruct (_ || _).
    + cbn [String.length]. rewrite length_app, repeat_char_length. simpl. lia.
    + rewrite length_app, repeat_char_length. simpl. lia.
Qed.

Lemma zfill_without_dot (width : nat) (s : string) :
  Str.has_char "." s = false → Str.has_char "." (Str.zfill width s) = false.
Proof.
  intros Hs. unfold Str.zfill. destruct s as [|c s].
  - apply repeat_zero_without_dot.
  - destruct (_ || _).
    + cbn [Str.has_char] in *. apply orb_false_iff in Hs as [-> Hs].
      by rewrite has_char_app, repeat_zero_without_dot, Hs.
    + by rewrite has_char_app, repeat_zero_without_dot, Hs.
Qed.

End strings.

(** ** The order of the bands *)

Section string_order.

Lemma ascii_compare_refl (c : ascii) : Ascii.compare c c = Eq.
Proof. unfold Ascii.compare. apply N.compare_refl. Qed.

Lemma string_compare_refl (s : string) : String.compare s s = Eq.
Proof. induction s as [|c s IH]; simpl; [done|]. by rewrite ascii_compare_refl. Qed.

Lemma string_leb_refl (s : string) : String.leb s s = true.
Proof. unfold String.leb. by rewrite string_compare_refl. Qed.

Lemma string_leb_trans (a b c : string) :
  String.leb a b = true → String.leb b c = true → String.leb a c = true.
Proof.
  unfold String.leb. revert b c.
  induction a as [|x a IH]; intros [|y b] [|z c]; simpl; try done.
  unfold Ascii.compare.
  destruct (N.compare_spec (N_of_ascii x) (N_of_ascii y)) as [Hxy|Hxy|Hxy];
    destruct (N.compare_spec (N_of_ascii y) (N_of_ascii z)) as [Hyz|Hyz|Hyz];
    try done.
  - rewrite Hxy, Hyz, N.compare_refl. apply IH.
  - rewrite Hxy. by apply N.compare_lt_iff in Hyz as ->.
  - rewrite <- Hyz. by apply N.compare_lt_iff in Hxy as ->.
  - assert (N_of_ascii x < N_of_ascii z)%N as Hxz by lia.
    by apply N.compare_lt_iff in Hxz as ->.
Qed.

End string_order.

Section band_order.

#[local] Instance key_le_total : Total Landsat.key_le.
Proof.
  intros a b. unfold Landsat.key_le, Landsat.key_leb.
  destruct (Landsat.band_number a) as [x|], (Landsat.band_number b) as [y|];
    try (by left); try (by right); try apply String.leb_total.
  destruct (Z.lt_total x y) as [Hlt|[->|Hgt]].
  - left. apply orb_true_iff. left. by apply Z.ltb_lt.
  - rewrite Z.ltb_irrefl, Z.eqb_refl. simpl. apply String.leb_total.
  - right. apply orb_true_iff. left. by apply Z.ltb_lt.
Qed.

#[local] Instance key_le_trans : Transitive Landsat.key_le.
Proof.
  intros a b c. unfold Landsat.key_le, Landsat.key_leb.
  destruct (Landsat.band_number a) as [x|], (Landsat.band_number b) as [y|],
    (Landsat.band_number c) as [z|]; try done.
  - rewrite !orb_true_iff, !andb_true_iff, !Z.ltb_lt, !Z.eqb_eq.
    intros [Hxy|[-> Hab]] [Hyz|[-> Hbc]].
    + left. lia.
    + by left.
    + by left.
    + right. split; [done|]. by eapply string_leb_trans.
  - apply string_leb_trans.
Qed.

#[local] Instance key_le_antisym : AntiSymm (=) Landsat.key_le.
Proof.
  intros a b. unfold Landsat.key_le, Landsat.key_leb.
  destruct (Landsat.band_number a) as [x|], (Landsat.band_number b) as [y|];
    try done.
  - rewrite !orb_true_iff, !andb_true_iff, !Z.ltb_lt, !Z.eqb_eq.
    intros [Hxy|[Hxy Hab]] [Hyx|[Hyx Hba]]; try lia.
    by apply String.leb_antisym.
  - intros Hab Hba. by apply String.leb_antisym.
Qed.


Lemma partition_at (stem rest : string) :
  Str.contains "_B" stem = false →
  Str.partition "_B" (stem ++ "_B" ++ rest) = (stem, "_B", rest).
Proof.
  induction stem as [|c stem IH]; intros Hfree; [done|].
  cbn [Str.contains] in Hfree. apply orb_false_iff in Hfree as [Hhere Hlater].
  change ((String c stem ++ "_B" ++ rest)) with (String c (stem ++ "_B" ++ rest)).
  cbn [Str.partition].
  replace (Str.startswith "_B" (String c (stem ++ "_B" ++ rest))) with false.
  - by rewrite IH.
  - cbn [Str.startswith] in *. destruct (Ascii.eqb "_" c); [|done].
    destruct stem as [|d stem]; [done|].
    change (String d stem ++ "_B" ++ rest) with (String d (stem ++ "_B" ++ rest)).
    cbn [Str.startswith] in *. by rewrite andb_true_r in *.
Qed.

Lemma partition_dot (digits ext : string) :
  Str.isdigit digits = true →
  Str.partition "." (digits ++ "." ++ ext) = (digits, ".", ext).
Proof.
  intros Hd. assert (Str.all_chars Str.is_digit digits = true) as Hall by (by destruct digits).
  clear Hd. induction digits as [|c digits IH]; [done|].
  cbn [Str.all_chars] in Hall. apply andb_true_iff in Hall as [Hc Hall].
  change ((String c digits ++ "." ++ ext)) with (String c (digits ++ "." ++ ext)).
  cbn [Str.partition].
  replace (Str.startswith "." (String c (digits ++ "." ++ ext))) with false.
  - by rewrite IH.
  - cbn [Str.startswith]. destruct (Ascii.eqb_spec "." c) as [<-|]; [done|done].
Qed.

Lemma band_number_of_name (stem digits ext : string) :
  Str.contains "_B" stem = false →
  Str.isdigit digits = true →
  Landsat.band_number (stem ++ "_B" ++ digits ++ "." ++ ext)
  = Some (Num.digits_val 0 digits).
Proof.
  intros Hstem Hdigits. unfold Landsat.band_number, Landsat.band_token.
  rewrite partition_at by done. cbn [snd]. rewrite partition_dot by done.
  cbn [fst]. by rewrite Hdigits.
Qed.

Lemma digit_is_plain (c : ascii) :
  Str.is_digit c = true →
  Str.is_space c = false ∧ Ascii.eqb c "-" = false ∧ Ascii.eqb c "+" = false
  ∧ Ascii.eqb c "_" = false ∧ Ascii.eqb "." c = false.
Proof.
  destruct c as [[] [] [] [] [] [] [] []]; try discriminate; done.
Qed.

Lemma rstrip_digits (digits : string) :
  Str.all_chars Str.is_digit digits = true → Str.rstrip digits = digits.
Proof.
  unfold Str.rstrip. induction digits as [|c digits IH]; [done|].
  cbn [Str.all_chars Str.rstrip_by]. intros [Hc Hall]%andb_true_iff.
  rewrite IH by done. destruct digits; [|done].
  by destruct (digit_is_plain c Hc) as (-> & _).
Qed.

Lemma drop_underscores_digits (digits : string) (prev : bool) :
  Str.all_chars Str.is_digit digits = true →
  Num.drop_underscores prev digits = Some digits.
Proof.
  revert prev. induction digits as [|c digits IH]; intros prev; [done|].
  cbn [Str.all_chars Num.drop_underscores]. intros [Hc Hall]%andb_true_iff.
  destruct (digit_is_plain c Hc) as (_ & _ & _ & -> & _).
  by rewrite IH.
Qed.

Lemma int_of_digits (digits : string) :
  Str.isdigit digits = true → Num.int digits = Ok (Num.digits_val 0 digits).
Proof.
  intros Hd.
  assert (Str.all_chars Str.is_digit digits = true) as Hall
    by (by destruct digits).
  unfold Num.int, Str.strip.
  assert (Str.lstrip digits = digits) as ->.
  { destruct digits as [|c digits]; [done|]. cbn [Str.lstrip].
    cbn [Str.all_chars] in Hall. apply andb_true_iff in Hall as [Hc _].
    by destruct (digit_is_plain c Hc) as (-> & _). }
  rewrite rstrip_digits by done.
  assert (Num.split_sign digits = (false, digits)) as ->.
  { destruct digits as [|c digits]; [done|]. cbn [Num.split_sign].
    cbn [Str.all_chars] in Hall. apply andb_true_iff in Hall as [Hc _].
    by destruct (digit_is_plain c Hc) as (_ & -> & -> & _). }
  by rewrite drop_underscores_digits, Hd.
Qed.


Lemma sort_sorted (bands : list string) :
  StronglySorted Landsat.key_le (Landsat.sort_list_of_bands bands).
Proof. apply StronglySorted_merge_sort; apply _. Qed.

Lemma sort_permutation (bands : list string) :
  Landsat.sort_list_of_bands bands ≡ₚ bands.
Proof. apply merge_sort_Permutation. Qed.

Lemma sort_of_permutation (bands bands' : list string) :
  bands ≡ₚ bands' →
  Landsat.sort_list_of_bands bands = Landsat.sort_list_of_bands bands'.
Proof.
  intros Hperm. apply (Sorted_unique Landsat.key_le).
  - apply Sorted_merge_sort, _.
  - apply Sorted_merge_sort, _.
  - by rewrite !sort_permutation.
Qed.

Lemma sorted_pairs (sorted : list string) (i j : nat) (a b : string) :
  StronglySorted Landsat.key_le sorted →
  i < j → sorted !! i = Some a → sorted !! j = Some b →
  Landsat.key_le a b.
Proof.
  intros Hsorted. revert i j.
  induction Hsorted as [|x l _ IH Hall]; intros i j Hij Ha Hb; [done|].
  destruct j as [|j]; [lia|]. destruct i as [|i]; simpl in *.
  - injection Ha as ->. rewrite Forall_forall in Hall. apply Hall.
    by eapply list_elem_of_lookup_2.
  - apply (IH i j); [lia|done..].
Qed.

Lemma pairs_sorted (l : list string) :
  (∀ i j a b, (i < j)%nat → l !! i = Some a → l !! j = Some b →
     Landsat.key_le a b) →
  StronglySorted Landsat.key_le l.
Proof.
  induction l as [|x l IH]; intros Hpairs; constructor.
  - apply IH. intros i j a b Hij Ha Hb.
    apply (Hpairs (S i) (S j)); [lia|done..].
  - apply Forall_forall. intros y Hy.
    apply list_elem_of_lookup_1 in Hy as [k Hk].
    apply (Hpairs 0%nat (S k)); [lia|done..].
Qed.

Lemma key_le_band_order (a b : string) :
  Landsat.key_le a b ↔ band_order a b.
Proof.
  unfold Landsat.key_le, Landsat.key_leb, band_order.
  destruct (Landsat.band_number a) as [x|], (Landsat.band_number b) as [y|];
    try done.
  by rewrite orb_true_iff, andb_true_iff, Z.ltb_lt, Z.eqb_eq.
Qed.

(** C5. The sorted list is a rearrangement of the file names in which an
    earlier name never has to stand after a later one: names with a band
    number come by growing number, names without one after them, and the
    text decides between equal numbers and between names without number.
    Sorting again changes nothing, every arrangement of the same names
    sorts to the same list, and that list is the only rearrangement in this
    order, whatever the sorting algorithm. The band number of a name
    [<stem>_B<digits>.<extension>] is the integer that the digits spell, so
    the bands 1 to 11 come in the order 1, 2, ..., 9, 10, 11. *)
Theorem sort_list_of_bands_order (bands : list string) :
  Landsat.sort_list_of_bands bands ≡ₚ bands
  ∧ (∀ i j a b,
       (i < j)%nat →
       Landsat.sort_list_of_bands bands !! i = Some a →
       Landsat.sort_list_of_bands bands !! j = Some b →
       band_order a b)
  ∧ Landsat.sort_list_of_bands (Landsat.sort_list_of_bands bands)
    = Landsat.sort_list_of_bands bands
  ∧ (∀ bands', bands' ≡ₚ bands →
       Landsat.sort_list_of_bands bands' = Landsat.sort_list_of_bands bands)
  ∧ (∀ ordered : list string,
       ordered ≡ₚ bands →
       (∀ i j a b, (i < j)%nat →
          ordered !! i = Some a → ordered !! j = Some b → band_order a b) →
       ordered = Landsat.sort_list_of_bands bands)
  ∧ (∀ stem digits extension,
       Str.contains "_B" stem = false →
       Str.isdigit digits = true →
       Landsat.band_number (stem ++ "_B" ++ digits ++ "." ++ extension)
       = Some (Num.digits_val 0 digits)
       ∧ Num.int digits = Ok (Num.digits_val 0 digits))
  ∧ Landsat.sort_list_of_bands lexical_listing = numeric_listing.
Proof.
  split; [apply sort_permutation|].
  split.
  { intros i j a b Hij Ha Hb. apply key_le_band_order.
    by eapply sorted_pairs; [apply sort_sorted|..]. }
  split; [apply sort_of_permutation, sort_permutation|].
  split; [intros bands' Hperm; by apply sort_of_permutation|].
  split.
  { intros ordered Hperm Hpairs.
    apply (StronglySorted_unique Landsat.key_le).
    - apply pairs_sorted. intros i j a b Hij Ha Hb.
      apply key_le_band_order. by eapply Hpairs.
    - apply sort_sorted.
    - by rewrite sort_permutation. }
  split; [|by vm_compute].
  intros stem digits extension Hstem Hdigits.
  split; [by apply band_number_of_name|by apply int_of_digits].
Qed.

End band_order.

Lemma sort_list_of_bands_order_witness :
  band_order "LC08_L1TP_160043_B9.TIF" "LC08_L1TP_160043_B10.TIF"
  ∧ Landsat.band_number "LC08_L1TP_160043_B10.TIF" = Some 10%Z.
Proof.
  destruct (sort_list_of_bands_order lexical_listing)
    as (_ & Hpairs & _ & _ & _ & Hnumber & _).
  split.
  - apply (Hpairs 8%nat 9%nat); [lia|reflexivity|reflexivity].
  - destruct (Hnumber "LC08_L1TP_160043" "10" "TIF" eq_refl eq_refl)
      as [Hband _].
    exact Hband.
Defined.

(** ** Fractional seconds *)

Section seconds.
Context {constants : Constants} {metadata : Metadata}.

Lemma app_assoc' (a b c : string) : (a ++ b) ++ c = a ++ (b ++ c).
Proof. induction a as [|d a IH]; [done|]. by rewrite !app_cons, IH. Qed.

Lemma split_six_decimals (whole fraction : string) :
  six_decimals whole fraction →
  Str.split "." (whole ++ "." ++ fraction) = [whole; fraction].
Proof.
  intros (Hwhole & _ & _ & Hfraction).
  change ("." ++ fraction) with (String "." fraction).
  rewrite split_at by done.
  by rewrite split_whole by by apply digits_without_dot.
Qed.

Lemma add_leading_zeroes_format_6f (x : Num.float) (text : string) :
  add_leading_zeroes (Num.format_6f x) 2 = Ok text →
  ∃ whole fraction,
    text = whole ++ "." ++ fraction ∧ six_decimals whole fraction.
Proof.
  assert (∀ (s : bool) (n : N),
    add_leading_zeroes
      ((if s then "-" else EmptyString)
       ++ Num.str_of_N (n / 1000000) ++ "."
       ++ Num.fixed_digits 6 (n mod 1000000)) 2 = Ok text →
    ∃ whole fraction,
      text = whole ++ "." ++ fraction ∧ six_decimals whole fraction)
    as Hrender.
  { intros s n. set (q := Num.str_of_N (n / 1000000)).
    set (r := Num.fixed_digits 6 (n mod 1000000)).
    assert (Str.has_char "."
              ((if s then "-" else EmptyString) ++ q) = false) as Hsign.
    { rewrite has_char_app, (digits_without_dot q) by apply str_of_N_digits.
      by destruct s. }
    rewrite <- app_assoc'. change ("." ++ r) with (String "." r).
    unfold add_leading_zeroes.
    rewrite split_at by done.
    rewrite split_whole
      by (apply digits_without_dot, fixed_digits_digits).
    cbn. intros [= <-]. eexists _, r. split; [reflexivity|].
    split; [by apply zfill_without_dot|]. split; [apply zfill_length|].
    split; [apply fixed_digits_length|apply fixed_digits_digits]. }
  destruct x as [s|s| |s m e]; unfold Num.format_6f.
  - apply Hrender.
  - by destruct s.
  - done.
  - apply Hrender.
Qed.

(** C1, as the code has it. With microseconds kept, the seconds of a time
    value that the parser accepts come from the sum of the whole seconds
    and the digits after the dot taken as parts of 10,000,000: the sum is
    written with exactly six decimals and its integer part filled to at
    least two characters. That text is the seconds field when the number
    read back from it is not below 10; when it is below 10 the decimals are
    dropped and the integer part alone is the seconds field. *)
Theorem render_seconds_with_microseconds
    (time hours minutes seconds : string) :
  render_seconds false time = Ok (hours, minutes, seconds) →
  ∃ field sum whole fraction shown,
    Str.split ":" (Str.split "." time !!! 0%nat) = [hours; minutes; field]
    ∧ summed_seconds time field = Ok sum
    ∧ add_leading_zeroes (Num.format_6f sum) 2
      = Ok (whole ++ "." ++ fraction)
    ∧ six_decimals whole fraction
    ∧ Num.float_of_str (whole ++ "." ++ fraction) = Ok shown
    ∧ seconds = if Num.float_lt_10 shown then whole
                else whole ++ "." ++ fraction.
Proof.
  unfold render_seconds. intros Hrun.
  destruct (Str.split "." time) as [|first rest] eqn:Hsplit; [done|].
  cbn in Hrun.
  destruct (Str.split ":" first) as [|h [|m [|field [|? ?]]]] eqn:Hfields;
    try done.
  cbn in Hrun.
  destruct (seconds_with_microseconds time field) as [text|] eqn:Htext;
    [|done].
  cbn in Hrun.
  destruct (drop_fraction_below_10 text) as [sec|] eqn:Hdrop; [|done].
  cbn in Hrun. injection Hrun as -> -> ->.
  unfold seconds_with_microseconds in Htext.
  destruct (summed_seconds time field) as [sum|] eqn:Hsum; [|done].
  cbn in Htext.
  destruct (add_leading_zeroes_format_6f _ _ Htext)
    as (whole & fraction & -> & Hshape).
  unfold drop_fraction_below_10 in Hdrop.
  destruct (Num.float_of_str (whole ++ "." ++ fraction))
    as [shown|] eqn:Hshown; [|done].
  cbn in Hdrop. rewrite split_six_decimals in Hdrop by done.
  exists field, sum, whole, fraction, shown.
  repeat split; try done; try apply Hshape.
  destruct (Num.float_lt_10 shown); cbn in Hdrop; by injection Hdrop as <-.
Qed.

End seconds.

Lemma render_seconds_with_microseconds_witness :
  ∃ field sum whole fraction shown,
    Str.split ":" (Str.split "." "09:15:23.1234560" !!! 0%nat)
    = ["09"; "15"; field]
    ∧ summed_seconds "09:15:23.1234560" field = Ok sum
    ∧ add_leading_zeroes (Num.format_6f sum) 2
      = Ok (whole ++ "." ++ fraction)
    ∧ six_decimals whole fraction
    ∧ Num.float_of_str (whole ++ "." ++ fraction) = Ok shown
    ∧ "23.123456" = if Num.float_lt_10 shown then whole
                    else whole ++ "." ++ fraction.
Proof.
  apply (render_seconds_with_microseconds "09:15:23.1234560").
  vm_compute. reflexivity.
Defined.

(** C1, as stated, fails below ten seconds: the seconds [9.5], and the
    seconds [09.5000000] with the seven digits of a metadata file, both
    come out as [09], without decimals; as parts of 10,000,000 the single
    digit [5] adds nothing to the sixth decimal. *)
Lemma seconds_below_10_lose_fraction :
  render_seconds false "09:15:9.5" = Ok ("09", "15", "09")
  ∧ render_seconds false "09:15:09.5000000" = Ok ("09", "15", "09")
  ∧ seconds_with_microseconds "09:15:9.5" "9" = Ok "09.000000"
  ∧ seconds_with_microseconds "09:15:09.5000000" "09" = Ok "09.500000".
Proof. repeat split; vm_compute; reflexivity. Qed.

(** * Further properties *)

(** ** Scene identification and spectral sets *)

Section identification_more.
Context {identifiers : Identifiers}.

Lemma identify_in_outcome templates scene :
  (∃ found, Landsat.identify_in templates scene = Ok found)
  ∨ (Landsat.identify_in templates scene = Raise (ShortcutError "g.fatal")
     ∧ ∃ entry, entry ∈ templates ∧ re_match entry.2 scene = None).
Proof.
  induction templates as [|[key template] templates IH]; simpl.
  - left. by eexists.
  - destruct (re_match template scene) as [[]|] eqn:Hmatch.
    + left. by eexists.
    + destruct IH as [?|[? (entry & ? & ?)]]; [by left|right].
      split; [done|]. exists entry. split; [by right|done].
    + right. split; [done|]. exists (key, template). split; [by left|done].
Qed.

(** X1. Lines 846-851 of [main]. The band template of a scene is found
    exactly when [identify_product_collection] names a collection for the
    base name of the scene and the table of band templates has that
    collection. A scene that no template matches, and a collection that
    the table lacks, end in the fatal error of [main]: the value [None] is
    not passed on. One more exception can leave these lines, and only
    when [re.match] raised on a template: that of the call [g.fatal] in
    [identify_product_collection], which is outside the [try] of
    [main]. *)
Theorem main_identify_outcomes (scene : string) :
  (∀ template, Landsat.main_identify scene = Ok template ↔
     ∃ key, Landsat.identify_product_collection (Path.basename scene)
            = Ok (Some key)
            ∧ band_template !! key = Some template)
  ∧ ((∃ template, Landsat.main_identify scene = Ok template)
     ∨ Landsat.main_identify scene
       = Raise (Fatal
           "The given scene identifier does not match any known Landsat product file name pattern!")
     ∨ (Landsat.main_identify scene = Raise (ShortcutError "g.fatal")
        ∧ ∃ entry, entry ∈ scene_template
                   ∧ re_match entry.2 (Path.basename scene) = None)).
Proof.
  unfold Landsat.main_identify, Landsat.identify_product_collection.
  destruct (identify_in_outcome scene_template (Path.basename scene))
    as [[[key|] ->]|[-> Hraised]]; cbn.
  - unfold Landsat.band_template_of.
    destruct (band_template !! key) as [template|] eqn:Hkey; cbn.
    + split; [|left; by eexists]. intros t. split.
      * intros [= <-]. by exists key.
      * intros (k & [= <-] & Hk). congruence.
    + split; [|right; by left]. intros t. split; [done|].
      intros (k & [= <-] & Hk). congruence.
  - split; [|right; by left]. intros t. split; [done|].
    by intros (k & ? & _).
  - split; [|right; by right]. intros t. split; [done|].
    by intros (k & ? & _).
Qed.

End identification_more.

Section spectral_sets_more.
Context {identifiers : Identifiers}.

Lemma extend_with_sets_unknown known unknown rest requested :
  (∀ spectral_set, spectral_set ∈ known →
     is_Some (LANDSAT_BANDS !! spectral_set)) →
  LANDSAT_BANDS !! unknown = None →
  Landsat.extend_with_sets (known ++ unknown :: rest)%list requested
  = Raise (KeyError unknown).
Proof.
  revert requested. induction known as [|s known IH]; intros requested Hknown Hun; simpl.
  - by rewrite Hun.
  - destruct (Hknown s) as [members ->]; [by left|].
    apply IH; [|done]. intros s' Hs'. apply Hknown. by right.
Qed.

Lemma retrieve_members spectral_sets scene bands :
  Landsat.retrieve_selected_sets_of_bands spectral_sets scene = Ok bands →
  NoDup bands
  ∧ (∀ spectral_set, spectral_set ∈ spectral_sets →
       is_Some (LANDSAT_BANDS !! spectral_set))
  ∧ ∀ band, band ∈ bands ↔ in_selected_set spectral_sets band.
Proof.
  intros Hrun.
  assert (∀ spectral_set, spectral_set ∈ spectral_sets →
            is_Some (LANDSAT_BANDS !! spectral_set)) as Hknown.
  { unfold Landsat.retrieve_selected_sets_of_bands in Hrun.
    destruct (Landsat.extend_with_sets spectral_sets []) as [l|] eqn:Hext;
      [|done].
    clear Hrun. revert Hext. generalize (@nil string).
    induction spectral_sets as [|s sets IH]; intros acc Hext s' Hs'.
    - by apply elem_of_nil in Hs'.
    - simpl in Hext. destruct (LANDSAT_BANDS !! s) as [members|] eqn:Hs; [|done].
      apply elem_of_cons in Hs' as [->|Hs']; [by eexists|]. by eapply IH. }
  destruct (extend_with_sets_members spectral_sets [] Hknown)
    as (requested & Hext & Hmem).
  unfold Landsat.retrieve_selected_sets_of_bands in Hrun.
  rewrite Hext in Hrun. cbn in Hrun. injection Hrun as <-.
  split; [apply NoDup_elements|]. split; [done|].
  intros band. rewrite elem_of_elements, elem_of_list_to_set, Hmem.
  split; [|by right]. intros [Hnil|?]; [|done]. by apply elem_of_nil in Hnil.
Qed.

(** X2. [retrieve_selected_sets_of_bands] fails with [KeyError] for the first
    set name that the table of bands does not have. Where it succeeds, the
    bands it returns depend on which sets are selected only: selections
    with the same set names, in any order and with any repetition, give
    the same bands up to their order. *)
Theorem retrieve_selected_sets_of_bands_selection
    (spectral_sets spectral_sets' : list string) (scene : string) :
  (∀ known unknown rest,
     spectral_sets = (known ++ unknown :: rest)%list →
     (∀ spectral_set, spectral_set ∈ known →
        is_Some (LANDSAT_BANDS !! spectral_set)) →
     LANDSAT_BANDS !! unknown = None →
     Landsat.retrieve_selected_sets_of_bands spectral_sets scene
     = Raise (KeyError unknown))
  ∧ (∀ bands bands',
       (∀ spectral_set,
          spectral_set ∈ spectral_sets ↔ spectral_set ∈ spectral_sets') →
       Landsat.retrieve_selected_sets_of_bands spectral_sets scene
       = Ok bands →
       Landsat.retrieve_selected_sets_of_bands spectral_sets' scene
       = Ok bands' →
       bands ≡ₚ bands').
Proof.
  split.
  - intros known unknown rest -> Hknown Hunknown.
    unfold Landsat.retrieve_selected_sets_of_bands.
    by rewrite extend_with_sets_unknown.
  - intros bands bands' Hsame Hrun Hrun'.
    apply retrieve_members in Hrun as (Hnodup & _ & Hmem).
    apply retrieve_members in Hrun' as (Hnodup' & _ & Hmem').
    apply NoDup_Permutation; [done..|].
    intros band. rewrite Hmem, Hmem'. unfold in_selected_set.
    split; intros (s & members & Hs & ?); exists s, members;
      (split; [by apply Hsame|done]).
Qed.

End spectral_sets_more.

Lemma retrieve_selected_sets_of_bands_selection_witness :
  Landsat.retrieve_selected_sets_of_bands (identifiers := spec_identifiers)
    ["oli"; "panchromatic"; "nope"] sample_scene
  = Raise (KeyError "panchromatic")
  ∧ ∃ bands bands',
      Landsat.retrieve_selected_sets_of_bands (identifiers := spec_identifiers)
        ["oli"; "visible"] sample_scene = Ok bands
      ∧ Landsat.retrieve_selected_sets_of_bands
          (identifiers := spec_identifiers)
          ["visible"; "oli"; "visible"] sample_scene = Ok bands'
      ∧ bands ≡ₚ bands'.
Proof.
  split.
  - apply (retrieve_selected_sets_of_bands_selection
             (identifiers := spec_identifiers) _ [] sample_scene)
      with (known := ["oli"]) (rest := ["nope"]).
    + reflexivity.
    + intros s Hs. apply elem_of_cons in Hs as [->|Hs]; [by eexists|].
      by apply elem_of_nil in Hs.
    + reflexivity.
  - eexists. eexists. split; [reflexivity|]. split; [reflexivity|].
    apply (retrieve_selected_sets_of_bands_selection
             (identifiers := spec_identifiers)
             ["oli"; "visible"] ["visible"; "oli"; "visible"] sample_scene).
    + intros s. rewrite !elem_of_cons, !elem_of_nil. tauto.
    + reflexivity.
    + reflexivity.
Defined.

(** ** The fields of a metadata line *)

Section parser_more.
Context {constants : Constants} {metadata : Metadata}.

Lemma read_line_unmarked (skip : bool) (line : string)
    (date_time : gmap string string) :
  marked line = false → read_line skip line date_time = Ok date_time.
Proof.
  unfold marked. intros [Hdate Htime]%orb_false_iff.
  unfold read_line, read_date, read_time.
  destruct (_ =? 0)%nat; [done|]. cbn. by rewrite Hdate, Htime.
Qed.

(** X3. The loop of [get_timestamp] looks at the lines with a date key or a
    time key only: dropping every other line from the metadata file
    changes neither the dictionary nor the exception that comes out. *)
Theorem read_lines_only_marked (skip : bool) (lines : list string)
    (date_time : gmap string string) :
  read_lines skip (filter (λ line, marked line = true) lines) date_time
  = read_lines skip lines date_time.
Proof.
  revert date_time. induction lines as [|line lines IH]; intros date_time;
    [done|].
  destruct (marked line) eqn:Hline.
  - rewrite filter_cons_True by done. cbn.
    destruct (read_line skip line date_time); cbn; [apply IH|done].
  - rewrite filter_cons_False by (by rewrite Hline). cbn.
    rewrite read_line_unmarked by done. cbn. apply IH.
Qed.

Lemma split_three (c : ascii) (x y z : string) :
  Str.has_char c x = false → Str.has_char c y = false →
  Str.has_char c z = false →
  Str.split c (x ++ String c (y ++ String c z)) = [x; y; z].
Proof.
  intros Hx Hy Hz. rewrite split_at by done. rewrite split_at by done.
  by rewrite split_whole.
Qed.

(** X4. A time of day without a fraction, [hours:minutes:seconds] with no dot
    in it. With microseconds kept, the parser fails with [IndexError]: it
    reads the part after a dot that is not there. With microseconds
    skipped, the three fields come out as they stand when [float] reads
    the seconds, and with its exception otherwise. *)
Theorem render_seconds_without_fraction (hours minutes seconds : string) :
  Str.has_char ":" hours = false → Str.has_char "." hours = false →
  Str.has_char ":" minutes = false → Str.has_char "." minutes = false →
  Str.has_char ":" seconds = false → Str.has_char "." seconds = false →
  render_seconds false (hours ++ ":" ++ minutes ++ ":" ++ seconds)
  = Raise IndexError
  ∧ render_seconds true (hours ++ ":" ++ minutes ++ ":" ++ seconds)
    = match Num.float_of_str seconds with
      | Ok _ => Ok (hours, minutes, seconds)
      | Raise e => Raise e
      end.
Proof.
  intros Hh Hh' Hm Hm' Hs Hs'.
  set (time := hours ++ ":" ++ minutes ++ ":" ++ seconds).
  assert (Str.split "." time = [time]) as Hwhole.
  { apply split_whole. unfold time.
    rewrite !has_char_app. cbn [Str.has_char].
    by rewrite Hh', Hm', Hs'. }
  assert (Str.split ":" time = [hours; minutes; seconds]) as Hfields
    by (by apply split_three).
  unfold render_seconds. rewrite Hwhole. cbn [Str.nth lookup list_lookup].
  cbn. rewrite Hfields. split.
  - cbn. unfold seconds_with_microseconds, summed_seconds.
    by rewrite Hwhole.
  - cbn. unfold drop_fraction_below_10.
    destruct (Num.float_of_str seconds) as [x|]; cbn; [|done].
    rewrite split_whole by done. by destruct (Num.float_lt_10 x).
Qed.

(** X5. With microseconds skipped, what follows the first dot of the time has
    no influence on the hours, minutes and seconds that the parser
    renders. *)
Theorem render_seconds_skip_ignores_fraction (whole rest : string) :
  Str.has_char "." whole = false →
  render_seconds true (whole ++ "." ++ rest) = render_seconds true whole.
Proof.
  intros Hwhole. unfold render_seconds.
  change ("." ++ rest) with (String "." rest).
  rewrite split_at by done. by rewrite (split_whole "." whole) by done.
Qed.

(** X6. [add_leading_zeroes]. A text without a dot raises [IndexError]. For
    [integer.real] the integer part is filled with zeros on the left to at
    least [n] characters, and left as it is when it already has [n]; the
    part after the dot is kept. What follows a second dot is dropped. *)
Theorem add_leading_zeroes_parts (n : nat) :
  (∀ text, Str.has_char "." text = false →
     add_leading_zeroes text n = Raise IndexError)
  ∧ (∀ integer real,
       Str.has_char "." integer = false → Str.has_char "." real = false →
       add_leading_zeroes (integer ++ "." ++ real) n
       = Ok (Str.zfill n integer ++ "." ++ real)
       ∧ (n ≤ String.length (Str.zfill n integer))%nat
       ∧ ((n ≤ String.length integer)%nat → Str.zfill n integer = integer))
  ∧ (∀ integer real rest,
       Str.has_char "." integer = false → Str.has_char "." real = false →
       add_leading_zeroes (integer ++ "." ++ real ++ "." ++ rest) n
       = Ok (Str.zfill n integer ++ "." ++ real)).
Proof.
  split; [|split].
  - intros text Hdot. unfold add_leading_zeroes.
    by rewrite split_whole by done.
  - intros integer real Hi Hr. split; [|split].
    + unfold add_leading_zeroes. change ("." ++ real) with (String "." real).
      rewrite split_at by done. by rewrite split_whole by done.
    + apply zfill_length.
    + intros Hlen. unfold Str.zfill.
      replace (n - String.length integer)%nat with 0%nat by lia.
      cbn [Str.repeat_char]. destruct integer as [|c s]; [done|].
      by destruct (_ || _).
  - intros integer real rest Hi Hr. unfold add_leading_zeroes.
    change ("." ++ real ++ "." ++ rest)
      with (String "." (real ++ String "." rest)).
    rewrite split_at by done. by rewrite split_at by done.
Qed.

End parser_more.

Lemma render_seconds_without_fraction_witness :
  render_seconds false "09:15:23" = Raise IndexError
  ∧ render_seconds true "09:15:23" = Ok ("09", "15", "23").
Proof.
  exact (render_seconds_without_fraction "09" "15" "23"
           eq_refl eq_refl eq_refl eq_refl eq_refl eq_refl).
Defined.

Lemma render_seconds_skip_ignores_fraction_witness :
  render_seconds true "09:15:23.1234560" = render_seconds true "09:15:23".
Proof.
  exact (render_seconds_skip_ignores_fraction "09:15:23" "1234560" eq_refl).
Defined.

Lemma add_leading_zeroes_parts_witness :
  add_leading_zeroes "9" 2 = Raise IndexError
  ∧ add_leading_zeroes "9.500000" 2 = Ok "09.500000"
  ∧ add_leading_zeroes "9.5.25" 2 = Ok "09.5".
Proof.
  destruct (add_leading_zeroes_parts 2) as (Hnone & Hone & Hmore).
  split; [by apply Hnone|]. split.
  - by apply (Hone "9" "500000").
  - by apply (Hmore "9" "5" "25").
Defined.

(** ** What the date and time formats take *)

Section matchers.
Import Datetime.

Lemma consumes_one (p : ascii → bool) :
  consumes (one p) (λ x, ∃ c, x = String c EmptyString ∧ p c = true).
Proof.
  intros [|c s] x r; cbn; [by intros ?%elem_of_nil|].
  destruct (p c) eqn:Hc; [|by intros ?%elem_of_nil].
  intros [= -> ->]%list_elem_of_singleton. split; [done|]. by exists c.
Qed.

Lemma consumes_seq (a b : matcher) (P Q : string → Prop) :
  consumes a P → consumes b Q →
  consumes (seq a b) (λ x, ∃ y z, x = y ++ z ∧ P y ∧ Q z).
Proof.
  intros Ha Hb s x r. unfold seq.
  intros ([y r1] & Hin & Hy)%list_elem_of_bind.
  apply list_elem_of_bind in Hin as ([z r2] & Hin & Hz).
  apply list_elem_of_singleton in Hin as [= -> ->].
  apply Ha in Hy as [-> HP]. apply Hb in Hz as [-> HQ].
  split; [by rewrite app_assoc'|]. by exists y, z.
Qed.

Lemma consumes_alt (ms : list matcher) (P : string → Prop) :
  Forall (λ m, consumes m P) ms → consumes (alt ms) P.
Proof.
  intros Hms s x r. unfold alt.
  intros (m & Hin & Hm)%list_elem_of_bind.
  rewrite Forall_forall in Hms. by apply (Hms m Hm).
Qed.

Lemma consumes_weaken (m : matcher) (P Q : string → Prop) :
  consumes m P → (∀ x, P x → Q x) → consumes m Q.
Proof. intros Hm HPQ s x r Hin. apply Hm in Hin as [? ?]. auto. Qed.

Lemma between_bounds (lo hi c : ascii) :
  between lo hi c = true → (Str.ord lo ≤ Str.ord c ≤ Str.ord hi)%N.
Proof.
  unfold between. intros [? ?]%andb_true_iff. split; by apply N.leb_le.
Qed.

Lemma is_digit_bounds (c : ascii) :
  Str.is_digit c = true ↔ (48 ≤ Str.ord c ≤ 57)%N.
Proof.
  unfold Str.is_digit. rewrite andb_true_iff, !N.leb_le. tauto.
Qed.

Lemma lit_char (c d : ascii) : Ascii.eqb c d = true → d = c.
Proof. by intros ->%Ascii.eqb_eq. Qed.

Ltac eval_ord :=
  repeat match goal with
  | |- context [Str.ord (Ascii ?a ?b ?c ?d ?e ?f ?g ?h)] =>
      let v := eval vm_compute in (Str.ord (Ascii a b c d e f g h)) in
      change (Str.ord (Ascii a b c d e f g h)) with v
  | H : context [Str.ord (Ascii ?a ?b ?c ?d ?e ?f ?g ?h)] |- _ =>
      let v := eval vm_compute in (Str.ord (Ascii a b c d e f g h)) in
      change (Str.ord (Ascii a b c d e f g h)) with v in H
  end.

Ltac number_bounds :=
  repeat match goal with
  | H : ∃ _, _ |- _ => destruct H
  | H : _ ∧ _ |- _ => destruct H
  | H : between _ _ _ = true |- _ => apply between_bounds in H
  | H : Ascii.eqb _ _ = true |- _ => apply lit_char in H
  | H : Str.is_digit _ = true |- _ => apply is_digit_bounds in H
  end;
  subst; unfold small_number, Str.isdigit;
  rewrite ?app_cons, ?app_nil;
  cbn [Str.all_chars String.length Num.digits_val];
  rewrite ?andb_true_r, ?andb_true_iff, ?is_digit_bounds;
  unfold Num.digit_val; eval_ord; repeat split; try lia.

Lemma consumes_digit :
  consumes digit (λ x, ∃ c, x = String c EmptyString ∧ Str.is_digit c = true).
Proof. apply consumes_one. Qed.

Lemma consumes_dir_H : consumes dir_H (small_number 23).
Proof.
  apply consumes_alt. repeat (apply Forall_cons_2; [|]); [..|apply Forall_nil_2].
  - refine (consumes_weaken _ _ _
              (consumes_seq _ _ _ _ (consumes_one _) (consumes_one _)) _).
    intros x Hx. number_bounds.
  - refine (consumes_weaken _ _ _
              (consumes_seq _ _ _ _ (consumes_one _) (consumes_one _)) _).
    intros x Hx. number_bounds.
  - refine (consumes_weaken _ _ _ (consumes_one _) _).
    intros x Hx. number_bounds.
Qed.

Lemma consumes_dir_M : consumes dir_M (small_number 59).
Proof.
  apply consumes_alt. repeat (apply Forall_cons_2; [|]); [..|apply Forall_nil_2].
  - refine (consumes_weaken _ _ _
              (consumes_seq _ _ _ _ (consumes_one _) (consumes_one _)) _).
    intros x Hx. number_bounds.
  - refine (consumes_weaken _ _ _ (consumes_one _) _).
    intros x Hx. number_bounds.
Qed.

Lemma consumes_dir_S : consumes dir_S (small_number 61).
Proof.
  apply consumes_alt. repeat (apply Forall_cons_2; [|]); [..|apply Forall_nil_2].
  - refine (consumes_weaken _ _ _
              (consumes_seq _ _ _ _ (consumes_one _) (consumes_one _)) _).
    intros x Hx. number_bounds.
  - refine (consumes_weaken _ _ _
              (consumes_seq _ _ _ _ (consumes_one _) (consumes_one _)) _).
    intros x Hx. number_bounds.
  - refine (consumes_weaken _ _ _ (consumes_one _) _).
    intros x Hx. number_bounds.
Qed.

Lemma consumes_upto (n : nat) : consumes (upto n) (digit_run 0 n).
Proof.
  induction n as [|n IH]; intros s x r; cbn [upto].
  - intros [= -> ->]%list_elem_of_singleton. split; [done|]. split; [done|].
    simpl. lia.
  - unfold alt. intros (m & Hin & Hm)%list_elem_of_bind.
    apply elem_of_cons in Hm as [->|Hm].
    + apply (consumes_seq _ _ _ _ consumes_digit IH) in Hin
        as [-> (y & z & -> & (c & -> & Hc) & Hz & Hlen)].
      split; [done|]. rewrite app_cons, app_nil. split.
      * cbn [Str.all_chars]. by rewrite Hc, Hz.
      * simpl. lia.
    + apply list_elem_of_singleton in Hm as ->.
      apply list_elem_of_singleton in Hin as [= -> ->].
      split; [done|]. split; [done|]. simpl. lia.
Qed.

Lemma consumes_dir_f : consumes dir_f (digit_run 1 6).
Proof.
  refine (consumes_weaken _ _ _
            (consumes_seq _ _ _ _ consumes_digit (consumes_upto 5)) _).
  intros x (y & z & -> & (c & -> & Hc) & Hz & Hlen).
  rewrite app_cons, app_nil. split.
  - cbn [Str.all_chars]. by rewrite Hc, Hz.
  - simpl. lia.
Qed.

Lemma consumes_dir_Y : consumes dir_Y (digit_run 4 4).
Proof.
  refine (consumes_weaken _ _ _
            (consumes_seq _ _ _ _ consumes_digit
               (consumes_seq _ _ _ _ consumes_digit
                  (consumes_seq _ _ _ _ consumes_digit consumes_digit))) _).
  intros x (? & ? & -> & (c1 & -> & H1) & ? & ? & -> & (c2 & -> & H2)
            & ? & ? & -> & (c3 & -> & H3) & c4 & -> & H4).
  rewrite !app_cons, !app_nil. split; [|simpl; lia].
  cbn [Str.all_chars]. by rewrite H1, H2, H3, H4.
Qed.

Lemma small_number_reads (top lo : Z) (x : string) :
  small_number top x → (lo ≤ Num.digits_val 0 x)%Z → reads_as lo top x.
Proof.
  intros (Hd & _ & Hv) Hlo. exists (Num.digits_val 0 x).
  split; [by apply int_of_digits|]. split; [lia|].
  assert (Str.all_chars Str.is_digit x = true) as Hall by (by destruct x).
  clear -Hall. induction x as [|c x IH]; [done|].
  cbn [Str.all_chars Str.has_char] in *.
  apply andb_true_iff in Hall as [Hc Hall]. rewrite IH by done.
  by destruct c as [[] [] [] [] [] [] [] []].
Qed.

Lemma consumes_dir_m : consumes dir_m month_text.
Proof.
  apply consumes_alt. repeat (apply Forall_cons_2; [|]); [..|apply Forall_nil_2].
  - refine (consumes_weaken _ _ _
              (consumes_seq _ _ _ _ (consumes_one _) (consumes_one _)) _).
    intros x Hx. unfold month_text. number_bounds.
  - refine (consumes_weaken _ _ _
              (consumes_seq _ _ _ _ (consumes_one _) (consumes_one _)) _).
    intros x Hx. unfold month_text. number_bounds.
  - refine (consumes_weaken _ _ _ (consumes_one _) _).
    intros x Hx. unfold month_text. number_bounds.
Qed.

Lemma consumes_dir_d : consumes dir_d day_text.
Proof.
  apply consumes_alt. repeat (apply Forall_cons_2; [|]); [..|apply Forall_nil_2].
  - refine (consumes_weaken _ _ _
              (consumes_seq _ _ _ _ (consumes_one _) (consumes_one _)) _).
    intros x Hx. left. number_bounds.
  - refine (consumes_weaken _ _ _
              (consumes_seq _ _ _ _ (consumes_one _) (consumes_one _)) _).
    intros x Hx. left. number_bounds.
  - refine (consumes_weaken _ _ _
              (consumes_seq _ _ _ _ (consumes_one _) (consumes_one _)) _).
    intros x Hx. left. number_bounds.
  - refine (consumes_weaken _ _ _ (consumes_one _) _).
    intros x Hx. left. number_bounds.
  - refine (consumes_weaken _ _ _
              (consumes_seq _ _ _ _ (consumes_one _) (consumes_one _)) _).
    intros x (? & ? & -> & (c1 & -> & H1%lit_char) & c2 & -> & H2). subst.
    right. by exists c2.
Qed.

Lemma month_text_reads (x : string) : month_text x → reads_as 1 12 x.
Proof. intros [Hsmall Hlow]. by apply small_number_reads. Qed.

Lemma day_text_reads (x : string) : day_text x → reads_as 1 31 x.
Proof.
  intros [[Hsmall Hlow]|(c & -> & Hc)]; [by apply small_number_reads|].
  exists (Num.digit_val c).
  destruct c as [[] [] [] [] [] [] [] []]; try discriminate;
    (split; [reflexivity|split; [vm_compute; split; discriminate|reflexivity]]).
Qed.

Lemma first_match_head {A} (ways : list (A * string)) (a : A) :
  first_match ways = Ok a → (a, EmptyString) ∈ ways.
Proof.
  destruct ways as [|[b [|c r]] ways]; cbn; try done.
  intros [= ->]. by left.
Qed.

End matchers.

Section strptime.
Import Datetime.

Lemma app_nil_r' (a : string) : a ++ EmptyString = a.
Proof. induction a as [|c a IH]; [done|]. by rewrite app_cons, IH. Qed.

Lemma digits_val_bound (x : string) (acc : Z) :
  Str.all_chars Str.is_digit x = true → (0 ≤ acc)%Z →
  (acc * 10 ^ Z.of_nat (String.length x) ≤ Num.digits_val acc x
   < (acc + 1) * 10 ^ Z.of_nat (String.length x))%Z.
Proof.
  revert acc. induction x as [|c x IH]; intros acc Hall Hacc.
  - cbn. lia.
  - cbn [Str.all_chars] in Hall. apply andb_true_iff in Hall as [Hc Hall].
    apply is_digit_bounds in Hc. cbn [Num.digits_val String.length].
    assert (0 ≤ Num.digit_val c ≤ 9)%Z as Hd by (unfold Num.digit_val; lia).
    specialize (IH (10 * acc + Num.digit_val c)%Z Hall ltac:(lia)).
    rewrite Nat2Z.inj_succ, Z.pow_succ_r by lia.
    set (p := (10 ^ Z.of_nat (String.length x))%Z) in *.
    assert (0 < p)%Z by (apply Z.pow_pos_nonneg; lia).
    nia.
Qed.

Lemma strptime_Ymd_calendar (s : string) (date : Datetime.date) :
  strptime_Ymd s = Ok date →
  (1 ≤ year date ≤ 9999)%Z ∧ (1 ≤ month date ≤ 12)%Z
  ∧ (1 ≤ day date ≤ days_in_month (year date) (month date))%Z
  ∧ ∃ ys ms ds,
      s = ys ++ "-" ++ ms ++ "-" ++ ds
      ∧ digit_run 4 4 ys ∧ month_text ms ∧ day_text ds
      ∧ Num.int ys = Ok (year date)
      ∧ Num.int ms = Ok (month date) ∧ Num.int ds = Ok (day date).
Proof.
  unfold strptime_Ymd. intros Hrun.
  destruct (first_match _) as [[[ys ms] ds]|] eqn:Hmatch; [|done].
  apply first_match_head in Hmatch.
  apply list_elem_of_bind in Hmatch as ([y r1] & Hmatch & Hy).
  apply list_elem_of_bind in Hmatch as ([? r2] & Hmatch & Hd1).
  apply list_elem_of_bind in Hmatch as ([m r3] & Hmatch & Hm).
  apply list_elem_of_bind in Hmatch as ([? r4] & Hmatch & Hd2).
  apply list_elem_of_bind in Hmatch as ([d r5] & Hmatch & Hd).
  apply list_elem_of_singleton in Hmatch as [= -> -> -> <-].
  apply consumes_dir_Y in Hy as [-> Hyear].
  apply consumes_one in Hd1 as [-> (? & -> & ->%lit_char)].
  apply consumes_dir_m in Hm as [-> Hmtext].
  destruct (month_text_reads _ Hmtext) as (mn & Hmn & Hmonth & _).
  apply consumes_one in Hd2 as [-> (? & -> & ->%lit_char)].
  apply consumes_dir_d in Hd as [-> Hdtext].
  destruct (day_text_reads _ Hdtext) as (dn & Hdn & Hday & _).
  cbn in Hrun.
  assert (Str.isdigit y = true) as Hys.
  { destruct Hyear as [Hall Hlen]. destruct y; [simpl in Hlen; lia|done]. }
  rewrite (int_of_digits y Hys), Hmn, Hdn in Hrun. cbn in Hrun.
  destruct (_ <? 1)%Z eqn:Hlow; [done|].
  destruct (_ <=? _)%Z eqn:Hhigh; [|done].
  injection Hrun as <-. cbn.
  apply Z.ltb_ge in Hlow. apply Z.leb_le in Hhigh.
  pose proof (digits_val_bound y 0 (proj1 Hyear) ltac:(lia)) as Hbound.
  replace (String.length y) with 4%nat in Hbound
    by (destruct Hyear as [_ ?]; lia).
  split; [lia|]. split; [lia|]. split; [lia|].
  exists y, m, d. rewrite !app_cons, !app_nil, app_nil_r'.
  split; [done|]. split; [done|]. split; [done|]. split; [done|].
  split; [by apply int_of_digits|done].
Qed.

Lemma strptime_HMS_clock (fraction : bool) (s : string) (t : Datetime.time) :
  strptime_HMS fraction s = Ok t →
  ∃ hs ms ss fs,
    s = hs ++ ":" ++ ms ++ ":" ++ ss
        ++ (if fraction then "." ++ fs else EmptyString)
    ∧ small_number 23 hs ∧ small_number 59 ms ∧ small_number 59 ss
    ∧ (if fraction then digit_run 1 6 fs else True)
    ∧ hour t = Num.digits_val 0 hs ∧ minute t = Num.digits_val 0 ms
    ∧ second t = Num.digits_val 0 ss.
Proof.
  unfold strptime_HMS. intros Hrun.
  destruct (first_match _) as [[[[hs ms] ss] fs]|] eqn:Hmatch; [|done].
  apply first_match_head in Hmatch.
  apply list_elem_of_bind in Hmatch as ([h r1] & Hmatch & Hh).
  apply list_elem_of_bind in Hmatch as ([? r2] & Hmatch & Hd1).
  apply list_elem_of_bind in Hmatch as ([m r3] & Hmatch & Hm).
  apply list_elem_of_bind in Hmatch as ([? r4] & Hmatch & Hd2).
  apply list_elem_of_bind in Hmatch as ([sec r5] & Hmatch & Hs).
  apply consumes_dir_H in Hh as [-> Hhour].
  apply consumes_one in Hd1 as [-> (? & -> & ->%lit_char)].
  apply consumes_dir_M in Hm as [-> Hminute].
  apply consumes_one in Hd2 as [-> (? & -> & ->%lit_char)].
  apply consumes_dir_S in Hs as [-> Hsecond].
  assert (∃ f, (if fraction then r5 = "." ++ f ∧ digit_run 1 6 f ∧ fs = f
                else r5 = EmptyString ∧ fs = "0")
               ∧ hs = h ∧ ms = m ∧ ss = sec) as (f & Hf & -> & -> & ->).
  { destruct fraction.
    - apply list_elem_of_bind in Hmatch as ([? r6] & Hmatch & Hdot).
      apply list_elem_of_bind in Hmatch as ([f r7] & Hmatch & Hf).
      apply list_elem_of_singleton in Hmatch as [= -> -> -> -> <-].
      apply consumes_one in Hdot as [-> (? & -> & ->%lit_char)].
      apply consumes_dir_f in Hf as [-> Hrun6].
      exists f. by rewrite app_nil_r'.
    - apply list_elem_of_singleton in Hmatch as [= -> -> -> -> <-].
      by exists "0". }
  cbn in Hrun.
  rewrite (int_of_digits h), (int_of_digits m), (int_of_digits sec) in Hrun
    by (by destruct Hhour, Hminute, Hsecond).
  cbn in Hrun.
  destruct (Num.int _) as [fn|]; [|done]. cbn in Hrun.
  destruct (_ <=? 59)%Z eqn:Hsec; [|done]. injection Hrun as <-. cbn.
  apply Z.leb_le in Hsec.
  exists h, m, sec, f. rewrite !app_cons, !app_nil.
  split.
  { destruct fraction; destruct Hf as [-> ?]; [done|]. by rewrite app_nil_r'. }
  split; [done|]. split; [done|].
  split; [destruct Hsecond as (? & ? & ?); repeat split; try done; lia|].
  split; [|done]. destruct fraction; [|done]. by destruct Hf as (_ & ? & _).
Qed.

End strptime.

(** ** The first way a format matches *)

Ltac digit_cases c H :=
  destruct c as [[] [] [] [] [] [] [] []]; try discriminate H.

Ltac run_matcher :=
  match goal with
  | |- ∃ rest, ?l = _ =>
      let v := eval vm_compute in l in change l with v
  end; eexists; reflexivity.

Section forward.
Import Datetime.

Lemma bind_cons {A B} (f : A → list B) (a : A) (l : list A) :
  (a :: l) ≫= f = (f a ++ (l ≫= f))%list.
Proof. done. Qed.

Lemma leads_lit (c : ascii) (r : string) :
  lit c (String c r) = [(String c EmptyString, r)].
Proof. unfold lit, one. by rewrite Ascii.eqb_refl. Qed.

Lemma two_digits (x : string) :
  digit_run 2 2 x →
  ∃ c1 c2, x = String c1 (String c2 EmptyString)
           ∧ Str.is_digit c1 = true ∧ Str.is_digit c2 = true.
Proof.
  intros [Hall Hlen]. destruct x as [|c1 [|c2 [|? ?]]]; cbn in Hlen; try lia.
  cbn [Str.all_chars] in Hall.
  apply andb_true_iff in Hall as [H1 [H2 _]%andb_true_iff]. by exists c1, c2.
Qed.

(** One digit or two. *)
Lemma small_number_cases (top : Z) (x : string) :
  small_number top x →
  (∃ c, x = String c EmptyString ∧ Str.is_digit c = true)
  ∨ (∃ c1 c2, x = String c1 (String c2 EmptyString)
              ∧ Str.is_digit c1 = true ∧ Str.is_digit c2 = true).
Proof.
  intros (Hd & Hlen & _).
  destruct x as [|c1 [|c2 [|? ?]]]; cbn in Hlen; try lia; [done| |];
    cbn in Hd; rewrite ?andb_true_r in Hd.
  - left. by exists c1.
  - apply andb_true_iff in Hd as [H1 H2]. right. by exists c1, c2.
Qed.

Lemma leads_dir_H (x r : string) :
  small_number 23 x → leads dir_H x (String ":" r).
Proof.
  intros Hx. pose proof Hx as (_ & _ & _ & Hval%Z.leb_le). unfold leads.
  destruct (small_number_cases _ _ Hx) as [(c & -> & H)|(c1 & c2 & -> & H1 & H2)].
  - digit_cases c H; run_matcher.
  - digit_cases c1 H1; digit_cases c2 H2; try discriminate Hval; run_matcher.
Qed.

Lemma leads_dir_M (x r : string) :
  small_number 59 x → leads dir_M x (String ":" r).
Proof.
  intros Hx. pose proof Hx as (_ & _ & _ & Hval%Z.leb_le). unfold leads.
  destruct (small_number_cases _ _ Hx) as [(c & -> & H)|(c1 & c2 & -> & H1 & H2)].
  - digit_cases c H; run_matcher.
  - digit_cases c1 H1; digit_cases c2 H2; try discriminate Hval; run_matcher.
Qed.

Lemma leads_dir_S (x r : string) :
  small_number 59 x → after_seconds r → leads dir_S x r.
Proof.
  intros Hx Hr. pose proof Hx as (_ & _ & _ & Hval%Z.leb_le). unfold leads.
  destruct (small_number_cases _ _ Hx) as [(c & -> & H)|(c1 & c2 & -> & H1 & H2)].
  - destruct Hr as [->|[r' ->]]; digit_cases c H; run_matcher.
  - digit_cases c1 H1; digit_cases c2 H2; try discriminate Hval; run_matcher.
Qed.

Lemma leads_dir_m (x r : string) :
  month_text x → leads dir_m x (String "-" r).
Proof.
  intros [Hx Hlow%Z.leb_le].
  pose proof Hx as (_ & _ & _ & Hval%Z.leb_le). unfold leads.
  destruct (small_number_cases _ _ Hx) as [(c & -> & H)|(c1 & c2 & -> & H1 & H2)].
  - digit_cases c H; try discriminate Hlow; run_matcher.
  - digit_cases c1 H1; digit_cases c2 H2;
      try discriminate Hval; try discriminate Hlow; run_matcher.
Qed.

Lemma leads_dir_d (x : string) :
  day_text x → leads dir_d x EmptyString.
Proof.
  intros [[Hx Hlow%Z.leb_le]|(c & -> & Hc)]; unfold leads.
  - pose proof Hx as (_ & _ & _ & Hval%Z.leb_le).
    destruct (small_number_cases _ _ Hx)
      as [(c & -> & H)|(c1 & c2 & -> & H1 & H2)].
    + digit_cases c H; try discriminate Hlow; run_matcher.
    + digit_cases c1 H1; digit_cases c2 H2;
        try discriminate Hval; try discriminate Hlow; run_matcher.
  - digit_cases c Hc; run_matcher.
Qed.

Lemma digit_leads (c : ascii) (r : string) :
  Str.is_digit c = true → digit (String c r) = [(String c EmptyString, r)].
Proof. unfold digit, one. by intros ->. Qed.

Lemma leads_dir_Y (x r : string) : digit_run 4 4 x → leads dir_Y x r.
Proof.
  intros [Hall Hlen].
  destruct x as [|c1 [|c2 [|c3 [|c4 [|? ?]]]]]; cbn in Hlen; try lia.
  cbn [Str.all_chars] in Hall.
  apply andb_true_iff in Hall as [H1 Hall].
  apply andb_true_iff in Hall as [H2 Hall].
  apply andb_true_iff in Hall as [H3 Hall].
  apply andb_true_iff in Hall as [H4 _].
  unfold leads, dir_Y, seq. rewrite !app_cons, app_nil.
  rewrite (digit_leads c1) by done. rewrite bind_cons. cbn beta iota.
  rewrite (digit_leads c2) by done. rewrite bind_cons. cbn beta iota.
  rewrite (digit_leads c3) by done. rewrite bind_cons. cbn beta iota.
  rewrite (digit_leads c4) by done. by eexists.
Qed.

Lemma upto_greedy (n : nat) (x : string) :
  Str.all_chars Str.is_digit x = true → (String.length x ≤ n)%nat →
  ∃ rest, upto n x = (x, EmptyString) :: rest.
Proof.
  revert x. induction n as [|n IH]; intros x Hall Hlen.
  - destruct x; [|cbn in Hlen; lia]. by eexists.
  - cbn [upto]. unfold alt. rewrite !bind_cons.
    destruct x as [|c x].
    + by eexists.
    + cbn [Str.all_chars] in Hall. apply andb_true_iff in Hall as [Hc Hall].
      cbn in Hlen. destruct (IH x Hall ltac:(lia)) as [rest Hrest].
      unfold seq. rewrite (digit_leads c x Hc), bind_cons, Hrest, bind_cons.
      by eexists.
Qed.

Lemma leads_dir_f (x : string) :
  digit_run 1 6 x → ∃ rest, dir_f x = (x, EmptyString) :: rest.
Proof.
  intros [Hall Hlen]. destruct x as [|c x]; [cbn in Hlen; lia|].
  cbn [Str.all_chars] in Hall. apply andb_true_iff in Hall as [Hc Hall].
  cbn in Hlen. destruct (upto_greedy 5 x Hall ltac:(lia)) as [rest Hrest].
  unfold dir_f, seq. rewrite (digit_leads c x Hc), bind_cons, Hrest, bind_cons.
  by eexists.
Qed.

Lemma small_number_digits (top : Z) (x : string) :
  small_number top x → Str.all_chars Str.is_digit x = true.
Proof. intros (Hd & _). by destruct x. Qed.

Lemma clock_text_small (top : Z) (x : string) :
  clock_text top x → small_number top x ∧ Str.zfill 2 x = x.
Proof.
  intros [Hrun Hval]. pose proof Hrun as [Hall Hlen].
  destruct (two_digits x Hrun) as (c1 & c2 & -> & H1 & H2).
  split.
  - split; [by cbn; rewrite H1, H2|]. split; [cbn; lia|].
    split; [|done].
    pose proof (digits_val_bound _ 0 Hall ltac:(lia)). lia.
  - digit_cases c1 H1; digit_cases c2 H2; reflexivity.
Qed.

Lemma zeros_are_digits (n : nat) :
  Str.all_chars Str.is_digit (Str.repeat_char "0" n) = true.
Proof. by induction n. Qed.

Lemma strptime_HMS_reads (hs ms ss fs : string) :
  small_number 23 hs → small_number 59 ms → small_number 59 ss →
  digit_run 1 6 fs →
  strptime_HMS true (hs ++ ":" ++ ms ++ ":" ++ ss ++ "." ++ fs)
  = Ok {| hour := Num.digits_val 0 hs; minute := Num.digits_val 0 ms;
          second := Num.digits_val 0 ss;
          microsecond :=
            Num.digits_val 0
              (fs ++ Str.repeat_char "0" (6 - String.length fs)) |}.
Proof.
  intros Hh Hm Hs Hf. unfold strptime_HMS. rewrite !app_cons, !app_nil.
  destruct (leads_dir_H hs (ms ++ String ":" (ss ++ String "." fs)) Hh)
    as [rest1 ->].
  rewrite bind_cons. cbn beta iota. rewrite leads_lit, bind_cons.
  cbn beta iota.
  destruct (leads_dir_M ms (ss ++ String "." fs) Hm) as [rest2 ->].
  rewrite bind_cons. cbn beta iota. rewrite leads_lit, bind_cons.
  cbn beta iota.
  destruct (leads_dir_S ss (String "." fs) Hs) as [rest3 ->].
  { right. by eexists. }
  rewrite bind_cons. cbn beta iota. rewrite leads_lit, bind_cons.
  cbn beta iota.
  destruct (leads_dir_f fs Hf) as [rest4 ->].
  rewrite bind_cons. cbn beta iota.
  rewrite <- !List.app_assoc. cbn [app first_match mbind result_bind].
  pose proof Hh as (Hhd & _). pose proof Hm as (Hmd & _).
  pose proof Hs as (Hsd & _ & _ & Hsv%Z.leb_le). destruct Hf as [Hfd Hfl].
  rewrite (int_of_digits hs Hhd), (int_of_digits ms Hmd),
    (int_of_digits ss Hsd).
  rewrite int_of_digits.
  2:{ destruct fs; [cbn in Hfl; lia|]. rewrite app_cons.
      cbn [Str.isdigit]. by rewrite <- app_cons, all_chars_app, Hfd,
        zeros_are_digits. }
  cbn [mbind result_bind]. by rewrite Hsv.
Qed.

Lemma strptime_HMS_reads_whole (hs ms ss : string) :
  small_number 23 hs → small_number 59 ms → small_number 59 ss →
  strptime_HMS false (hs ++ ":" ++ ms ++ ":" ++ ss)
  = Ok {| hour := Num.digits_val 0 hs; minute := Num.digits_val 0 ms;
          second := Num.digits_val 0 ss; microsecond := 0 |}.
Proof.
  intros Hh Hm Hs. unfold strptime_HMS. rewrite !app_cons, !app_nil.
  destruct (leads_dir_H hs (ms ++ String ":" ss) Hh) as [rest1 ->].
  rewrite bind_cons. cbn beta iota. rewrite leads_lit, bind_cons.
  cbn beta iota.
  destruct (leads_dir_M ms ss Hm) as [rest2 Hrest2]. rewrite Hrest2.
  rewrite bind_cons. cbn beta iota. rewrite leads_lit, bind_cons.
  cbn beta iota.
  destruct (leads_dir_S ss EmptyString Hs) as [rest3 Hrest3]; [by left|].
  rewrite app_nil_r' in Hrest3. rewrite Hrest3.
  rewrite bind_cons. cbn beta iota.
  rewrite <- !List.app_assoc. cbn [app first_match mbind result_bind].
  pose proof Hh as (Hhd & _). pose proof Hm as (Hmd & _).
  pose proof Hs as (Hsd & _ & _ & Hsv%Z.leb_le).
  rewrite (int_of_digits hs Hhd), (int_of_digits ms Hmd),
    (int_of_digits ss Hsd).
  cbn [mbind result_bind]. by rewrite Hsv.
Qed.

Lemma strptime_Ymd_reads (ys ms ds : string) (y m d : Z) :
  digit_run 4 4 ys → month_text ms → day_text ds →
  Num.int ys = Ok y → Num.int ms = Ok m → Num.int ds = Ok d →
  (1 ≤ y)%Z → (d ≤ days_in_month y m)%Z →
  strptime_Ymd (ys ++ "-" ++ ms ++ "-" ++ ds)
  = Ok {| year := y; month := m; day := d |}.
Proof.
  intros Hy Hm Hd Ey Em Ed Hlow%Z.ltb_ge Hhigh%Z.leb_le.
  unfold strptime_Ymd. rewrite !app_cons, !app_nil.
  destruct (leads_dir_Y ys (String "-" (ms ++ String "-" ds)) Hy)
    as [rest1 ->].
  rewrite bind_cons. cbn beta iota. rewrite leads_lit, bind_cons.
  cbn beta iota.
  destruct (leads_dir_m ms ds Hm) as [rest2 ->].
  rewrite bind_cons. cbn beta iota. rewrite leads_lit, bind_cons.
  cbn beta iota.
  destruct (leads_dir_d ds Hd) as [rest3 Hrest3].
  rewrite app_nil_r' in Hrest3. rewrite Hrest3.
  rewrite bind_cons. cbn beta iota.
  rewrite <- !List.app_assoc. cbn [app first_match mbind result_bind].
  rewrite Ey, Em, Ed. cbn [mbind result_bind]. by rewrite Hlow, Hhigh.
Qed.

End forward.

(** ** The two validators *)

Section validators.
Import Datetime.

Lemma time_with_dot (a b : string) :
  Str.has_char "." (a ++ "." ++ b) = true.
Proof. rewrite has_char_app. cbn. apply orb_true_r. Qed.

Lemma small_number_without_dot (top : Z) (x : string) :
  small_number top x → Str.has_char "." x = false.
Proof. intros H. by apply digits_without_dot, (small_number_digits top). Qed.

Lemma time_without_dot (hs ms ss : string) :
  small_number 23 hs → small_number 59 ms → small_number 59 ss →
  Str.has_char "." (hs ++ ":" ++ ms ++ ":" ++ ss) = false.
Proof.
  intros Hh Hm Hs.
  by rewrite !has_char_app, (small_number_without_dot _ _ Hh),
    (small_number_without_dot _ _ Hm), (small_number_without_dot _ _ Hs).
Qed.

Lemma time_with_fraction (hs ms ss fs : string) :
  Str.has_char "." (hs ++ ":" ++ ms ++ ":" ++ ss ++ "." ++ fs) = true.
Proof. rewrite !has_char_app. cbn. by rewrite !orb_true_r. Qed.

(** X7. [validate_date_string] accepts the dates of the calendar and nothing
    else: a year of four digits other than [0000], a hyphen, a month from
    1 to 12, a hyphen and a day that the month of that year has; month and
    day may have one digit. Every other text, the 30th of February or a
    date followed by more text among them, raises [ValueError] with the
    message of the function. *)
Theorem validate_date_string_accepts (date_string : string) :
  (validate_date_string date_string = Ok tt ↔ date_text date_string)
  ∧ (validate_date_string date_string = Ok tt
     ∨ validate_date_string date_string
       = Raise (ValueError "Incorrect data format, should be YYYY-MM-DD")).
Proof.
  unfold validate_date_string. split.
  - split.
    + destruct (strptime_Ymd date_string) as [date|] eqn:Hparse; [|done].
      intros _. apply strptime_Ymd_calendar in Hparse
        as (Hyear & _ & Hday & ys & ms & ds & -> & Hy & Hm & Hd & Ey & Em & Ed).
      exists ys, ms, ds, (year date), (month date), (day date).
      repeat (split; [done|]). split; lia.
    + intros (ys & ms & ds & y & m & d & -> & Hy & Hm & Hd & Ey & Em & Ed
              & Hlow & Hhigh).
      by rewrite (strptime_Ymd_reads ys ms ds y m d).
  - destruct (strptime_Ymd date_string); [by left|by right].
Qed.

(** X8. [validate_time_string] accepts the times of day and nothing else:
    hours, minutes and seconds of one or two digits, at most 23, 59 and
    59, with colons between them, and possibly a dot and one to six
    digits. Every other text, seconds of 60 or a seventh decimal among
    them, raises [ValueError] with the message of the function. *)
Theorem validate_time_string_accepts (time_string : string) :
  (validate_time_string time_string = Ok tt ↔ time_text time_string)
  ∧ (validate_time_string time_string = Ok tt
     ∨ validate_time_string time_string
       = Raise (ValueError
                  "Incorrect data format, should be HH:MM:SS.ssssss")).
Proof.
  unfold validate_time_string. split.
  - split.
    + destruct (strptime_HMS _ time_string) as [t|] eqn:Hparse; [|done].
      intros _. apply strptime_HMS_clock in Hparse
        as (hs & ms & ss & fs & Heq & Hh & Hm & Hs & Hf & _).
      exists hs, ms, ss. repeat (split; [done|]).
      destruct (Str.has_char "." time_string).
      * right. by exists fs.
      * left. by rewrite Heq, app_nil_r'.
    + intros (hs & ms & ss & Hh & Hm & Hs & [->|(fs & Hf & ->)]).
      * rewrite time_without_dot by done.
        by rewrite strptime_HMS_reads_whole.
      * rewrite time_with_fraction. by rewrite strptime_HMS_reads.
  - destruct (strptime_HMS _ time_string); [by left|by right].
Qed.

End validators.

(** ** The time of day in the reports *)

Section rendering.
Import Datetime.
Context {constants : Constants}.

Lemma digits_val_snoc (acc : Z) (x : string) (c : ascii) :
  Num.digits_val acc (x ++ String c EmptyString)
  = (10 * Num.digits_val acc x + Num.digit_val c)%Z.
Proof.
  revert acc. induction x as [|d x IH]; intros acc; [done|].
  rewrite app_cons. cbn [Num.digits_val]. apply IH.
Qed.

Lemma snoc_decompose (c : ascii) (x : string) :
  ∃ y d, String c x = y ++ String d EmptyString
         ∧ String.length y = String.length x.
Proof.
  revert c. induction x as [|e x IH]; intros c.
  - by exists EmptyString, c.
  - destruct (IH e) as (y & d & Heq & Hlen).
    exists (String c y), d. split; [by rewrite Heq|]. cbn. by rewrite Hlen.
Qed.

Lemma digit_char_val (c : ascii) :
  Str.is_digit c = true → Num.digit_char (Z.to_N (Num.digit_val c)) = c.
Proof. intros H. digit_cases c H; reflexivity. Qed.

Lemma digit_val_bounds (c : ascii) :
  Str.is_digit c = true → (0 ≤ Num.digit_val c ≤ 9)%Z.
Proof. intros H. digit_cases c H; vm_compute; split; discriminate. Qed.

Lemma digits_val_nonneg (x : string) :
  Str.all_chars Str.is_digit x = true → (0 ≤ Num.digits_val 0 x)%Z.
Proof.
  intros Hall. pose proof (digits_val_bound x 0 Hall ltac:(lia)). lia.
Qed.

(** Writing the value of a text of digits with as many digits gives the
    text back. *)
Lemma fixed_digits_val (x : string) :
  Str.all_chars Str.is_digit x = true →
  Num.fixed_digits (String.length x) (Z.to_N (Num.digits_val 0 x)) = x.
Proof.
  remember (String.length x) as n eqn:Hn. revert x Hn.
  induction n as [|n IH]; intros x Hn Hall.
  { by destruct x. }
  destruct x as [|c x]; [done|].
  cbn in Hn. injection Hn as Hn.
  destruct (snoc_decompose c x) as (y & d & Heq & Hlen).
  rewrite Heq in *. clear Heq.
  rewrite all_chars_app in Hall.
  apply andb_true_iff in Hall as [Hy Hd]. cbn in Hd.
  rewrite andb_true_r in Hd.
  pose proof (digit_val_bounds d Hd) as Hdv.
  pose proof (digits_val_nonneg y Hy) as Hyv.
  rewrite digits_val_snoc. cbn [Num.fixed_digits].
  replace (Z.to_N (10 * Num.digits_val 0 y + Num.digit_val d) / 10)%N
    with (Z.to_N (Num.digits_val 0 y)).
  2:{ apply N2Z.inj. rewrite N2Z.inj_div, !Z2N.id by lia.
      change (Z.of_N 10) with 10%Z.
      apply Z.div_unique with (Num.digit_val d); lia. }
  replace (Z.to_N (10 * Num.digits_val 0 y + Num.digit_val d) mod 10)%N
    with (Z.to_N (Num.digit_val d)).
  2:{ apply N2Z.inj. rewrite N2Z.inj_mod, !Z2N.id by lia.
      change (Z.of_N 10) with 10%Z.
      apply Z.mod_unique with (Num.digits_val 0 y); lia. }
  rewrite IH by (done || lia). by rewrite digit_char_val.
Qed.

Lemma two_val (x : string) :
  small_number 59 x → two (Num.digits_val 0 x) = Str.zfill 2 x.
Proof.
  intros (Hd & Hlen & _). destruct x as [|c1 [|c2 [|? ?]]]; cbn in Hlen;
    try lia; [done| |]; cbn in Hd; rewrite ?andb_true_r in Hd.
  - digit_cases c1 Hd; reflexivity.
  - apply andb_true_iff in Hd as [H1 H2].
    digit_cases c1 H1; digit_cases c2 H2; reflexivity.
Qed.

Lemma normalise_time_fraction (hours minutes whole fraction : string) :
  clock_text 23 hours → clock_text 59 minutes → small_number 59 whole →
  digit_run 1 6 fraction →
  normalise_time hours minutes (whole ++ "." ++ fraction)
  = Ok (hours ++ ":" ++ minutes ++ ":" ++ Str.zfill 2 whole ++ "."
        ++ fraction ++ Str.repeat_char "0" (6 - String.length fraction)).
Proof.
  intros Hh Hm Hs Hf. unfold normalise_time.
  change (Str.join ":" [hours; minutes; whole ++ "." ++ fraction])
    with (hours ++ ":" ++ minutes ++ ":" ++ whole ++ "." ++ fraction).
  assert (Str.has_char "." (hours ++ ":" ++ minutes ++ ":" ++ whole ++ "."
                            ++ fraction) = true) as Hdot.
  { rewrite !has_char_app. cbn. by rewrite !orb_true_r. }
  rewrite Hdot. cbn [negb]. rewrite Hdot.
  destruct (clock_text_small _ _ Hh) as [Hhs Hhz].
  destruct (clock_text_small _ _ Hm) as [Hms Hmz].
  rewrite strptime_HMS_reads by done. cbn [mbind result_bind].
  unfold strftime_HMS. cbn [hour minute second microsecond].
  assert (small_number 59 hours) as Hhs'.
  { destruct Hhs as (? & ? & ? & ?). repeat split; try done. lia. }
  rewrite (two_val hours Hhs'), (two_val minutes Hms), (two_val whole Hs).
  rewrite Hhz, Hmz.
  set (digits := fraction ++ Str.repeat_char "0" (6 - String.length fraction)).
  assert (String.length digits = 6%nat) as Hlen.
  { unfold digits. rewrite length_app, repeat_char_length.
    destruct Hf as [_ ?]. lia. }
  assert (Str.all_chars Str.is_digit digits = true) as Hall.
  { unfold digits. rewrite all_chars_app. destruct Hf as [-> _].
    clear. by induction (6 - _)%nat. }
  rewrite <- Hlen at 1. by rewrite (fixed_digits_val digits Hall).
Qed.

Lemma normalise_time_whole (hours minutes whole : string) :
  clock_text 23 hours → clock_text 59 minutes → small_number 59 whole →
  normalise_time hours minutes whole
  = Ok (hours ++ ":" ++ minutes ++ ":" ++ Str.zfill 2 whole ++ ".000000").
Proof.
  intros Hh Hm Hs.
  transitivity (normalise_time hours minutes (whole ++ "." ++ "000000")).
  2:{ rewrite normalise_time_fraction; [done..|]. by split; [|cbn; lia]. }
  unfold normalise_time.
  change (Str.join ":" [hours; minutes; whole])
    with (hours ++ ":" ++ minutes ++ ":" ++ whole).
  change (Str.join ":" [hours; minutes; whole ++ "." ++ "000000"])
    with (hours ++ ":" ++ minutes ++ ":" ++ whole ++ "." ++ "000000").
  destruct (clock_text_small _ _ Hh) as [Hhs _].
  destruct (clock_text_small _ _ Hm) as [Hms _].
  assert (Str.has_char "." (hours ++ ":" ++ minutes ++ ":" ++ whole)
          = false) as ->.
  { rewrite !has_char_app, (small_number_without_dot _ _ Hhs),
      (small_number_without_dot _ _ Hms), (small_number_without_dot _ _ Hs).
    done. }
  assert (Str.has_char "."
            (hours ++ ":" ++ minutes ++ ":" ++ whole ++ "." ++ "000000")
          = true) as ->.
  { rewrite !has_char_app. cbn. by rewrite !orb_true_r. }
  cbn [negb]. by rewrite !app_assoc'.
Qed.

Lemma normalise_time_length (hours minutes seconds : string) :
  clock_text 23 hours → clock_text 59 minutes → seconds_text seconds →
  ∃ time, normalise_time hours minutes seconds = Ok time
          ∧ String.length time = 15%nat.
Proof.
  intros Hh Hm (whole & Hs & Hseconds).
  assert (String.length (Str.zfill 2 whole) = 2%nat) as Hz.
  { destruct Hs as (Hd & Hlen & _).
    destruct whole as [|c1 [|c2 [|? ?]]]; cbn in Hlen; try lia; [done| |];
      cbn in Hd; rewrite ?andb_true_r in Hd.
    - digit_cases c1 Hd; reflexivity.
    - apply andb_true_iff in Hd as [H1 H2]. digit_cases c1 H1; reflexivity. }
  destruct (two_digits hours (proj1 Hh)) as (h1 & h2 & Ehours & _).
  destruct (two_digits minutes (proj1 Hm)) as (m1 & m2 & Eminutes & _).
  destruct Hseconds as [->|(fraction & -> & Hf)]; eexists.
  - split; [by apply normalise_time_whole|]. rewrite Ehours, Eminutes.
    rewrite !app_cons, !app_nil.
    cbn [String.length]. rewrite length_app, Hz. done.
  - split; [by apply normalise_time_fraction|]. rewrite Ehours, Eminutes.
    rewrite !app_cons, !app_nil. cbn [String.length].
    rewrite length_app, Hz. cbn [String.length].
    rewrite length_app, repeat_char_length. destruct Hf as [_ ?]. lia.
Qed.

(** X10. What [print_timestamp], [build_tgis_timestamp] and [simple_timestamp]
    show for a time of day: hours and minutes as they stand, the seconds
    with two digits, a dot and six decimals, zeros added on the right.
    Fifteen characters in all. *)
Theorem normalise_time_six_decimals (hours minutes whole : string) :
  clock_text 23 hours → clock_text 59 minutes → small_number 59 whole →
  normalise_time hours minutes whole
  = Ok (hours ++ ":" ++ minutes ++ ":" ++ Str.zfill 2 whole ++ ".000000")
  ∧ String.length
      (hours ++ ":" ++ minutes ++ ":" ++ Str.zfill 2 whole ++ ".000000")
    = 15%nat
  ∧ ∀ fraction, digit_run 1 6 fraction →
      normalise_time hours minutes (whole ++ "." ++ fraction)
      = Ok (hours ++ ":" ++ minutes ++ ":" ++ Str.zfill 2 whole ++ "."
            ++ fraction
            ++ Str.repeat_char "0" (6 - String.length fraction))
      ∧ String.length
          (hours ++ ":" ++ minutes ++ ":" ++ Str.zfill 2 whole ++ "."
           ++ fraction ++ Str.repeat_char "0" (6 - String.length fraction))
        = 15%nat.
Proof.
  intros Hh Hm Hs.
  split; [by apply normalise_time_whole|]. split.
  - destruct (normalise_time_length hours minutes whole Hh Hm)
      as (time & Htime & Hlen); [exists whole; by split; [|left]|].
    rewrite normalise_time_whole in Htime by done. by injection Htime as <-.
  - intros fraction Hf. split; [by apply normalise_time_fraction|].
    destruct (normalise_time_length hours minutes (whole ++ "." ++ fraction)
                Hh Hm) as (time & Htime & Hlen).
    { exists whole. split; [done|]. right. by exists fraction. }
    rewrite normalise_time_fraction in Htime by done.
    by injection Htime as <-.
Qed.

End rendering.

Lemma normalise_time_six_decimals_witness :
  normalise_time "09" "15" "7" = Ok "09:15:07.000000"
  ∧ normalise_time "09" "15" "23.5" = Ok "09:15:23.500000".
Proof.
  destruct (normalise_time_six_decimals "09" "15" "7") as (Hwhole & _);
    [repeat split; vm_compute; first [lia|reflexivity|discriminate]..|].
  destruct (normalise_time_six_decimals "09" "15" "23")
    as (_ & _ & Hfraction);
    [repeat split; vm_compute; first [lia|reflexivity|discriminate]..|].
  split; [exact Hwhole|]. apply (Hfraction "5").
  repeat split; vm_compute; first [lia|reflexivity|discriminate].
Defined.

(** ** The dictionary of the metadata parser *)

Section invariant.
Context {constants : Constants} {metadata : Metadata}.

Lemma unique_prefix (c : ascii) (a b x y : string) :
  a ++ String c x = b ++ String c y →
  Str.has_char c a = false → Str.has_char c b = false →
  a = b ∧ x = y.
Proof.
  revert b. induction a as [|d a IH]; intros [|e b]; rewrite ?app_cons, ?app_nil.
  - by intros [= ->].
  - intros [= <- _] _. cbn [Str.has_char]. by rewrite Ascii.eqb_refl.
  - intros [= -> _]. cbn [Str.has_char]. by rewrite Ascii.eqb_refl.
  - intros [= -> Heq]. cbn [Str.has_char].
    intros [_ Ha]%orb_false_iff [_ Hb]%orb_false_iff.
    destruct (IH b Heq Ha Hb) as [-> ->]. done.
Qed.

Lemma split_pieces_free (c : ascii) (s : string) :
  Forall (λ x, Str.has_char c x = false) (Str.split c s).
Proof.
  induction s as [|d s IH]; cbn [Str.split]; [by repeat constructor|].
  destruct (Ascii.eqb c d) eqn:Hcd; [by constructor|].
  destruct (Str.split c s) as [|w ws].
  { repeat constructor. cbn [Str.has_char]. by rewrite Hcd. }
  apply Forall_cons in IH as [Hw Hws]. constructor; [|done].
  cbn [Str.has_char]. by rewrite Hcd, Hw.
Qed.

Lemma digits_without (c : ascii) (x : string) :
  Str.is_digit c = false → Str.all_chars Str.is_digit x = true →
  Str.has_char c x = false.
Proof.
  intros Hc. induction x as [|d x IH]; [done|].
  cbn [Str.all_chars Str.has_char]. intros [Hd Hx]%andb_true_iff.
  rewrite IH by done. destruct (Ascii.eqb_spec c d) as [->|]; [congruence|done].
Qed.

Lemma format_02d_clock (top n : Z) :
  (0 ≤ n ≤ top)%Z → (top ≤ 59)%Z → clock_text top (Num.format_02d n).
Proof.
  intros Hn Htop.
  assert (digit_run 2 2 (Num.format_02d n)
          ∧ Num.digits_val 0 (Num.format_02d n) = n) as [Hrun Hval].
  { assert (∃ k : nat, (k < 60)%nat ∧ n = Z.of_nat k) as (k & Hk & ->).
    { exists (Z.to_nat n). lia. }
    clear Hn. do 60 (destruct k as [|k]; [by vm_compute|]). lia. }
  split; [done|]. lia.
Qed.

Lemma render_seconds_fields (skip : bool) (time hours minutes seconds : string) :
  render_seconds skip time = Ok (hours, minutes, seconds) →
  Str.has_char ":" hours = false ∧ Str.has_char ":" minutes = false.
Proof.
  unfold render_seconds.
  destruct (Str.nth 0 _) as [whole|]; cbn; [|done].
  pose proof (split_pieces_free ":" whole) as Hfree.
  destruct (Str.split ":" whole) as [|h [|m [|s [|? ?]]]]; try done.
  destruct (if negb skip then _ else _); cbn; [|done].
  destruct (drop_fraction_below_10 _); cbn; [|done].
  intros [= <- <- <-].
  apply Forall_cons in Hfree as [? Hfree].
  by apply Forall_cons in Hfree as [? _].
Qed.

Lemma validated_time (hours minutes seconds : string) :
  validate_time_string (Str.join ":" [hours; minutes; seconds]) = Ok tt →
  Str.has_char ":" hours = false → Str.has_char ":" minutes = false →
  small_number 23 hours ∧ small_number 59 minutes ∧ seconds_text seconds.
Proof.
  unfold validate_time_string.
  destruct (Datetime.strptime_HMS _ _) as [t|] eqn:Hparse; [|done].
  intros _ Hh Hm.
  apply strptime_HMS_clock in Hparse
    as (hs & ms & ss & fs & Heq & Hhs & Hms & Hss & Hfs & _).
  change (Str.join ":" [hours; minutes; seconds])
    with (hours ++ String ":" (minutes ++ String ":" seconds)) in Heq.
  rewrite !app_cons, !app_nil in Heq.
  apply unique_prefix in Heq as [-> Heq];
    [|done|by apply (digits_without ":"), (small_number_digits 23)].
  apply unique_prefix in Heq as [-> Heq];
    [|done|by apply (digits_without ":"), (small_number_digits 59)].
  split; [done|]. split; [done|]. exists ss. split; [done|].
  destruct (Str.has_char "." _).
  - right. by exists fs.
  - left. by rewrite Heq, app_nil_r'.
Qed.

Ltac split_fields :=
  split; [|split; [|split; [|split; [|split; [|split; [|split]]]]]].

Lemma read_date_fields (line : string) (d d' : gmap string string) :
  read_date line d = Ok d' → parsed_fields d → parsed_fields d'.
Proof.
  unfold read_date. destruct (any_in DATE_STRINGS line); [|by intros [= <-]].
  destruct (value_of line) as [date|]; cbn; [|done].
  unfold validate_date_string.
  destruct (Datetime.strptime_Ymd date) as [parsed|] eqn:Hparse; cbn; [|done].
  intros [= <-] (Hkeys & Hdate & Hzone & Hh & Hm & Hhours & Hminutes & Hseconds).
  split_fields.
  - intros key. destruct (decide (key = "date")) as [->|Hne].
    + intros _. by left.
    + rewrite lookup_insert_ne by done. apply Hkeys.
  - rewrite lookup_insert_eq. intros x [= <-]. exists parsed.
    split; [done|]. by apply strptime_Ymd_calendar in Hparse as (? & ? & ? & _).
  - intros x. rewrite !lookup_insert_ne by done. apply Hzone.
  - by rewrite !lookup_insert_ne by done.
  - by rewrite !lookup_insert_ne by done.
  - intros x. rewrite lookup_insert_ne by done. apply Hhours.
  - intros x. rewrite lookup_insert_ne by done. apply Hminutes.
  - intros x. rewrite lookup_insert_ne by done. apply Hseconds.
Qed.

Lemma read_time_fields (skip : bool) (line : string)
    (d d' : gmap string string) :
  read_time skip line d = Ok d' → parsed_fields d → parsed_fields d'.
Proof.
  unfold read_time. destruct (any_in TIME_STRINGS line); [|by intros [= <-]].
  set (line' := if Str.has_char quote line then _ else _).
  destruct (value_of line') as [time|]; cbn; [|done].
  destruct (render_seconds skip _) as [[[hours minutes] seconds]|] eqn:Hrender;
    cbn; [|done].
  destruct (validate_time_string _) as [[]|] eqn:Hvalid; cbn; [|done].
  apply render_seconds_fields in Hrender as [Hh Hm].
  destruct (validated_time _ _ _ Hvalid Hh Hm) as (Hhours & Hminutes & Hseconds).
  rewrite (int_of_digits hours) by apply Hhours.
  rewrite (int_of_digits minutes) by apply Hminutes. cbn.
  intros [= <-] (Hkeys & Hdate & Hzone & _ & _ & _ & _ & _).
  assert (∀ key x, (if Str.endswith_char "Z" line'
                    then <["timezone" := ZERO_TIMEZONE]> d else d) !! key
                   = Some x →
          (key = "timezone" ∧ x = ZERO_TIMEZONE) ∨ d !! key = Some x) as Hold.
  { intros key x. destruct (Str.endswith_char "Z" line'); [|by right].
    destruct (decide (key = "timezone")) as [->|Hne].
    - rewrite lookup_insert_eq. intros [= <-]. by left.
    - rewrite lookup_insert_ne by done. by right. }
  split_fields.
  - intros key [x Hx].
    destruct (decide (key = "seconds")) as [->|]; [by repeat constructor|].
    destruct (decide (key = "minutes")) as [->|]; [by repeat constructor|].
    destruct (decide (key = "hours")) as [->|]; [by repeat constructor|].
    rewrite !lookup_insert_ne in Hx by done.
    apply Hold in Hx as [[-> _]|Hx]; [by repeat constructor|]. by apply Hkeys.
  - intros x. rewrite !lookup_insert_ne by done.
    intros [[? _]|Hx]%Hold; [done|]. by apply Hdate.
  - intros x. rewrite !lookup_insert_ne by done. rewrite lookup_insert_eq.
    intros [[_ ->]|Hx]%Hold; [done|]. by apply Hzone in Hx as [-> _].
  - rewrite lookup_insert_eq, lookup_insert_ne, lookup_insert_ne,
      lookup_insert_eq by done. done.
  - rewrite lookup_insert_eq, lookup_insert_ne, lookup_insert_eq by done. done.
  - intros x. rewrite lookup_insert_ne, lookup_insert_ne, lookup_insert_eq
      by done.
    intros [= <-]. apply format_02d_clock; [|done].
    destruct Hhours as (_ & _ & ?). lia.
  - intros x. rewrite lookup_insert_ne, lookup_insert_eq by done.
    intros [= <-]. apply format_02d_clock; [|done].
    destruct Hminutes as (_ & _ & ?). lia.
  - intros x. rewrite lookup_insert_eq. by intros [= <-].
Qed.

Lemma read_lines_fields (skip : bool) (lines : list string)
    (d d' : gmap string string) :
  read_lines skip lines d = Ok d' → parsed_fields d → parsed_fields d'.
Proof.
  revert d. induction lines as [|line lines IH]; intros d; cbn [read_lines].
  { by intros [= <-]. }
  destruct (read_line skip line d) as [d1|] eqn:Hline; cbn; [|done].
  intros Hrest Hd. apply (IH d1 Hrest). revert Hline. unfold read_line.
  destruct (_ =? _)%nat; [by intros [= <-]|].
  destruct (read_date _ d) as [d2|] eqn:Hdate; cbn; [|done].
  intros Htime. eapply read_time_fields; [done|].
  by eapply read_date_fields.
Qed.

Lemma empty_fields : parsed_fields ∅.
Proof.
  split_fields;
    try (intros x; rewrite lookup_empty; first [by intros [? ?]|done]);
    rewrite !lookup_empty; split; by intros [? ?].
Qed.

Lemma read_metafile_returns (skip : bool) (metafile : string)
    (w w' : world) (date_time : gmap string string) :
  read_metafile skip metafile w = (Ok date_time, w') →
  ∃ text, files w !! metafile = Some text
          ∧ read_lines skip (readlines text) ∅ = Ok date_time.
Proof.
  unfold read_metafile, py_open.
  destruct (files w !! metafile) as [text|]; [|done].
  intros [= Hlines _]. by exists text.
Qed.

Lemma read_metafile_fields (skip : bool) (metafile : string)
    (w w' : world) (date_time : gmap string string) :
  read_metafile skip metafile w = (Ok date_time, w') →
  parsed_fields date_time.
Proof.
  intros (text & _ & Hlines)%read_metafile_returns.
  eapply read_lines_fields; [done|apply empty_fields].
Qed.

(** In [i.landsat.import.py] a line with a time key never leaves a
    dictionary behind: the block that reads it ends with an exception. *)
Lemma landsat_read_time_same (line : string)
    (date_time date_time' : gmap string string) :
  Landsat.read_time line date_time = Ok date_time' →
  date_time' = date_time.
Proof.
  unfold Landsat.read_time.
  destruct (any_in TIME_STRINGS line); [|by intros [= <-]].
  destruct (value_of _) as [time|]; cbn; [|done].
  destruct (Str.nth 0 _) as [whole|]; cbn; [|done].
  by destruct (Str.split ":" whole) as [|? [|? [|? [|? ?]]]].
Qed.

Lemma read_date_other_keys (line key : string)
    (date_time date_time' : gmap string string) :
  read_date line date_time = Ok date_time' → key ≠ "date" →
  date_time' !! key = date_time !! key.
Proof.
  unfold read_date. destruct (any_in DATE_STRINGS line); [|by intros [= <-]].
  destruct (value_of line) as [date|]; cbn; [|done].
  destruct (validate_date_string date); cbn; [|done].
  intros [= <-] Hkey. by rewrite lookup_insert_ne.
Qed.

Lemma landsat_read_lines_fields (lines : list string)
    (date_time date_time' : gmap string string) :
  Landsat.read_lines lines date_time = Ok date_time' →
  (parsed_fields date_time → parsed_fields date_time')
  ∧ ∀ key, key ≠ "date" → date_time' !! key = date_time !! key.
Proof.
  revert date_time.
  induction lines as [|line lines IH]; intros d; cbn [Landsat.read_lines].
  { by intros [= <-]. }
  destruct (Landsat.read_line line d) as [d1|] eqn:Hline; cbn; [|done].
  intros [IHfields IHkeys]%IH. revert Hline. unfold Landsat.read_line.
  destruct (_ =? _)%nat; [by intros [= <-]|].
  destruct (read_date _ d) as [d2|] eqn:Hdate; cbn; [|done].
  intros ->%landsat_read_time_same. split.
  - intros Hd. by eapply IHfields, read_date_fields.
  - intros key Hkey. rewrite IHkeys by done.
    by eapply read_date_other_keys.
Qed.

Lemma landsat_read_metafile_fields (metafile : string)
    (w w' : world) (date_time : gmap string string) :
  Landsat.read_metafile metafile w = (Ok date_time, w') →
  parsed_fields date_time
  ∧ ∀ key, key ≠ "date" → date_time !! key = None.
Proof.
  unfold Landsat.read_metafile, py_open.
  destruct (files w !! metafile) as [text|]; [|done].
  intros [= [Hfields Hkeys]%landsat_read_lines_fields _]. split.
  - apply Hfields, empty_fields.
  - intros key Hkey. by rewrite Hkeys, lookup_empty.
Qed.

Lemma get_timestamp_returns (options : run) (scene : string) (tgis : bool)
    (w w' : world) (date_time : gmap string string) :
  Landsat.get_timestamp options scene tgis w = (Ok (Parsed date_time), w') →
  Landsat.read_metafile (get_metafile scene tgis) w = (Ok date_time, w').
Proof.
  unfold Landsat.get_timestamp. destruct (negb _); [done|].
  unfold mbind, io_bind, mret, io_ret.
  destruct (Landsat.read_metafile _ w) as [[d|?] w1]; [|done].
  by intros [= <- <-].
Qed.

(** X9. Whatever the metadata file holds, a dictionary that [get_timestamp]
    returns has no key besides [date], [timezone], [hours], [minutes] and
    [seconds]; its date is a date of the calendar; hours, minutes and
    seconds are there together or not at all, the timezone only with them
    and only as the zero timezone; hours and minutes are two digits, at
    most 23 and 59; the seconds are one or two digits, at most 59, with at
    most six decimals. Both copies of the function, with every setting. *)
Theorem get_timestamp_fields (options : run) (scene : string)
    (skip tgis : bool) (w w' : world) (date_time : gmap string string) :
  Timestamp.get_timestamp scene skip w = (Ok date_time, w')
  ∨ Landsat.get_timestamp options scene tgis w = (Ok (Parsed date_time), w') →
  parsed_fields date_time.
Proof.
  intros [Hget|Hget%get_timestamp_returns].
  - by eapply read_metafile_fields.
  - by eapply landsat_read_metafile_fields.
Qed.

End invariant.

Lemma get_timestamp_fields_witness :
  parsed_fields (constants := spec_constants) sample_date_time.
Proof.
  apply (get_timestamp_fields (constants := spec_constants)
           (metadata := spec_metadata) (run_with EmptyString false)
           sample_scene false false (sample_world sample_metadata)
           (py_close 3
              (set_handles 4 {[3%nat]} (sample_world sample_metadata)))).
  left. vm_compute. reflexivity.
Defined.

(** ** From the parser to the report *)

Section report.
Context {constants : Constants} {metadata : Metadata}.
Variable options : run.

Lemma subscript_parsed (date_time : gmap string string) (key : string) :
  subscript (Parsed date_time) key
  = match date_time !! key with
    | Some v => Ok v
    | None => Raise (KeyError key)
    end.
Proof. done. Qed.

(** [print_timestamp] without [tgis], from the fields that it reads. *)
Lemma print_timestamp_report (name : string) (timestamp : timestamp)
    (w : world) :
  Landsat.print_timestamp options name timestamp false w
  = match Landsat.timestamp_fields timestamp with
    | Ok (date, _, time, timezone) =>
        (Ok tt,
         set_output (timestamps w)
           (log w ++ [Message (report_of date time timezone)]) w)
    | Raise e => (Raise e, w)
    end.
Proof.
  unfold Landsat.print_timestamp, mbind, io_bind, lift.
  by destruct (Landsat.timestamp_fields timestamp)
    as [[[[date parsed] time] timezone]|].
Qed.

(** [print_timestamp] under [tgis], from the fields that it reads. *)
Lemma print_timestamp_tgis (name : string) (timestamp : timestamp)
    (w : world) :
  Landsat.print_timestamp options name timestamp true w
  = match Landsat.timestamp_fields timestamp with
    | Ok _ => (Raise (NameError "GRASS_VERBOSITY_LELVEL_3"), w)
    | Raise e => (Raise e, w)
    end.
Proof.
  unfold Landsat.print_timestamp, mbind, io_bind, lift.
  by destruct (Landsat.timestamp_fields timestamp)
    as [[[[date parsed] time] timezone]|].
Qed.

Lemma print_timestamp_raises (name : string) (timestamp : timestamp)
    (tgis : bool) (w : world) (e : exn) :
  Landsat.timestamp_fields timestamp = Raise e →
  Landsat.print_timestamp options name timestamp tgis w = (Raise e, w).
Proof.
  intros Hfields.
  destruct tgis; [rewrite print_timestamp_tgis|rewrite print_timestamp_report];
    by rewrite Hfields.
Qed.

(** [simple_timestamp] reads the fields as [print_timestamp] does. *)
Lemma simple_timestamp_fields (timestamp : timestamp) :
  Timestamp.simple_timestamp timestamp
  = match Landsat.timestamp_fields timestamp with
    | Ok (date, _, time, timezone) =>
        Ok (date ++ " " ++ time ++ " " ++ timezone)
    | Raise e => Raise e
    end.
Proof.
  unfold Timestamp.simple_timestamp, Landsat.timestamp_fields.
  destruct (subscript timestamp "date") as [date|]; cbn; [|done].
  destruct (Datetime.strptime_Ymd date) as [parsed|]; cbn; [|done].
  destruct (subscript timestamp "hours") as [hours|]; cbn; [|done].
  destruct (subscript timestamp "minutes") as [minutes|]; cbn; [|done].
  destruct (subscript timestamp "seconds") as [seconds|]; cbn; [|done].
  destruct (subscript timestamp "timezone") as [timezone|]; cbn; [|done].
  by destruct (normalise_time hours minutes seconds) as [time|].
Qed.

Lemma fields_read (date_time : gmap string string) :
  parsed_fields date_time →
  match date_time !! "date", date_time !! "seconds",
        date_time !! "timezone" with
  | None, _, _ =>
      Landsat.timestamp_fields (Parsed date_time) = Raise (KeyError "date")
  | Some _, None, _ =>
      Landsat.timestamp_fields (Parsed date_time) = Raise (KeyError "hours")
  | Some _, Some _, None =>
      Landsat.timestamp_fields (Parsed date_time)
      = Raise (KeyError "timezone")
  | Some date, Some seconds, Some timezone =>
      ∃ parsed hours minutes time,
        date_time !! "hours" = Some hours
        ∧ date_time !! "minutes" = Some minutes
        ∧ normalise_time hours minutes seconds = Ok time
        ∧ String.length time = 15%nat
        ∧ timezone = ZERO_TIMEZONE
        ∧ Landsat.timestamp_fields (Parsed date_time)
          = Ok (date, parsed, time, timezone)
  end.
Proof.
  intros (_ & Hdate & Hzone & Hh & Hm & Hhours & Hminutes & Hseconds).
  unfold Landsat.timestamp_fields.
  rewrite !subscript_parsed.
  destruct (date_time !! "date") as [date|].
  2:{ by destruct (date_time !! "seconds"), (date_time !! "timezone"). }
  cbn [mbind result_bind].
  destruct (Hdate date eq_refl) as (parsed & -> & _). cbn [mbind result_bind].
  destruct (date_time !! "seconds") as [seconds|].
  2:{ destruct (date_time !! "hours") as [hours|].
      { destruct Hh as [[? [=]] _]. by eexists. }
      by destruct (date_time !! "timezone"). }
  destruct Hh as [_ [hours Ehours]]; [by eexists|].
  destruct Hm as [_ [minutes Eminutes]]; [by eexists|].
  rewrite Ehours, Eminutes. cbn [mbind result_bind].
  destruct (date_time !! "timezone") as [timezone|]; [|done].
  cbn [mbind result_bind].
  destruct (normalise_time_length hours minutes seconds)
    as (time & Htime & Hlen); [by apply Hhours|by apply Hminutes
                               |by apply Hseconds|].
  rewrite Htime. cbn [mbind result_bind].
  exists parsed, hours, minutes, time.
  destruct (Hzone timezone eq_refl) as [-> _]. done.
Qed.

Lemma fields_report (date_time : gmap string string) (name : string)
    (w : world) :
  parsed_fields date_time →
  match date_time !! "date", date_time !! "seconds",
        date_time !! "timezone" with
  | None, _, _ =>
      Landsat.print_timestamp options name (Parsed date_time) false w
      = (Raise (KeyError "date"), w)
      ∧ Timestamp.simple_timestamp (Parsed date_time)
        = Raise (KeyError "date")
  | Some _, None, _ =>
      Landsat.print_timestamp options name (Parsed date_time) false w
      = (Raise (KeyError "hours"), w)
      ∧ Timestamp.simple_timestamp (Parsed date_time)
        = Raise (KeyError "hours")
  | Some _, Some _, None =>
      Landsat.print_timestamp options name (Parsed date_time) false w
      = (Raise (KeyError "timezone"), w)
      ∧ Timestamp.simple_timestamp (Parsed date_time)
        = Raise (KeyError "timezone")
  | Some date, Some seconds, Some timezone =>
      ∃ hours minutes time,
        date_time !! "hours" = Some hours
        ∧ date_time !! "minutes" = Some minutes
        ∧ normalise_time hours minutes seconds = Ok time
        ∧ String.length time = 15%nat
        ∧ timezone = ZERO_TIMEZONE
        ∧ Landsat.print_timestamp options name (Parsed date_time) false w
          = (Ok tt,
             set_output (timestamps w)
               (log w ++ [Message (report_of date time timezone)]) w)
        ∧ Timestamp.simple_timestamp (Parsed date_time)
          = Ok (date ++ " " ++ time ++ " " ++ timezone)
  end.
Proof.
  intros Hfields%fields_read.
  rewrite print_timestamp_report, simple_timestamp_fields.
  destruct (date_time !! "date") as [date|].
  2:{ destruct (date_time !! "seconds"), (date_time !! "timezone");
        by rewrite Hfields. }
  destruct (date_time !! "seconds") as [seconds|].
  2:{ destruct (date_time !! "timezone"); by rewrite Hfields. }
  destruct (date_time !! "timezone") as [timezone|]; [|by rewrite Hfields].
  destruct Hfields
    as (parsed & hours & minutes & time & ? & ? & ? & ? & ? & ->).
  by exists hours, minutes, time.
Qed.

(** X11. What becomes of a dictionary that [get_timestamp] of
    [timestamp.py] has returned when [print_timestamp], without [tgis],
    and [simple_timestamp] render it. Without a date, without a time or
    without a timezone, both raise [KeyError] for the first field they
    miss, [date], [hours], [timezone], and [print_timestamp] leaves the
    process state as it was. With the three, both succeed: no parsed field
    is ever refused by [strptime]. The time they show has fifteen
    characters and the timezone is the zero timezone; [print_timestamp]
    adds one message, the report with the date as parsed, to the log. *)
Theorem parsed_timestamp_report (scene name : string) (skip : bool)
    (w w' w0 : world) (date_time : gmap string string) :
  Timestamp.get_timestamp scene skip w = (Ok date_time, w') →
  match date_time !! "date", date_time !! "seconds",
        date_time !! "timezone" with
  | None, _, _ =>
      Landsat.print_timestamp options name (Parsed date_time) false w0
      = (Raise (KeyError "date"), w0)
      ∧ Timestamp.simple_timestamp (Parsed date_time)
        = Raise (KeyError "date")
  | Some _, None, _ =>
      Landsat.print_timestamp options name (Parsed date_time) false w0
      = (Raise (KeyError "hours"), w0)
      ∧ Timestamp.simple_timestamp (Parsed date_time)
        = Raise (KeyError "hours")
  | Some _, Some _, None =>
      Landsat.print_timestamp options name (Parsed date_time) false w0
      = (Raise (KeyError "timezone"), w0)
      ∧ Timestamp.simple_timestamp (Parsed date_time)
        = Raise (KeyError "timezone")
  | Some date, Some seconds, Some timezone =>
      ∃ hours minutes time,
        date_time !! "hours" = Some hours
        ∧ date_time !! "minutes" = Some minutes
        ∧ normalise_time hours minutes seconds = Ok time
        ∧ String.length time = 15%nat
        ∧ timezone = ZERO_TIMEZONE
        ∧ Landsat.print_timestamp options name (Parsed date_time) false w0
          = (Ok tt,
             set_output (timestamps w0)
               (log w0 ++ [Message (report_of date time timezone)]) w0)
        ∧ Timestamp.simple_timestamp (Parsed date_time)
          = Ok (date ++ " " ++ time ++ " " ++ timezone)
  end.
Proof.
  intros Hget%read_metafile_fields. by apply fields_report.
Qed.

End report.

Lemma parsed_timestamp_report_witness :
  ∃ time,
    String.length time = 15%nat
    ∧ log (Landsat.print_timestamp (run_with EmptyString false)
             sample_scene (Parsed sample_date_time) false
             (sample_world sample_metadata)).2
      = [Message (report_of "2015-06-12" time "+0000")]
    ∧ Timestamp.simple_timestamp (Parsed sample_date_time)
      = Ok ("2015-06-12" ++ " " ++ time ++ " " ++ "+0000").
Proof.
  pose proof (parsed_timestamp_report (constants := spec_constants)
                (metadata := spec_metadata) (run_with EmptyString false)
                sample_scene sample_scene false
                (sample_world sample_metadata)
                (py_close 3
                   (set_handles 4 {[3%nat]} (sample_world sample_metadata)))
                (sample_world sample_metadata)
                sample_date_time) as Hreport.
  destruct Hreport
    as (hours & minutes & time & _ & _ & _ & Hlen & _ & Hprint & Hsimple);
    [vm_compute; reflexivity|].
  exists time. split; [exact Hlen|]. split; [|exact Hsimple].
  by rewrite Hprint.
Defined.

(** ** The catalogue line *)

Section catalogue.
Context {constants : Constants}.
Variable options : run.

(** X12. The catalogue line of a timestamp, [prefix], scene, a bar, the
    date as day, month name and year, the time with six decimals and the
    timezone, is built by [build_tgis_timestamp] of [timestamp.py] for
    every timestamp that [simple_timestamp] renders, and for no other:
    the two fail together, with the same exception.
    [print_timestamp] under [tgis] never prints a line. It fails as they
    do where they fail, with the process state untouched; where they
    succeed it ends with [NameError] at the read of
    [GRASS_VERBOSITY_LELVEL_3], before the verbosity is set and before
    any message. *)
Theorem catalogue_line_not_printed (prefix scene : string)
    (timestamp : timestamp) (w : world) :
  match Timestamp.simple_timestamp timestamp with
  | Ok _ =>
      (∃ date parsed time timezone,
         Landsat.timestamp_fields timestamp
         = Ok (date, parsed, time, timezone)
         ∧ Timestamp.build_tgis_timestamp prefix scene timestamp w
           = (Ok (prefix ++ scene ++ "|" ++ Datetime.strftime_dbY parsed
                  ++ " " ++ time ++ " " ++ timezone),
              set_output (timestamps w)
                (log w ++ [SetEnv "GRASS_VERBOSE" GRASS_VERBOSITY_LELVEL_3])
                w))
      ∧ Landsat.print_timestamp options scene timestamp true w
        = (Raise (NameError "GRASS_VERBOSITY_LELVEL_3"), w)
  | Raise e =>
      Timestamp.build_tgis_timestamp prefix scene timestamp w
      = (Raise e, w)
      ∧ Landsat.print_timestamp options scene timestamp true w
        = (Raise e, w)
  end.
Proof.
  rewrite print_timestamp_tgis, simple_timestamp_fields.
  unfold Landsat.timestamp_fields, Timestamp.build_tgis_timestamp.
  unfold mbind, io_bind, result_bind, lift.
  destruct (subscript timestamp "date") as [date|]; cbn; [|done].
  destruct (Datetime.strptime_Ymd date) as [parsed|]; cbn; [|done].
  destruct (subscript timestamp "hours") as [hours|]; cbn; [|done].
  destruct (subscript timestamp "minutes") as [minutes|]; cbn; [|done].
  destruct (subscript timestamp "seconds") as [seconds|]; cbn; [|done].
  destruct (subscript timestamp "timezone") as [timezone|]; cbn; [|done].
  destruct (normalise_time hours minutes seconds) as [time|]; cbn; [|done].
  split; [|done]. by exists date, parsed, time, timezone.
Qed.

End catalogue.

(** ** The date handed to [r.timestamp] *)

Section stamp.
Context {constants : Constants} {metadata : Metadata}.

Lemma day_text_without_hyphen (x : string) :
  day_text x → Str.has_char "-" x = false.
Proof. by intros (n & _ & _ & ?)%day_text_reads. Qed.

Lemma month_text_without_hyphen (x : string) :
  month_text x → Str.has_char "-" x = false.
Proof. by intros (n & _ & _ & ?)%month_text_reads. Qed.

Lemma fields_stamp (date_time : gmap string string) :
  parsed_fields date_time →
  match date_time !! "date" with
  | None => build_r_timestamp (Parsed date_time) = Raise (KeyError "date")
  | Some date =>
      ∃ ys ms ds,
        date = ys ++ "-" ++ ms ++ "-" ++ ds
        ∧ digit_run 4 4 ys ∧ month_text ms ∧ day_text ds
        ∧ (MONTHS !! ms = None →
           build_r_timestamp (Parsed date_time) = Raise (KeyError ms))
        ∧ ∀ name, MONTHS !! ms = Some name →
            match date_time !! "seconds" with
            | None =>
                build_r_timestamp (Parsed date_time)
                = Raise (KeyError "hours")
            | Some seconds =>
                ∃ hours minutes,
                  date_time !! "hours" = Some hours
                  ∧ date_time !! "minutes" = Some minutes
                  ∧ build_r_timestamp (Parsed date_time)
                    = Ok (ds ++ " " ++ name ++ " " ++ ys ++ " "
                          ++ hours ++ ":" ++ minutes ++ ":" ++ seconds)
            end
  end.
Proof.
  intros (_ & Hdate & _ & Hh & Hm & _).
  unfold build_r_timestamp. rewrite !subscript_parsed.
  destruct (date_time !! "date") as [date|]; [|done].
  destruct (Hdate date eq_refl) as (parsed & Hparse & _).
  apply strptime_Ymd_calendar in Hparse
    as (_ & _ & _ & ys & ms & ds & -> & Hy & Hms & Hds & _).
  exists ys, ms, ds. repeat (split; [done|]).
  cbn [mbind result_bind].
  assert (Str.has_char "-" (ys ++ "-" ++ ms ++ "-" ++ ds) = true) as ->.
  { rewrite !has_char_app. cbn. by rewrite !orb_true_r. }
  assert (Str.split "-" (ys ++ "-" ++ ms ++ "-" ++ ds) = [ys; ms; ds]) as ->.
  { rewrite !app_cons, !app_nil. apply split_three.
    - apply digits_without; [reflexivity|apply (proj1 Hy)].
    - by apply month_text_without_hyphen.
    - by apply day_text_without_hyphen. }
  cbn [mbind result_bind]. split.
  - by intros ->.
  - intros name ->. cbn [mbind result_bind].
    destruct (date_time !! "seconds") as [seconds|].
    + destruct Hh as [_ [hours Ehours]]; [by eexists|].
      destruct Hm as [_ [minutes Eminutes]]; [by eexists|].
      exists hours, minutes. rewrite Ehours, Eminutes.
      split; [done|]. split; [done|]. cbn [mbind result_bind].
      unfold Str.join. cbn [String.concat]. by rewrite !app_assoc'.
    + destruct (date_time !! "hours") as [hours|]; [|done].
      destruct Hh as [[? [=]] _]. by eexists.
Qed.

(** X13. What [set_timestamp] builds for [r.timestamp] from a dictionary
    that [get_timestamp] of [timestamp.py] has returned, by the statements
    that [build_r_timestamp] has in common with [set_timestamp] of
    [i.landsat.import.py]. Without a date it raises [KeyError]. With
    one, the date is [year-month-day] as the parser has validated it, and
    the outcome hangs on the table of months alone: [KeyError] for a month
    text that the table does not have, a month of one digit among them;
    otherwise [KeyError] without a time, and with one the text
    [day month-name year hours:minutes:seconds], the seconds as the parser
    left them and no timezone. *)
Theorem parsed_timestamp_stamp (scene : string) (skip : bool)
    (w w' : world) (date_time : gmap string string) :
  Timestamp.get_timestamp scene skip w = (Ok date_time, w') →
  match date_time !! "date" with
  | None => build_r_timestamp (Parsed date_time) = Raise (KeyError "date")
  | Some date =>
      ∃ ys ms ds,
        date = ys ++ "-" ++ ms ++ "-" ++ ds
        ∧ digit_run 4 4 ys ∧ month_text ms ∧ day_text ds
        ∧ (MONTHS !! ms = None →
           build_r_timestamp (Parsed date_time) = Raise (KeyError ms))
        ∧ ∀ name, MONTHS !! ms = Some name →
            match date_time !! "seconds" with
            | None =>
                build_r_timestamp (Parsed date_time)
                = Raise (KeyError "hours")
            | Some seconds =>
                ∃ hours minutes,
                  date_time !! "hours" = Some hours
                  ∧ date_time !! "minutes" = Some minutes
                  ∧ build_r_timestamp (Parsed date_time)
                    = Ok (ds ++ " " ++ name ++ " " ++ ys ++ " "
                          ++ hours ++ ":" ++ minutes ++ ":" ++ seconds)
            end
  end.
Proof.
  intros Hget%read_metafile_fields. by apply fields_stamp.
Qed.

End stamp.

Lemma parsed_timestamp_stamp_witness :
  ∃ ys ms ds,
    "2015-06-12" = ys ++ "-" ++ ms ++ "-" ++ ds
    ∧ digit_run 4 4 ys ∧ month_text ms ∧ day_text ds
    ∧ (MONTHS (Constants := spec_constants) !! ms = None →
       build_r_timestamp (constants := spec_constants)
         (Parsed sample_date_time) = Raise (KeyError ms))
    ∧ ∀ name, MONTHS (Constants := spec_constants) !! ms = Some name →
        ∃ hours minutes,
          sample_date_time !! "hours" = Some hours
          ∧ sample_date_time !! "minutes" = Some minutes
          ∧ build_r_timestamp (constants := spec_constants)
              (Parsed sample_date_time)
            = Ok (ds ++ " " ++ name ++ " " ++ ys ++ " "
                  ++ hours ++ ":" ++ minutes ++ ":" ++ "23.123456").
Proof.
  apply (parsed_timestamp_stamp (constants := spec_constants)
           (metadata := spec_metadata)
           sample_scene false (sample_world sample_metadata)
           (py_close 3
              (set_handles 4 {[3%nat]} (sample_world sample_metadata)))
           sample_date_time).
  vm_compute. reflexivity.
Defined.

(** ** The outcomes of [get_name_band] *)

Section band_outcome.
Context {constants : Constants}.

Lemma int_outcome (s : string) :
  (∃ n, Num.int s = Ok n)
  ∨ Num.int s = Raise (ValueError "invalid literal for int() with base 10").
Proof.
  unfold Num.int. destruct (Num.split_sign _) as [neg body].
  destruct (Num.drop_underscores false body) as [ds|]; [|by right].
  destruct (Str.isdigit ds); [left; by eexists|by right].
Qed.

Lemma band_int_outcome (s : string) (name : string) :
  (∃ band, (BandInt <$> Num.int s) ≫= (λ band, Ok (name, band))
           = Ok (name, band))
  ∨ (BandInt <$> Num.int s) ≫= (λ band, Ok (name, band))
    = Raise (ValueError "invalid literal for int() with base 10").
Proof.
  destruct (int_outcome s) as [[n ->]| ->]; [left; by eexists|by right].
Qed.

Lemma app_inj_prefix (a x y : string) : a ++ x = a ++ y → x = y.
Proof.
  induction a as [|c a IH]; [done|]. rewrite !app_cons. intros [= ?]. auto.
Qed.

(** X14. [get_name_band] on every scene and file name. When the path of the
    file holds the metadata marker the call is fatal. Otherwise it returns
    a name and a band, or raises the [ValueError] of [int] on a token that
    holds no number; no other exception leaves it. The flag for a single
    mapset changes the name only, by putting the base name of the scene
    and an underscore before it: the band and the failures are the
    same. *)
Theorem get_name_band_outcome (scene filename : string) :
  (Str.contains MTL_STRING (Path.join scene filename) = true →
   ∀ single_mapset,
     Landsat.get_name_band scene filename single_mapset
     = Raise (Fatal "Detected an MTL file with the .TIF extension!"))
  ∧ (Str.contains MTL_STRING (Path.join scene filename) = false →
     ∀ single_mapset,
       (∃ name band,
          Landsat.get_name_band scene filename single_mapset
          = Ok (name, band))
       ∨ Landsat.get_name_band scene filename single_mapset
         = Raise (ValueError "invalid literal for int() with base 10"))
  ∧ (∀ name band,
       Landsat.get_name_band scene filename false = Ok (name, band) ↔
       Landsat.get_name_band scene filename true
       = Ok (Path.basename scene ++ "_" ++ name, band))
  ∧ ∀ e, Landsat.get_name_band scene filename false = Raise e ↔
         Landsat.get_name_band scene filename true = Raise e.
Proof.
  unfold Landsat.get_name_band.
  set (token :=
         if any_in IMAGE_QUALITY_STRINGS (Path.join scene filename)
         then token ← Str.last_item
                        (Str.split "_"
                           (Path.splitext (Path.join scene filename)).1);
              Ok (Str.join EmptyString (Landsat.chars token))
         else Str.last_item (Str.split "_" (Path.splitext filename).1)).
  assert (∃ name, token = Ok name) as [name ->].
  { unfold token. destruct (any_in _ _).
    - destruct (split_last_item "_"
                  (Path.splitext (Path.join scene filename)).1) as [t ->].
      by eexists.
    - apply split_last_item. }
  cbn [mbind result_bind].
  destruct (Str.contains MTL_STRING _) eqn:Hmtl.
  { cbn [mbind result_bind]. split; [done|]. split; [done|].
    split; intros; split; done. }
  set (band :=
         if Str.contains QA_STRING (Path.join scene filename)
         then Ok (BandStr name)
         else _).
  assert ((∃ b, band = Ok b)
          ∨ band = Raise (ValueError "invalid literal for int() with base 10"))
    as [[b ->]| ->].
  { unfold band. destruct (Str.contains QA_STRING _); [left; by eexists|].
    repeat match goal with
           | |- context [if ?c then _ else _] => destruct c
           end;
      match goal with
      | |- context [Num.int ?s] =>
          destruct (int_outcome s) as [[n ->]| ->]
      end; (left; by eexists) || by right. }
  - cbn [mbind result_bind]. split; [done|]. split.
    { intros _ single_mapset. left. by eexists _, _. }
    split.
    + intros name' band'. split.
      * by intros [= <- <-].
      * intros [= Hname <-].
        apply app_inj_prefix, (app_inj_prefix "_") in Hname. by subst.
    + intros e. split; done.
  - cbn [mbind result_bind]. split; [done|]. split; [by right|].
    split; [|done]. intros name' band'. split; done.
Qed.

End band_outcome.

(** ** Runs that only list *)

Section dry_run.
Context {constants : Constants} {identifiers : Identifiers}
  {metadata : Metadata}.
Variable options : run.

Lemma quiet_refl (w : world) : quiet w w.
Proof.
  repeat (split; [done|]). exists []. by rewrite app_nil_r.
Qed.

Lemma quiet_trans (w1 w2 w3 : world) : quiet w1 w2 → quiet w2 w3 → quiet w1 w3.
Proof.
  intros (Hf1 & Hl1 & Hr1 & Hm1 & n1 & Hlog1 & Hn1)
         (Hf2 & Hl2 & Hr2 & Hm2 & n2 & Hlog2 & Hn2).
  split; [congruence|]. split; [congruence|]. split; [congruence|].
  split; [congruence|]. exists (n1 ++ n2)%list.
  split; [by rewrite Hlog2, Hlog1, <- List.app_assoc|].
  unfold commands in *. by rewrite omap_app, Hn1, Hn2.
Qed.

Lemma keeps_ret {A} (a : A) : keeps quiet (mret a : io A).
Proof. intros w. apply quiet_refl. Qed.

Lemma keeps_lift {A} (r : result A) : keeps quiet (lift r).
Proof. intros w. apply quiet_refl. Qed.

Lemma keeps_bind {A B} (m : io A) (k : A → io B) :
  keeps quiet m → (∀ a, keeps quiet (k a)) → keeps quiet (m ≫= k).
Proof.
  intros Hm Hk w. specialize (Hm w). unfold mbind, io_bind.
  destruct (m w) as [[a|e] w1]; [|done].
  eapply quiet_trans; [done|apply Hk].
Qed.

Lemma keeps_when (b : bool) (m : io unit) :
  keeps quiet m → keeps quiet (when b m).
Proof. intros Hm. destruct b; [done|apply keeps_ret]. Qed.

Lemma keeps_for_each {A} (xs : list A) (body : A → io unit) :
  (∀ x, keeps quiet (body x)) → keeps quiet (for_each xs body).
Proof.
  intros Hbody. induction xs as [|x xs IH]; [apply keeps_ret|].
  apply keeps_bind; [apply Hbody|done].
Qed.

Lemma keeps_message (text : string) : keeps quiet (emit (Message text)).
Proof. intros w. repeat (split; [done|]). by exists [Message text]. Qed.

Lemma keeps_setenv (name value : string) :
  keeps quiet (emit (SetEnv name value)).
Proof. intros w. repeat (split; [done|]). by exists [SetEnv name value]. Qed.

Lemma keeps_append_timestamp (message : string) :
  keeps quiet (append_timestamp message).
Proof.
  intros w. repeat (split; [done|]). exists []. cbn. by rewrite app_nil_r.
Qed.

Lemma keeps_listdir (path : string) : keeps quiet (listdir path).
Proof.
  intros w. unfold listdir. destruct (listing w !! path); apply quiet_refl.
Qed.

Lemma keeps_read_metafile (metafile : string) :
  keeps quiet (Landsat.read_metafile metafile).
Proof.
  intros w. unfold Landsat.read_metafile, py_open.
  destruct (files w !! metafile) as [text|]; [|apply quiet_refl].
  repeat (split; [done|]). exists []. cbn. by rewrite app_nil_r.
Qed.

Lemma keeps_get_timestamp (scene : string) (tgis : bool) :
  keeps quiet (Landsat.get_timestamp options scene tgis).
Proof.
  unfold Landsat.get_timestamp. destruct (negb _); [apply keeps_ret|].
  apply keeps_bind; [apply keeps_read_metafile|]. intros d. apply keeps_ret.
Qed.

Lemma keeps_print_timestamp (scene : string) (timestamp : timestamp)
    (tgis : bool) :
  keeps quiet (Landsat.print_timestamp options scene timestamp tgis).
Proof.
  unfold Landsat.print_timestamp.
  apply keeps_bind; [apply keeps_lift|].
  intros [[[date parsed] time] timezone].
  apply keeps_bind; [|intros message; apply keeps_message].
  destruct tgis; [|apply keeps_ret].
  apply keeps_bind; [apply keeps_lift|]. intros verbosity.
  apply keeps_bind; [apply keeps_setenv|]. intros _.
  apply keeps_bind; [apply keeps_lift|]. intros tgis_output.
  apply keeps_bind; [|intros _; apply keeps_ret].
  apply keeps_when, keeps_bind; [apply keeps_lift|]. intros _.
  apply keeps_append_timestamp.
Qed.

Lemma keeps_import_band (scene mapset memory : string)
    (single_mapset list_bands tgis : bool) (timestamp : timestamp)
    (filename : string) :
  list_bands || tgis = true →
  keeps quiet
    (Landsat.import_band options scene mapset memory single_mapset
       list_bands tgis timestamp filename).
Proof.
  intros Hdry. unfold Landsat.import_band. rewrite Hdry. cbn [negb].
  destruct (negb _); [apply keeps_ret|].
  apply keeps_bind; [apply keeps_lift|]. intros [name band].
  apply keeps_bind; [|intros _; apply keeps_ret].
  apply keeps_when, keeps_bind; [apply keeps_lift|]. intros skip_import.
  apply keeps_when, keeps_message.
Qed.

(** X15. With the flag that lists the bands or the flag that lists the
    timestamps, [import_geotiffs] does nothing but report, whatever the
    scene holds and however the run ends: it calls no module of GRASS, so
    no mapset is made or entered, nothing is imported and no map is
    stamped, and the files, the directories and the rasters of the data
    base stay as they were. The log grows by messages and by the setting
    of the verbosity only. *)
Theorem import_geotiffs_dry_run (scene : string) (bands : Landsat.selection)
    (mapset memory : string) (single_mapset list_bands tgis : bool)
    (w : world) :
  list_bands || tgis = true →
  quiet w
    (Landsat.import_geotiffs options scene bands mapset memory single_mapset
       list_bands tgis w).2.
Proof.
  intros Hdry. revert w. fold (keeps quiet
    (Landsat.import_geotiffs options scene bands mapset memory single_mapset
       list_bands tgis)).
  unfold Landsat.import_geotiffs.
  apply keeps_bind; [apply keeps_get_timestamp|]. intros timestamp.
  apply keeps_bind; [apply keeps_print_timestamp|]. intros _.
  apply keeps_bind; [apply keeps_when, keeps_message|]. intros _.
  apply keeps_bind.
  { destruct bands; [|apply keeps_ret].
    apply keeps_bind; [apply keeps_listdir|]. intros names. apply keeps_ret. }
  intros filenames.
  apply keeps_bind.
  { apply keeps_for_each. intros filename. by apply keeps_import_band. }
  intros _. replace (negb list_bands && negb tgis) with false.
  - apply keeps_ret.
  - by destruct list_bands, tgis.
Qed.

End dry_run.

Lemma import_geotiffs_dry_run_witness :
  quiet (sample_world sample_metadata)
    (Landsat.import_geotiffs (constants := spec_constants)
       (identifiers := spec_identifiers) (metadata := spec_metadata)
       (run_with EmptyString false) sample_scene Landsat.All
       "PERMANENT" "300" false true false (sample_world sample_metadata)).2.
Proof.
  apply (import_geotiffs_dry_run (constants := spec_constants)
           (identifiers := spec_identifiers) (metadata := spec_metadata)).
  reflexivity.
Defined.

(** ** Runs of the script as it stands *)

Section imports.
Context {constants : Constants} {identifiers : Identifiers}
  {metadata : Metadata}.
Variable options : run.

Lemma get_timestamp_silent (scene : string) (tgis : bool) (w : world) :
  let fetched := Landsat.get_timestamp options scene tgis w in
  log fetched.2 = log w ∧ timestamps fetched.2 = timestamps w
  ∧ rasters fetched.2 = rasters w
  ∧ current_mapset fetched.2 = current_mapset w.
Proof.
  cbn zeta. unfold Landsat.get_timestamp. destruct (negb _); [done|].
  unfold mbind, io_bind, Landsat.read_metafile, py_open.
  destruct (files w !! _) as [text|]; [|done].
  by destruct (Landsat.read_lines _ _).
Qed.

Lemma import_geotiffs_stops (scene : string) (bands : Landsat.selection)
    (mapset memory : string) (single_mapset list_bands tgis : bool)
    (w w1 : world) (timestamp : timestamp) (e : exn) :
  Landsat.get_timestamp options scene tgis w = (Ok timestamp, w1) →
  Landsat.timestamp_fields timestamp = Raise e →
  Landsat.import_geotiffs options scene bands mapset memory single_mapset
    list_bands tgis w = (Raise e, w1).
Proof.
  intros Hget Hfields.
  pose proof (print_timestamp_raises options (Path.basename scene) timestamp
                tgis w1 e Hfields) as Hprint.
  unfold Landsat.import_geotiffs, mbind, io_bind.
  by rewrite Hget, Hprint.
Qed.

(** X16. No call of [import_geotiffs] returns: it ends with an exception
    before the first band is looked at, in the state in which
    [get_timestamp] has left the process, so that nothing has been
    reported, no module of GRASS has been called and nothing has been
    imported or stamped. The exception is that of [get_timestamp] when it
    raises, among them the [NameError] for [skip_microseconds] of a
    metadata file with a time line; [TypeError] from [print_timestamp] for
    a manual timestamp, which is no dictionary; and for the dictionary of a
    metadata file, which then has no time, [KeyError] from
    [print_timestamp], for [hours] when the file has a date and for [date]
    when it has none. *)
Theorem import_geotiffs_never_returns (scene : string)
    (bands : Landsat.selection) (mapset memory : string)
    (single_mapset list_bands tgis : bool) (w : world) :
  let fetched := Landsat.get_timestamp options scene tgis w in
  ∃ e,
    Landsat.import_geotiffs options scene bands mapset memory single_mapset
      list_bands tgis w = (Raise e, fetched.2)
    ∧ log fetched.2 = log w ∧ timestamps fetched.2 = timestamps w
    ∧ rasters fetched.2 = rasters w
    ∧ current_mapset fetched.2 = current_mapset w
    ∧ match fetched.1 with
      | Raise raised => e = raised
      | Ok (Manual _) => e = TypeError
      | Ok (Parsed date_time) =>
          date_time !! "hours" = None
          ∧ e = match date_time !! "date" with
                | Some _ => KeyError "hours"
                | None => KeyError "date"
                end
      end.
Proof.
  cbn zeta.
  destruct (get_timestamp_silent scene tgis w) as (Hlog & Hts & Hr & Hm).
  destruct (Landsat.get_timestamp options scene tgis w)
    as [[[text|date_time]|raised] w1] eqn:Hget; cbn [fst snd] in *.
  - exists TypeError. split; [|done].
    by eapply import_geotiffs_stops.
  - pose proof Hget as [Hfields Hkeys]
      %get_timestamp_returns%landsat_read_metafile_fields.
    pose proof (fields_read date_time Hfields) as Hread.
    rewrite (Hkeys "seconds") in Hread by done.
    eexists. split; [|repeat (split; [done|])].
    + eapply import_geotiffs_stops; [exact Hget|].
      instantiate (1 := match date_time !! "date" with
                        | Some _ => KeyError "hours"
                        | None => KeyError "date"
                        end).
      by destruct (date_time !! "date").
    + split; [|done]. by apply Hkeys.
  - exists raised. split; [|done].
    unfold Landsat.import_geotiffs, mbind, io_bind. by rewrite Hget.
Qed.

Lemma import_band_run (scene mapset memory : string)
    (single_mapset list_bands tgis : bool) (timestamp : timestamp)
    (filename : string) (w : world) :
  Landsat.import_band options scene mapset memory single_mapset list_bands
    tgis timestamp filename w
  = if is_geotiff filename then
      match Landsat.get_name_band scene filename single_mapset with
      | Raise e => (Raise e, w)
      | Ok _ => if tgis then (Ok tt, w)
                else (Raise (NameError "skip_import"), w)
      end
    else (Ok tt, w).
Proof.
  unfold Landsat.import_band, is_geotiff.
  destruct (String.eqb _ GEOTIFF_EXTENSION); cbn [negb]; [|done].
  unfold mbind, io_bind, lift.
  destruct (Landsat.get_name_band scene filename single_mapset)
    as [[name band]|e]; [|done].
  destruct tgis; [|done]. by destruct list_bands.
Qed.

(** X17. What the body of the loop of [import_geotiffs] does with one file
    name. A name without the extension of a GeoTIFF is passed over. For a
    GeoTIFF whose band [get_name_band] cannot name, the exception of
    [get_name_band] ends the loop. For any other GeoTIFF the body does
    nothing under [tgis], and without [tgis] it ends with [NameError] at
    the first read of [skip_import], before the band is reported. In each
    case the process state is left as it was. So without [tgis] the loop
    over the file names ends at the first GeoTIFF among them, with the
    exception of [get_name_band] or with that [NameError], and returns
    only when there is none. *)
Theorem import_band_outcome (scene mapset memory : string)
    (single_mapset list_bands : bool) (timestamp : timestamp) (w : world) :
  (∀ tgis filename,
     Landsat.import_band options scene mapset memory single_mapset
       list_bands tgis timestamp filename w
     = if is_geotiff filename then
         match Landsat.get_name_band scene filename single_mapset with
         | Raise e => (Raise e, w)
         | Ok _ => if tgis then (Ok tt, w)
                   else (Raise (NameError "skip_import"), w)
         end
       else (Ok tt, w))
  ∧ ∀ filenames,
      for_each filenames
        (Landsat.import_band options scene mapset memory single_mapset
           list_bands false timestamp) w
      = match List.find is_geotiff filenames with
        | Some filename =>
            match Landsat.get_name_band scene filename single_mapset with
            | Raise e => (Raise e, w)
            | Ok _ => (Raise (NameError "skip_import"), w)
            end
        | None => (Ok tt, w)
        end.
Proof.
  split; [intros tgis filename; apply import_band_run|].
  intros filenames. induction filenames as [|filename filenames IH]; [done|].
  cbn [for_each List.find]. unfold mbind at 1. unfold io_bind at 1.
  rewrite import_band_run.
  destruct (is_geotiff filename); [|exact IH].
  by destruct (Landsat.get_name_band scene filename single_mapset).
Qed.

End imports.
